(** * Drawing editor: document model, pointer handlers and text persistence

    A shallow embedding of [drawing_editor.py].  The Python objects
    ([Shape], [Group]) live in an explicit object heap and are named by
    references, because the program shares and mutates them in place; the
    Tk canvas the editor draws on is a display list keyed by item id; the
    methods of [DrawCanvas] and [FileManager] are computations in a state
    and exception monad over the whole editor state. *)

From Stdlib Require Import ZArith QArith Qfield Lia Ascii String.
From stdpp Require Import base gmap list strings pretty sorting.

Local Open Scope string_scope.
Local Open Scope Z_scope.
Local Open Scope list_scope.

(** ** Python values *)

Module Py.

(** The exceptions the modelled methods can raise. *)
Inductive exn :=
  | IndexError | ValueError | AttributeError | TypeError
  | TclError | FileNotFoundError.

Inductive Result (A : Type) :=
  | Ok (a : A)
  | Raise (e : exn).
Arguments Ok {A} a.
Arguments Raise {A} e.

(** Numbers are Python [int]s (pointer coordinates, parsed file tokens) or
    [float]s (whatever comes back from Tk, and the result of [/]).  A float
    is modelled by the rational it denotes, kept in lowest terms; on the
    half-integers a canvas of a few thousand pixels produces, IEEE doubles
    compute the same values exactly. *)
Inductive num :=
  | PyInt (n : Z)
  | PyFloat (q : Q).

Definition to_float (a : num) : Q :=
  match a with
  | PyInt n => inject_Z n
  | PyFloat q => q
  end.

(** Floats are modelled by the rationals they denote, so sums, differences
    and halvings are exact here.  They are those of doubles on the
    multiples of 1/1024 within 100000 of zero ([pixel] below); what is
    proved of moved and copied coordinates is stated for that range. *)
Definition add (a b : num) : num :=
  match a, b with
  | PyInt m, PyInt n => PyInt (m + n)
  | _, _ => PyFloat (Qred (to_float a + to_float b))
  end.

Definition sub (a b : num) : num :=
  match a, b with
  | PyInt m, PyInt n => PyInt (m - n)
  | _, _ => PyFloat (Qred (to_float a - to_float b))
  end.

(** [a / 2]: true division always yields a float. *)
Definition div2 (a : num) : num :=
  PyFloat (Qred (to_float a / inject_Z 2)).

(** [str] of a number, as an f-string renders it: [10] for an int, [10.0]
    or [10.5] for a float (the decimal expansion, which for the dyadic
    values met here terminates and is what [repr] prints). *)
Definition digit_char (d : Z) : ascii :=
  ascii_of_nat (Z.to_nat (48 + d)).

Fixpoint frac_digits (fuel : nat) (r d : Z) : string :=
  match fuel with
  | O => EmptyString
  | S fuel' =>
      if r =? 0 then EmptyString
      else String (digit_char (10 * r / d)) (frac_digits fuel' ((10 * r) mod d) d)
  end.

Definition float_repr (q : Q) : string :=
  let n := Qnum q in
  let d := Z.pos (Qden q) in
  let a := Z.abs n in
  let fr := frac_digits 17 (a mod d) d in
  (if n <? 0 then "-" else "") +:+ pretty (a / d) +:+ "." +:+
  (match fr with EmptyString => "0" | _ => fr end).

Definition str (a : num) : string :=
  match a with
  | PyInt n => pretty n
  | PyFloat q => float_repr q
  end.

(** Truthiness of an optional string ([None] and [''] are false). *)
Definition truthy (s : option string) : bool :=
  match s with
  | Some (String _ _) => true
  | _ => false
  end.

(** [sub in s] on strings. *)
Fixpoint contains (sub s : string) : bool :=
  String.prefix sub s ||
  match s with
  | EmptyString => false
  | String _ s' => contains sub s'
  end.

(** [s.split(sep)] for a one-character separator: empty fields are kept
    and the result is never empty. *)
Fixpoint split (sep : ascii) (s : string) : list string :=
  match s with
  | EmptyString => [EmptyString]
  | String c s' =>
      if Ascii.eqb c sep then EmptyString :: split sep s'
      else match split sep s' with
           | w :: ws => String c w :: ws
           | [] => [String c EmptyString]
           end
  end.

(** ASCII whitespace, as [str.strip] and [int] see it. *)
Definition is_space (c : ascii) : bool :=
  let n := Z.of_nat (nat_of_ascii c) in
  ((9 <=? n) && (n <=? 13)) || ((28 <=? n) && (n <=? 32)).

Fixpoint lstrip (s : string) : string :=
  match s with
  | String c s' => if is_space c then lstrip s' else s
  | EmptyString => EmptyString
  end.

Fixpoint rstrip (s : string) : string :=
  match s with
  | EmptyString => EmptyString
  | String c s' =>
      match rstrip s' with
      | EmptyString => if is_space c then EmptyString else String c EmptyString
      | r => String c r
      end
  end.

Definition strip (s : string) : string := rstrip (lstrip s).

(** [int(s)] in base ten: surrounding whitespace, an optional sign, digits
    with single underscores between them; anything else is a
    [ValueError]. *)
Definition digit_val (c : ascii) : option Z :=
  let n := Z.of_nat (nat_of_ascii c) in
  if (48 <=? n) && (n <=? 57) then Some (n - 48) else None.

Fixpoint parse_digits (acc : Z) (after_underscore : bool) (s : string) : option Z :=
  match s with
  | EmptyString => if after_underscore then None else Some acc
  | String c s' =>
      if Ascii.eqb c "_"%char then
        if after_underscore then None else parse_digits acc true s'
      else
        match digit_val c with
        | Some d => parse_digits (10 * acc + d) false s'
        | None => None
        end
  end.

Definition int (s : string) : Result Z :=
  let t := strip s in
  let '(neg, body) :=
    match t with
    | String c r =>
        if Ascii.eqb c "-"%char then (true, r)
        else if Ascii.eqb c "+"%char then (false, r)
        else (false, t)
    | EmptyString => (false, t)
    end in
  match body with
  | EmptyString => Raise ValueError
  | String c _ =>
      if Ascii.eqb c "_"%char then Raise ValueError
      else match parse_digits 0 false body with
           | Some n => Ok (if neg then - n else n)
           | None => Raise ValueError
           end
  end.

(** [for line in file] on a text file opened with universal newlines:
    the lines, each with its terminator rendered as a line feed. *)
Definition LF : ascii := "010"%char.
Definition CR : ascii := "013"%char.

Fixpoint readlines_from (acc : string) (s : string) : list string :=
  match s with
  | EmptyString =>
      match acc with
      | EmptyString => []
      | _ => [String.rev acc]
      end
  | String c s' =>
      if Ascii.eqb c LF then String.rev (String LF acc) :: readlines_from EmptyString s'
      else if Ascii.eqb c CR then
        match s' with
        | String c' s'' =>
            if Ascii.eqb c' LF
            then String.rev (String LF acc) :: readlines_from EmptyString s''
            else String.rev (String LF acc) :: readlines_from EmptyString s'
        | EmptyString => [String.rev (String LF acc)]
        end
      else readlines_from (String c acc) s'
  end.

Definition readlines (content : string) : list string :=
  readlines_from EmptyString content.

(** [l.remove(x)]: drops the first occurrence, [ValueError] if there is
    none. *)
Fixpoint remove (x : nat) (l : list nat) : Result (list nat) :=
  match l with
  | [] => Raise ValueError
  | y :: l' =>
      if Nat.eqb y x then Ok l'
      else match remove x l' with
           | Ok r => Ok (y :: r)
           | Raise e => Raise e
           end
  end.

(** [l[i]] with a non-negative index. *)
Definition index {A} (l : list A) (i : nat) : Result A :=
  match l !! i with
  | Some a => Ok a
  | None => Raise IndexError
  end.

(** [l[-i]] (i = 1 is the last element). *)
Definition index_back {A} (l : list A) (i : nat) : Result A :=
  if Nat.leb i (length l) && Nat.ltb 0 i then index l (length l - i)%nat
  else Raise IndexError.

End Py.

(** ** The render surface

    The Tk canvas, as far as the editor uses it: a display list of items
    keyed by the integer id Tk hands out at creation (ids start at 1 and
    are never reused).  An item keeps its type, its coordinate list (Tk
    stores doubles) and the options the editor sets or reads.  Colour
    names are taken to be ones Tk accepts, and the transient [current] tag
    Tk puts on the item under the pointer is left out: the editor itself
    never tags an item. *)

Module Tk.

Inductive Kind := KLine | KRectangle | KPolygon | KText.

Record Item := {
  kind : Kind;
  coords : list Q;
  fill : string;
  outline : string;
  width : Q;
  tags : string;
  smooth : bool
}.

Record Canvas := {
  items : gmap Z Item;
  next_id : Z
}.

Definition empty : Canvas := {| items := ∅; next_id := 1 |}.

(** [create_line], [create_rectangle], [create_polygon]: a new item on top
    of the display list; the id is returned. *)
Definition create (k : Kind) (cs : list Py.num) (f o : string) (sm : bool)
    (c : Canvas) : Z * Canvas :=
  let it := {| kind := k; coords := map Py.to_float cs; fill := f; outline := o;
               width := 1; tags := ""; smooth := sm |} in
  (next_id c, {| items := <[next_id c := it]> (items c); next_id := next_id c + 1 |}).

(** [delete(id)]; an id that names no item is ignored. *)
Definition delete (id : Z) (c : Canvas) : Canvas :=
  {| items := base.delete id (items c); next_id := next_id c |}.

(** [delete("all")]. *)
Definition delete_all (c : Canvas) : Canvas :=
  {| items := ∅; next_id := next_id c |}.

Definition type_name (k : Kind) : string :=
  match k with
  | KLine => "line"
  | KRectangle => "rectangle"
  | KPolygon => "polygon"
  | KText => "text"
  end.

(** [type(id)]: the item's type name, [None] when no item has that id. *)
Definition type (id : Z) (c : Canvas) : option string :=
  match items c !! id with
  | Some it => Some (type_name (kind it))
  | None => None
  end.

(** [coords(id)]: the coordinate list as floats, empty when no item has
    that id. *)
Definition get_coords (id : Z) (c : Canvas) : list Py.num :=
  match items c !! id with
  | Some it => map Py.PyFloat (coords it)
  | None => []
  end.

(** [move(id, dx, dy)]: every x coordinate moves by dx, every y by dy. *)
Fixpoint shift (dx dy : Q) (cs : list Q) : list Q :=
  match cs with
  | x :: y :: cs' => Qred (x + dx) :: Qred (y + dy) :: shift dx dy cs'
  | _ => cs
  end.

Definition set_coords (cs : list Q) (it : Item) : Item :=
  {| kind := kind it; coords := cs; fill := fill it; outline := outline it;
     width := width it; tags := tags it; smooth := smooth it |}.

Definition set_fill (f : string) (it : Item) : Item :=
  {| kind := kind it; coords := coords it; fill := f; outline := outline it;
     width := width it; tags := tags it; smooth := smooth it |}.

Definition set_width (w : Q) (it : Item) : Item :=
  {| kind := kind it; coords := coords it; fill := fill it; outline := outline it;
     width := w; tags := tags it; smooth := smooth it |}.

Definition on_item (f : Item -> Item) (id : Z) (c : Canvas) : Canvas :=
  {| items := alter f id (items c); next_id := next_id c |}.

Definition move (id : Z) (dx dy : Py.num) (c : Canvas) : Canvas :=
  on_item (fun it => set_coords (shift (Py.to_float dx) (Py.to_float dy) (coords it)) it) id c.

(** [itemcget(id, option)]: the empty string when no item has that id.
    The tags are the ones the item carries in [tags]; Tk itself adds the
    tag [current] to the item under the pointer, and a property that
    depends on the tags is stated for whatever [tags] holds. *)
Definition itemcget (opt : Item -> string) (id : Z) (c : Canvas) : string :=
  match items c !! id with
  | Some it => opt it
  | None => ""
  end.

(** [itemconfig(id, width=w)] and [itemconfig(id, fill=f)]. *)
Definition itemconfig_width (id : Z) (w : Q) (c : Canvas) : Canvas :=
  on_item (set_width w) id c.

(** Any colour is taken.  Tk raises [TclError] on a colour name it does
    not know; what is proved of a colour answered at a prompt is stated
    for the colours of the editor's menus. *)
Definition itemconfig_fill (id : Z) (f : string) (c : Canvas) : Canvas :=
  on_item (set_fill f) id c.

End Tk.

(** ** The document model *)

(** The Python class of a shape object. *)
Inductive ShapeClass := Line | Rectangle.

(** A [Shape] object.  [style] exists on rectangles only; [groups] is the
    stack of group references, innermost last. *)
Record Shape := {
  cls : ShapeClass;
  x1 : Py.num;
  y1 : Py.num;
  x2 : Py.num;
  y2 : Py.num;
  color : string;
  style : option string;
  shape_id : option Z;
  groups : list nat
}.

Module Group.
(** A [Group] object: all members, the members that had no group when they
    were added, and the groups found on top of the members' stacks. *)
Record t := {
  shapes : list nat;
  indv_shapes : list nat;
  sub_grps : list nat
}.
Definition new : t := {| shapes := []; indv_shapes := []; sub_grps := [] |}.
End Group.

(** What [current_shape] holds: a shape object, or (after a sharp
    rectangle was edited) the bare id [create_rectangle] returned. *)
Inductive Current :=
  | CurShape (r : nat)
  | CurItem (id : Z).

(** The editor state: the fields of [DrawCanvas] with the Tk widget it
    extends ([tk]), the fields of its [FileManager], the object heap
    (shape and group objects by reference, with the next free reference),
    and the environment the editor acts on (the files on disk and the
    messages shown to the user, oldest first). *)
Record State := {
  tk : Tk.Canvas;
  shapes : list string;
  shape_object : list nat;
  selected_shapes : list nat;
  properties_text_ids : list Z;
  current_tool : option string;
  current_color : string;
  current_style : string;
  start_x : option Py.num;
  start_y : option Py.num;
  current_shape : option Current;
  file_opened : bool;
  mode : string;
  moving : bool;
  canvas_group : list nat;
  current_file : option string;
  unsaved_changes : bool;
  shape_heap : nat -> Shape;
  next_shape : nat;
  group_heap : nat -> Group.t;
  next_group : nat;
  files : gmap string string;
  popups : list string
}.

(** Field updates ([self.f = v]). *)
Definition with_tk (v : Tk.Canvas) (s : State) : State :=
  {| tk := v; shapes := shapes s; shape_object := shape_object s;
     selected_shapes := selected_shapes s;
     properties_text_ids := properties_text_ids s; current_tool := current_tool s;
     current_color := current_color s; current_style := current_style s;
     start_x := start_x s; start_y := start_y s; current_shape := current_shape s;
     file_opened := file_opened s; mode := mode s; moving := moving s;
     canvas_group := canvas_group s; current_file := current_file s;
     unsaved_changes := unsaved_changes s; shape_heap := shape_heap s;
     next_shape := next_shape s; group_heap := group_heap s;
     next_group := next_group s; files := files s; popups := popups s |}.

Definition with_shapes (v : list string) (s : State) : State :=
  {| tk := tk s; shapes := v; shape_object := shape_object s;
     selected_shapes := selected_shapes s;
     properties_text_ids := properties_text_ids s; current_tool := current_tool s;
     current_color := current_color s; current_style := current_style s;
     start_x := start_x s; start_y := start_y s; current_shape := current_shape s;
     file_opened := file_opened s; mode := mode s; moving := moving s;
     canvas_group := canvas_group s; current_file := current_file s;
     unsaved_changes := unsaved_changes s; shape_heap := shape_heap s;
     next_shape := next_shape s; group_heap := group_heap s;
     next_group := next_group s; files := files s; popups := popups s |}.

Definition with_shape_object (v : list nat) (s : State) : State :=
  {| tk := tk s; shapes := shapes s; shape_object := v;
     selected_shapes := selected_shapes s;
     properties_text_ids := properties_text_ids s; current_tool := current_tool s;
     current_color := current_color s; current_style := current_style s;
     start_x := start_x s; start_y := start_y s; current_shape := current_shape s;
     file_opened := file_opened s; mode := mode s; moving := moving s;
     canvas_group := canvas_group s; current_file := current_file s;
     unsaved_changes := unsaved_changes s; shape_heap := shape_heap s;
     next_shape := next_shape s; group_heap := group_heap s;
     next_group := next_group s; files := files s; popups := popups s |}.

Definition with_selected_shapes (v : list nat) (s : State) : State :=
  {| tk := tk s; shapes := shapes s; shape_object := shape_object s;
     selected_shapes := v; properties_text_ids := properties_text_ids s;
     current_tool := current_tool s; current_color := current_color s;
     current_style := current_style s; start_x := start_x s; start_y := start_y s;
     current_shape := current_shape s; file_opened := file_opened s; mode := mode s;
     moving := moving s; canvas_group := canvas_group s;
     current_file := current_file s; unsaved_changes := unsaved_changes s;
     shape_heap := shape_heap s; next_shape := next_shape s;
     group_heap := group_heap s; next_group := next_group s; files := files s;
     popups := popups s |}.

Definition with_properties_text_ids (v : list Z) (s : State) : State :=
  {| tk := tk s; shapes := shapes s; shape_object := shape_object s;
     selected_shapes := selected_shapes s; properties_text_ids := v;
     current_tool := current_tool s; current_color := current_color s;
     current_style := current_style s; start_x := start_x s; start_y := start_y s;
     current_shape := current_shape s; file_opened := file_opened s; mode := mode s;
     moving := moving s; canvas_group := canvas_group s;
     current_file := current_file s; unsaved_changes := unsaved_changes s;
     shape_heap := shape_heap s; next_shape := next_shape s;
     group_heap := group_heap s; next_group := next_group s; files := files s;
     popups := popups s |}.

Definition with_current_tool (v : option string) (s : State) : State :=
  {| tk := tk s; shapes := shapes s; shape_object := shape_object s;
     selected_shapes := selected_shapes s;
     properties_text_ids := properties_text_ids s; current_tool := v;
     current_color := current_color s; current_style := current_style s;
     start_x := start_x s; start_y := start_y s; current_shape := current_shape s;
     file_opened := file_opened s; mode := mode s; moving := moving s;
     canvas_group := canvas_group s; current_file := current_file s;
     unsaved_changes := unsaved_changes s; shape_heap := shape_heap s;
     next_shape := next_shape s; group_heap := group_heap s;
     next_group := next_group s; files := files s; popups := popups s |}.

Definition with_current_color (v : string) (s : State) : State :=
  {| tk := tk s; shapes := shapes s; shape_object := shape_object s;
     selected_shapes := selected_shapes s;
     properties_text_ids := properties_text_ids s; current_tool := current_tool s;
     current_color := v; current_style := current_style s; start_x := start_x s;
     start_y := start_y s; current_shape := current_shape s;
     file_opened := file_opened s; mode := mode s; moving := moving s;
     canvas_group := canvas_group s; current_file := current_file s;
     unsaved_changes := unsaved_changes s; shape_heap := shape_heap s;
     next_shape := next_shape s; group_heap := group_heap s;
     next_group := next_group s; files := files s; popups := popups s |}.

Definition with_current_style (v : string) (s : State) : State :=
  {| tk := tk s; shapes := shapes s; shape_object := shape_object s;
     selected_shapes := selected_shapes s;
     properties_text_ids := properties_text_ids s; current_tool := current_tool s;
     current_color := current_color s; current_style := v; start_x := start_x s;
     start_y := start_y s; current_shape := current_shape s;
     file_opened := file_opened s; mode := mode s; moving := moving s;
     canvas_group := canvas_group s; current_file := current_file s;
     unsaved_changes := unsaved_changes s; shape_heap := shape_heap s;
     next_shape := next_shape s; group_heap := group_heap s;
     next_group := next_group s; files := files s; popups := popups s |}.

Definition with_start_x (v : option Py.num) (s : State) : State :=
  {| tk := tk s; shapes := shapes s; shape_object := shape_object s;
     selected_shapes := selected_shapes s;
     properties_text_ids := properties_text_ids s; current_tool := current_tool s;
     current_color := current_color s; current_style := current_style s;
     start_x := v; start_y := start_y s; current_shape := current_shape s;
     file_opened := file_opened s; mode := mode s; moving := moving s;
     canvas_group := canvas_group s; current_file := current_file s;
     unsaved_changes := unsaved_changes s; shape_heap := shape_heap s;
     next_shape := next_shape s; group_heap := group_heap s;
     next_group := next_group s; files := files s; popups := popups s |}.

Definition with_start_y (v : option Py.num) (s : State) : State :=
  {| tk := tk s; shapes := shapes s; shape_object := shape_object s;
     selected_shapes := selected_shapes s;
     properties_text_ids := properties_text_ids s; current_tool := current_tool s;
     current_color := current_color s; current_style := current_style s;
     start_x := start_x s; start_y := v; current_shape := current_shape s;
     file_opened := file_opened s; mode := mode s; moving := moving s;
     canvas_group := canvas_group s; current_file := current_file s;
     unsaved_changes := unsaved_changes s; shape_heap := shape_heap s;
     next_shape := next_shape s; group_heap := group_heap s;
     next_group := next_group s; files := files s; popups := popups s |}.

Definition with_current_shape (v : option Current) (s : State) : State :=
  {| tk := tk s; shapes := shapes s; shape_object := shape_object s;
     selected_shapes := selected_shapes s;
     properties_text_ids := properties_text_ids s; current_tool := current_tool s;
     current_color := current_color s; current_style := current_style s;
     start_x := start_x s; start_y := start_y s; current_shape := v;
     file_opened := file_opened s; mode := mode s; moving := moving s;
     canvas_group := canvas_group s; current_file := current_file s;
     unsaved_changes := unsaved_changes s; shape_heap := shape_heap s;
     next_shape := next_shape s; group_heap := group_heap s;
     next_group := next_group s; files := files s; popups := popups s |}.

Definition with_file_opened (v : bool) (s : State) : State :=
  {| tk := tk s; shapes := shapes s; shape_object := shape_object s;
     selected_shapes := selected_shapes s;
     properties_text_ids := properties_text_ids s; current_tool := current_tool s;
     current_color := current_color s; current_style := current_style s;
     start_x := start_x s; start_y := start_y s; current_shape := current_shape s;
     file_opened := v; mode := mode s; moving := moving s;
     canvas_group := canvas_group s; current_file := current_file s;
     unsaved_changes := unsaved_changes s; shape_heap := shape_heap s;
     next_shape := next_shape s; group_heap := group_heap s;
     next_group := next_group s; files := files s; popups := popups s |}.

Definition with_mode (v : string) (s : State) : State :=
  {| tk := tk s; shapes := shapes s; shape_object := shape_object s;
     selected_shapes := selected_shapes s;
     properties_text_ids := properties_text_ids s; current_tool := current_tool s;
     current_color := current_color s; current_style := current_style s;
     start_x := start_x s; start_y := start_y s; current_shape := current_shape s;
     file_opened := file_opened s; mode := v; moving := moving s;
     canvas_group := canvas_group s; current_file := current_file s;
     unsaved_changes := unsaved_changes s; shape_heap := shape_heap s;
     next_shape := next_shape s; group_heap := group_heap s;
     next_group := next_group s; files := files s; popups := popups s |}.

Definition with_moving (v : bool) (s : State) : State :=
  {| tk := tk s; shapes := shapes s; shape_object := shape_object s;
     selected_shapes := selected_shapes s;
     properties_text_ids := properties_text_ids s; current_tool := current_tool s;
     current_color := current_color s; current_style := current_style s;
     start_x := start_x s; start_y := start_y s; current_shape := current_shape s;
     file_opened := file_opened s; mode := mode s; moving := v;
     canvas_group := canvas_group s; current_file := current_file s;
     unsaved_changes := unsaved_changes s; shape_heap := shape_heap s;
     next_shape := next_shape s; group_heap := group_heap s;
     next_group := next_group s; files := files s; popups := popups s |}.

Definition with_canvas_group (v : list nat) (s : State) : State :=
  {| tk := tk s; shapes := shapes s; shape_object := shape_object s;
     selected_shapes := selected_shapes s;
     properties_text_ids := properties_text_ids s; current_tool := current_tool s;
     current_color := current_color s; current_style := current_style s;
     start_x := start_x s; start_y := start_y s; current_shape := current_shape s;
     file_opened := file_opened s; mode := mode s; moving := moving s;
     canvas_group := v; current_file := current_file s;
     unsaved_changes := unsaved_changes s; shape_heap := shape_heap s;
     next_shape := next_shape s; group_heap := group_heap s;
     next_group := next_group s; files := files s; popups := popups s |}.

Definition with_current_file (v : option string) (s : State) : State :=
  {| tk := tk s; shapes := shapes s; shape_object := shape_object s;
     selected_shapes := selected_shapes s;
     properties_text_ids := properties_text_ids s; current_tool := current_tool s;
     current_color := current_color s; current_style := current_style s;
     start_x := start_x s; start_y := start_y s; current_shape := current_shape s;
     file_opened := file_opened s; mode := mode s; moving := moving s;
     canvas_group := canvas_group s; current_file := v;
     unsaved_changes := unsaved_changes s; shape_heap := shape_heap s;
     next_shape := next_shape s; group_heap := group_heap s;
     next_group := next_group s; files := files s; popups := popups s |}.

Definition with_unsaved_changes (v : bool) (s : State) : State :=
  {| tk := tk s; shapes := shapes s; shape_object := shape_object s;
     selected_shapes := selected_shapes s;
     properties_text_ids := properties_text_ids s; current_tool := current_tool s;
     current_color := current_color s; current_style := current_style s;
     start_x := start_x s; start_y := start_y s; current_shape := current_shape s;
     file_opened := file_opened s; mode := mode s; moving := moving s;
     canvas_group := canvas_group s; current_file := current_file s;
     unsaved_changes := v; shape_heap := shape_heap s; next_shape := next_shape s;
     group_heap := group_heap s; next_group := next_group s; files := files s;
     popups := popups s |}.

Definition with_shape_heap (v : nat -> Shape) (s : State) : State :=
  {| tk := tk s; shapes := shapes s; shape_object := shape_object s;
     selected_shapes := selected_shapes s;
     properties_text_ids := properties_text_ids s; current_tool := current_tool s;
     current_color := current_color s; current_style := current_style s;
     start_x := start_x s; start_y := start_y s; current_shape := current_shape s;
     file_opened := file_opened s; mode := mode s; moving := moving s;
     canvas_group := canvas_group s; current_file := current_file s;
     unsaved_changes := unsaved_changes s; shape_heap := v;
     next_shape := next_shape s; group_heap := group_heap s;
     next_group := next_group s; files := files s; popups := popups s |}.

Definition with_next_shape (v : nat) (s : State) : State :=
  {| tk := tk s; shapes := shapes s; shape_object := shape_object s;
     selected_shapes := selected_shapes s;
     properties_text_ids := properties_text_ids s; current_tool := current_tool s;
     current_color := current_color s; current_style := current_style s;
     start_x := start_x s; start_y := start_y s; current_shape := current_shape s;
     file_opened := file_opened s; mode := mode s; moving := moving s;
     canvas_group := canvas_group s; current_file := current_file s;
     unsaved_changes := unsaved_changes s; shape_heap := shape_heap s;
     next_shape := v; group_heap := group_heap s; next_group := next_group s;
     files := files s; popups := popups s |}.

Definition with_group_heap (v : nat -> Group.t) (s : State) : State :=
  {| tk := tk s; shapes := shapes s; shape_object := shape_object s;
     selected_shapes := selected_shapes s;
     properties_text_ids := properties_text_ids s; current_tool := current_tool s;
     current_color := current_color s; current_style := current_style s;
     start_x := start_x s; start_y := start_y s; current_shape := current_shape s;
     file_opened := file_opened s; mode := mode s; moving := moving s;
     canvas_group := canvas_group s; current_file := current_file s;
     unsaved_changes := unsaved_changes s; shape_heap := shape_heap s;
     next_shape := next_shape s; group_heap := v; next_group := next_group s;
     files := files s; popups := popups s |}.

Definition with_next_group (v : nat) (s : State) : State :=
  {| tk := tk s; shapes := shapes s; shape_object := shape_object s;
     selected_shapes := selected_shapes s;
     properties_text_ids := properties_text_ids s; current_tool := current_tool s;
     current_color := current_color s; current_style := current_style s;
     start_x := start_x s; start_y := start_y s; current_shape := current_shape s;
     file_opened := file_opened s; mode := mode s; moving := moving s;
     canvas_group := canvas_group s; current_file := current_file s;
     unsaved_changes := unsaved_changes s; shape_heap := shape_heap s;
     next_shape := next_shape s; group_heap := group_heap s; next_group := v;
     files := files s; popups := popups s |}.

Definition with_files (v : gmap string string) (s : State) : State :=
  {| tk := tk s; shapes := shapes s; shape_object := shape_object s;
     selected_shapes := selected_shapes s;
     properties_text_ids := properties_text_ids s; current_tool := current_tool s;
     current_color := current_color s; current_style := current_style s;
     start_x := start_x s; start_y := start_y s; current_shape := current_shape s;
     file_opened := file_opened s; mode := mode s; moving := moving s;
     canvas_group := canvas_group s; current_file := current_file s;
     unsaved_changes := unsaved_changes s; shape_heap := shape_heap s;
     next_shape := next_shape s; group_heap := group_heap s;
     next_group := next_group s; files := v; popups := popups s |}.

Definition with_popups (v : list string) (s : State) : State :=
  {| tk := tk s; shapes := shapes s; shape_object := shape_object s;
     selected_shapes := selected_shapes s;
     properties_text_ids := properties_text_ids s; current_tool := current_tool s;
     current_color := current_color s; current_style := current_style s;
     start_x := start_x s; start_y := start_y s; current_shape := current_shape s;
     file_opened := file_opened s; mode := mode s; moving := moving s;
     canvas_group := canvas_group s; current_file := current_file s;
     unsaved_changes := unsaved_changes s; shape_heap := shape_heap s;
     next_shape := next_shape s; group_heap := group_heap s;
     next_group := next_group s; files := files s; popups := v |}.

(** ** Computations over the editor state

    A method either returns a value or raises; in both cases the state it
    has reached is kept, since an exception in a Tk callback leaves the
    editor running with whatever had been mutated so far. *)

Definition M (A : Type) : Type := State -> Py.Result A * State.

Definition ret {A} (a : A) : M A := fun s => (Py.Ok a, s).

Definition bind {A B} (m : M A) (k : A -> M B) : M B :=
  fun s =>
    match m s with
    | (Py.Ok a, s') => k a s'
    | (Py.Raise e, s') => (Py.Raise e, s')
    end.

Definition raise {A} (e : Py.exn) : M A := fun s => (Py.Raise e, s).

Definition get {A} (f : State -> A) : M A := fun s => (Py.Ok (f s), s).

Definition update (f : State -> State) : M unit := fun s => (Py.Ok tt, f s).

Definition lift {A} (r : Py.Result A) : M A := fun s => (r, s).

Declare Scope py_scope.
Delimit Scope py_scope with py.
Notation "x <- m ;; k" := (bind m (fun x => k))
  (at level 100, m at next level, k at level 200, right associativity) : py_scope.
Notation "m ;; k" := (bind m (fun _ => k))
  (at level 100, k at level 200, right associativity) : py_scope.
Local Open Scope py_scope.

(** [for x in l: body(x)], over a list the body does not mutate. *)
Fixpoint for_each {A} (l : list A) (body : A -> M unit) : M unit :=
  match l with
  | [] => ret tt
  | x :: l' => body x ;; for_each l' body
  end.

(** *** The object heap *)

Definition upd {A} (r : nat) (v : A) (h : nat -> A) : nat -> A :=
  fun k => if Nat.eqb k r then v else h k.

Definition shape (r : nat) : M Shape := get (fun s => shape_heap s r).

Definition set_shape (r : nat) (v : Shape) : M unit :=
  update (fun s => with_shape_heap (upd r v (shape_heap s)) s).

Definition new_shape (v : Shape) : M nat :=
  fun s =>
    (Py.Ok (next_shape s),
     with_next_shape (S (next_shape s)) (with_shape_heap (upd (next_shape s) v (shape_heap s)) s)).

Definition group (g : nat) : M Group.t := get (fun s => group_heap s g).

Definition set_group (g : nat) (v : Group.t) : M unit :=
  update (fun s => with_group_heap (upd g v (group_heap s)) s).

Definition new_group (v : Group.t) : M nat :=
  fun s =>
    (Py.Ok (next_group s),
     with_next_group (S (next_group s)) (with_group_heap (upd (next_group s) v (group_heap s)) s)).

Definition set_shape_id (i : option Z) (sh : Shape) : Shape :=
  {| cls := cls sh; x1 := x1 sh; y1 := y1 sh; x2 := x2 sh; y2 := y2 sh; color := color sh;
     style := style sh; shape_id := i; groups := groups sh |}.

Definition set_groups (gs : list nat) (sh : Shape) : Shape :=
  {| cls := cls sh; x1 := x1 sh; y1 := y1 sh; x2 := x2 sh; y2 := y2 sh; color := color sh;
     style := style sh; shape_id := shape_id sh; groups := gs |}.

(** [shape.x1 += dx; shape.x2 += dx; shape.y1 += dy; shape.y2 += dy]. *)
Definition translate (dx dy : Py.num) (sh : Shape) : Shape :=
  {| cls := cls sh; x1 := Py.add (x1 sh) dx; y1 := Py.add (y1 sh) dy;
     x2 := Py.add (x2 sh) dx; y2 := Py.add (y2 sh) dy; color := color sh;
     style := style sh; shape_id := shape_id sh; groups := groups sh |}.

(** *** Calls into Tk

    tkinter cuts a call at a [None] argument: [delete(None)] and
    [itemconfig(None, ...)] reach Tk without an item and do nothing, the
    calls that need their item ([type], [coords], [move], [itemcget])
    raise [TclError]. *)

Definition need_item (i : option Z) : M Z :=
  match i with
  | Some id => ret id
  | None => raise Py.TclError
  end.

Definition tk_create (k : Tk.Kind) (cs : list Py.num) (f o : string) (sm : bool) : M Z :=
  fun s => let '(id, c) := Tk.create k cs f o sm (tk s) in (Py.Ok id, with_tk c s).

Definition create_line (a b c d : Py.num) (f : string) : M Z :=
  tk_create Tk.KLine [a; b; c; d] f "" false.

Definition create_rectangle (a b c d : Py.num) (o : string) : M Z :=
  tk_create Tk.KRectangle [a; b; c; d] "" o false.

Definition create_polygon (points : list Py.num) (o f : string) (sm : bool) : M Z :=
  tk_create Tk.KPolygon points f o sm.

Definition tk_delete (i : option Z) : M unit :=
  match i with
  | Some id => update (fun s => with_tk (Tk.delete id (tk s)) s)
  | None => ret tt
  end.

Definition tk_delete_all : M unit :=
  update (fun s => with_tk (Tk.delete_all (tk s)) s).

Definition tk_type (i : option Z) : M (option string) :=
  id <- need_item i ;; get (fun s => Tk.type id (tk s)).

Definition tk_coords (i : option Z) : M (list Py.num) :=
  id <- need_item i ;; get (fun s => Tk.get_coords id (tk s)).

Definition tk_move (i : option Z) (dx dy : Py.num) : M unit :=
  id <- need_item i ;; update (fun s => with_tk (Tk.move id dx dy (tk s)) s).

Definition tk_itemcget (opt : Tk.Item -> string) (i : option Z) : M string :=
  id <- need_item i ;; get (fun s => Tk.itemcget opt id (tk s)).

Definition tk_itemconfig_width (i : option Z) (w : Q) : M unit :=
  match i with
  | Some id => update (fun s => with_tk (Tk.itemconfig_width id w (tk s)) s)
  | None => ret tt
  end.

Definition tk_itemconfig_fill (i : option Z) (f : string) : M unit :=
  match i with
  | Some id => update (fun s => with_tk (Tk.itemconfig_fill id f (tk s)) s)
  | None => ret tt
  end.

(** [if self.shape_id:] *)
Definition id_truthy (i : option Z) : bool :=
  match i with
  | Some id => negb (id =? 0)
  | None => false
  end.

(** ** class Group *)

(** [Group.add_shapes(self, Shape)] *)
Definition add_shapes (g sh : nat) : M unit :=
  grp <- group g ;;
  let members := Group.shapes grp ++ [sh] in
  o <- shape sh ;;
  match last (groups o) with
  | Some top =>
      if bool_decide (top ∈ Group.sub_grps grp)
      then set_group g {| Group.shapes := members; Group.indv_shapes := Group.indv_shapes grp;
                          Group.sub_grps := Group.sub_grps grp |}
      else set_group g {| Group.shapes := members; Group.indv_shapes := Group.indv_shapes grp;
                          Group.sub_grps := Group.sub_grps grp ++ [top] |}
  | None =>
      set_group g {| Group.shapes := members; Group.indv_shapes := Group.indv_shapes grp ++ [sh];
                     Group.sub_grps := Group.sub_grps grp |}
  end.

(** [Group.remove_shapes(self, Shape)] *)
Definition remove_shapes (g sh : nat) : M unit :=
  grp <- group g ;;
  members <- lift (Py.remove sh (Group.shapes grp)) ;;
  set_group g {| Group.shapes := members; Group.indv_shapes := Group.indv_shapes grp;
                 Group.sub_grps := Group.sub_grps grp |}.

(** ** class Shape and its subclasses *)

(** [Shape.__init__], reached through [Line.__init__]. *)
Definition Line_init (sx sy ex ey : Py.num) (c : string) : M nat :=
  new_shape {| cls := Line; x1 := sx; y1 := sy; x2 := ex; y2 := ey; color := c;
               style := None; shape_id := None; groups := [] |}.

(** [Rectangle.__init__] *)
Definition Rectangle_init (sx sy ex ey : Py.num) (c st : string) : M nat :=
  new_shape {| cls := Rectangle; x1 := sx; y1 := sy; x2 := ex; y2 := ey; color := c;
               style := Some st; shape_id := None; groups := [] |}.

(** [Shape.add_group(self, Group)] *)
Definition add_group (sh g : nat) : M unit :=
  o <- shape sh ;; set_shape sh (set_groups (groups o ++ [g]) o).

(** [Line.update] *)
Definition Line_update (sh : nat) (sx sy ex ey : Py.num) : M unit :=
  o <- shape sh ;;
  (if id_truthy (shape_id o) then tk_delete (shape_id o) else ret tt) ;;
  id <- create_line sx sy ex ey (color o) ;;
  o <- shape sh ;;
  set_shape sh (set_shape_id (Some id) o).

(** [Rectangle.draw_rounded_rectangle] with [smooth=True]. *)
Definition draw_rounded_rectangle (a b c d : Py.num) (radius : Z) (o f : string) : M Z :=
  let r := Py.PyInt radius in
  let al := Py.add a r in
  let bl := Py.add b r in
  let cr := Py.sub c r in
  let dr := Py.sub d r in
  create_polygon
    [al; b; al; b; cr; b; cr; b; c; b;
     c; bl; c; bl; c; dr; c; dr; c; d;
     cr; d; cr; d; al; d; al; d; a; d;
     a; dr; a; dr; a; bl; a; bl; a; b] o f true.

(** [Rectangle.update] *)
Definition Rectangle_update (sh : nat) (sx sy ex ey : Py.num) : M unit :=
  o <- shape sh ;;
  (if id_truthy (shape_id o) then tk_delete (shape_id o) else ret tt) ;;
  if bool_decide (style o = Some "s") then
    id <- create_rectangle sx sy ex ey (color o) ;;
    o <- shape sh ;;
    set_shape sh (set_shape_id (Some id) o)
  else if bool_decide (style o = Some "r") then
    id <- draw_rounded_rectangle sx sy ex ey 20 (color o) "" ;;
    o <- shape sh ;;
    set_shape sh (set_shape_id (Some id) o)
  else ret tt.

(** [shape.update(...)], dispatched on the object's class. *)
Definition Shape_update (sh : nat) (sx sy ex ey : Py.num) : M unit :=
  o <- shape sh ;;
  match cls o with
  | Line => Line_update sh sx sy ex ey
  | Rectangle => Rectangle_update sh sx sy ex ey
  end.

(** [Shape.finalize] *)
Definition finalize (sh : nat) : M unit := ret tt.

(** ** class DrawCanvas *)

(** [show_popup_message]: the message box is recorded in [popups]. *)
Definition show_popup_message (message : string) : M unit :=
  update (fun s => with_popups (popups s ++ [message]) s).

Definition set_mode (action : string) : M unit := update (with_mode action).
Definition set_tool (tool : string) : M unit := update (with_current_tool (Some tool)).
Definition set_color (c : string) : M unit := update (with_current_color c).
Definition set_style (st : string) : M unit := update (with_current_style st).

(** [self.shape_object.append(sh)] *)
Definition append_shape_object (sh : nat) : M unit :=
  update (fun s => with_shape_object (shape_object s ++ [sh]) s).

(** [self.shape_object.remove(sh)] *)
Definition remove_shape_object (sh : nat) : M unit :=
  objs <- get shape_object ;;
  objs' <- lift (Py.remove sh objs) ;;
  update (with_shape_object objs').

(** [clear_properties_text] *)
Definition clear_properties_text : M unit :=
  ids <- get properties_text_ids ;;
  for_each ids (fun text_id => tk_delete (Some text_id)) ;;
  update (with_properties_text_ids []).

(** The f-string of [construct_shape_from_shape_object] for one shape:
    [shape_type] is what [self.type(shape.shape_id)] returned. *)
Definition shape_line (shape_type : option string) (o : Shape) : M string :=
  let ty := match shape_type with Some t => t | None => "None" end in
  let head := ty +:+ " " +:+ Py.str (x1 o) +:+ " " +:+ Py.str (y1 o) +:+ " " +:+
              Py.str (x2 o) +:+ " " +:+ Py.str (y2 o) +:+ " " +:+ color o in
  if bool_decide (shape_type = Some "rectangle") then
    match style o with
    | Some st => ret (head +:+ " " +:+ st)
    | None => raise Py.AttributeError
    end
  else ret head.

(** [construct_shape_from_shape_object] *)
Definition construct_shape_from_shape_object : M unit :=
  update (with_shapes []) ;;
  objs <- get shape_object ;;
  for_each objs (fun sh =>
    o <- shape sh ;;
    shape_type <- tk_type (shape_id o) ;;
    line <- shape_line shape_type o ;;
    update (fun s => with_shapes (shapes s ++ [line]) s)).

(** [int(args[i])] *)
Definition int_arg (args : list string) (i : nat) : M Py.num :=
  a <- lift (Py.index args i) ;;
  n <- lift (Py.int a) ;;
  ret (Py.PyInt n).

(** [redraw_shapes] *)
Definition redraw_shapes : M unit :=
  strs <- get shapes ;;
  for_each strs (fun shape_str =>
    match Py.split " " shape_str with
    | [] => ret tt
    | shape_type :: args =>
        if bool_decide (shape_type = "line") then
          x1 <- int_arg args 0 ;;
          y1 <- int_arg args 1 ;;
          x2 <- int_arg args 2 ;;
          y2 <- int_arg args 3 ;;
          color <- lift (Py.index_back args 1) ;;
          sh <- Line_init x1 y1 x2 y2 color ;;
          update (with_current_shape (Some (CurShape sh))) ;;
          append_shape_object sh ;;
          Shape_update sh x1 y1 x2 y2
        else if bool_decide (shape_type = "rectangle") then
          x1 <- int_arg args 0 ;;
          x2 <- int_arg args 1 ;;
          y1 <- int_arg args 2 ;;
          y2 <- int_arg args 3 ;;
          color <- lift (Py.index_back args 2) ;;
          style <- lift (Py.index_back args 1) ;;
          sh <- Rectangle_init x1 y1 x2 y2 color style ;;
          update (with_current_shape (Some (CurShape sh))) ;;
          append_shape_object sh ;;
          Shape_update sh x1 y1 x2 y2
        else ret tt
    end).

(** [draw_shape] *)
Definition draw_shape (sx sy ex ey : Py.num) : M unit :=
  cur <- get current_shape ;;
  match cur with
  | Some (CurShape sh) =>
      opened <- get file_opened ;;
      (if opened then ret tt else Shape_update sh sx sy ex ey) ;;
      update (with_current_tool None)
  | Some (CurItem id) =>
      if id =? 0 then ret tt
      else
        opened <- get file_opened ;;
        (if opened then ret tt else raise Py.AttributeError) ;;
        update (with_current_tool None)
  | None => ret tt
  end.

(** [delete_shape] *)
Definition delete_shape : M unit :=
  sel <- get selected_shapes ;;
  for_each sel (fun sh =>
    o <- shape sh ;;
    tk_delete (shape_id o) ;;
    remove_shape_object sh) ;;
  update (with_selected_shapes []).

(** [[c + offset_x if i % 2 == 0 else c + offset_y for i, c in enumerate(coords)]] *)
Fixpoint offset_coords (ox oy : Py.num) (cs : list Py.num) : list Py.num :=
  match cs with
  | [] => []
  | c :: cs' => Py.add c ox :: offset_coords oy ox cs'
  end.

(** [copy_shape] *)
Definition copy_shape : M unit :=
  let offset_x := Py.PyInt 50 in
  let offset_y := Py.PyInt 50 in
  sel <- get selected_shapes ;;
  for_each sel (fun sh =>
    o <- shape sh ;;
    coords <- tk_coords (shape_id o) ;;
    shape_type <- tk_type (shape_id o) ;;
    let new_coords := offset_coords offset_x offset_y coords in
    if bool_decide (shape_type = Some "rectangle") then
      color <- tk_itemcget Tk.outline (shape_id o) ;;
      tags <- tk_itemcget Tk.tags (shape_id o) ;;
      let style := if Py.contains "r" tags then "r" else "s" in
      n0 <- lift (Py.index new_coords 0) ;;
      n1 <- lift (Py.index new_coords 1) ;;
      n2 <- lift (Py.index new_coords 2) ;;
      n3 <- lift (Py.index new_coords 3) ;;
      new <- Rectangle_init n0 n1 n2 n3 color style ;;
      update (with_current_shape (Some (CurShape new))) ;;
      append_shape_object new ;;
      draw_shape n0 n1 n2 n3
    else if bool_decide (shape_type = Some "line") then
      color <- tk_itemcget Tk.fill (shape_id o) ;;
      n0 <- lift (Py.index new_coords 0) ;;
      n1 <- lift (Py.index new_coords 1) ;;
      n2 <- lift (Py.index new_coords 2) ;;
      n3 <- lift (Py.index new_coords 3) ;;
      new <- Line_init n0 n1 n2 n3 color ;;
      update (with_current_shape (Some (CurShape new))) ;;
      append_shape_object new ;;
      draw_shape n0 n1 n2 n3
    else ret tt).

(** A pointer event: the pointer position in canvas pixels. *)
Record Event := { ev_x : Z; ev_y : Z }.

(** The body both loops of [move_shape] share. *)
Definition move_one (sh : nat) (dx dy : Py.num) : M unit :=
  remove_shape_object sh ;;
  o <- shape sh ;;
  tk_move (shape_id o) dx dy ;;
  o <- shape sh ;;
  set_shape sh (translate dx dy o) ;;
  append_shape_object sh.

(** [move_shape] *)
Definition move_shape (event : Event) : M unit :=
  update (with_moving true) ;;
  sel <- get selected_shapes ;;
  match sel with
  | [] => ret tt
  | first :: rest =>
      o <- shape first ;;
      initial_coords <- tk_coords (shape_id o) ;;
      c2 <- lift (Py.index initial_coords 2) ;;
      c0 <- lift (Py.index initial_coords 0) ;;
      c3 <- lift (Py.index initial_coords 3) ;;
      c1 <- lift (Py.index initial_coords 1) ;;
      let dx := Py.sub (Py.PyInt (ev_x event)) (Py.div2 (Py.add c2 c0)) in
      let dy := Py.sub (Py.PyInt (ev_y event)) (Py.div2 (Py.add c3 c1)) in
      move_one first dx dy ;;
      for_each rest (fun sh => move_one sh dx dy)
  end.

(** [update_rectangle_style] *)
Definition update_rectangle_style (shape_id : option Z) (style color : string) : M unit :=
  coords <- tk_coords shape_id ;;
  c0 <- lift (Py.index coords 0) ;;
  c1 <- lift (Py.index coords 1) ;;
  c2 <- lift (Py.index coords 2) ;;
  c3 <- lift (Py.index coords 3) ;;
  new <- Rectangle_init c0 c1 c2 c3 color style ;;
  update (with_current_shape (Some (CurShape new))) ;;
  if bool_decide (style = "r") then
    draw_rounded_rectangle c0 c1 c2 c3 20 color "" ;; ret tt
  else if bool_decide (style = "s") then
    id <- create_rectangle c0 c1 c2 c3 color ;;
    update (with_current_shape (Some (CurItem id)))
  else ret tt.

(** [edit_selected_shape].  The two arguments are what the user answers
    to the colour prompt and to the style prompt ([None] when the dialog is
    cancelled); the style prompt is only shown for a rectangle. *)
Definition edit_selected_shape (new_color new_style : option string) : M unit :=
  sel <- get selected_shapes ;;
  if Nat.ltb 1 (length sel) then
    show_popup_message "Multiple objects cannot be edited at once"
  else
    first <- lift (Py.index sel 0) ;;
    o <- shape first ;;
    let shape_id := shape_id o in
    shape_type <- tk_type shape_id ;;
    (if bool_decide (shape_type = Some "rectangle") then
       match new_style, new_color with
       | Some st, Some c =>
           if Py.truthy new_style && Py.truthy new_color
           then update_rectangle_style shape_id st c
           else ret tt
       | _, _ => ret tt
       end
     else if bool_decide (shape_type = Some "line") then
       match new_color with
       | Some c => if Py.truthy new_color then tk_itemconfig_fill shape_id c else ret tt
       | None => ret tt
       end
     else ret tt) ;;
    delete_shape ;;
    clear_properties_text.

(** [group_shapes] *)
Definition group_shapes : M unit :=
  sel <- get selected_shapes ;;
  if Nat.ltb 1 (length sel) then
    new <- new_group Group.new ;;
    for_each sel (fun sh => add_shapes new sh ;; add_group sh new) ;;
    update (fun s => with_canvas_group (canvas_group s ++ [new]) s) ;;
    show_popup_message "Group Formed"
  else ret tt.

(** The checking loop of [ungroup_shapes]: the value of [flag] when the
    loop is left, over the shape objects [h]. *)
Fixpoint ungroup_flag (h : nat -> Shape) (g : nat) (l : list nat) : Z :=
  match l with
  | [] => 0
  | sh :: l' =>
      match last (groups (h sh)) with
      | Some top => if bool_decide (top ≠ g) then 1 else ungroup_flag h g l'
      | None => 1
      end
  end.

(** [ungroup_shapes] *)
Definition ungroup_shapes : M unit :=
  sel <- get selected_shapes ;;
  match sel with
  | [] => ret tt
  | first :: _ =>
      o <- shape first ;;
      match last (groups o) with
      | Some g =>
          h <- get shape_heap ;;
          if ungroup_flag h g sel =? 0 then
            for_each sel (fun sh =>
              o <- shape sh ;;
              set_shape sh (set_groups (removelast (groups o)) o) ;;
              remove_shapes g sh) ;;
            show_popup_message "Objects Ungrouped"
          else
            show_popup_message "The selected elements do not belong to a common group"
      | None =>
          show_popup_message "The selected elements do not belong to a common group"
      end
  end.

(** [on_click] *)
Definition on_click (event : Event) : M unit :=
  update (with_start_x (Some (Py.PyInt (ev_x event)))) ;;
  update (with_start_y (Some (Py.PyInt (ev_y event)))) ;;
  m <- get mode ;;
  (if bool_decide (m = "ready_to_move") then move_shape event ;; update (with_mode "")
   else ret tt) ;;
  sel <- get selected_shapes ;;
  match sel with
  | [] => ret tt
  | _ =>
      for_each sel (fun sh => o <- shape sh ;; tk_itemconfig_width (shape_id o) 1) ;;
      update (with_selected_shapes []) ;;
      clear_properties_text
  end.

Section Handlers.

(** Area selection ([highlight_shapes_in_area]) rests on Tk's hit-testing
    and bounding-box geometry and is kept abstract: the handlers call it
    with the anchor and the pointer position, and none of the properties
    below runs it. *)
Variable highlight_shapes_in_area :
  option Py.num -> option Py.num -> Py.num -> Py.num -> M unit.

(** The anchor [on_click] stored.  Tk reports motion and release of the
    button only after the press, so the [None] of [__init__] is not met
    here; the model stops with [TypeError] where Python would carry it
    on. *)
Definition anchor (c : option Py.num) : M Py.num :=
  match c with
  | Some v => ret v
  | None => raise Py.TypeError
  end.

(** [on_drag] *)
Definition on_drag (event : Event) : M unit :=
  m <- get mode ;;
  sx <- get start_x ;;
  sy <- get start_y ;;
  let px := Py.PyInt (ev_x event) in
  let py := Py.PyInt (ev_y event) in
  mv <- get moving ;;
  if bool_decide (m ∈ ["copy"; "edit"; "delete"; "group"; "ungroup"]) then
    highlight_shapes_in_area sx sy px py
  else if bool_decide (m = "move") && negb mv then
    highlight_shapes_in_area sx sy px py
  else if bool_decide (m = "draw") then
    ax <- anchor sx ;;
    ay <- anchor sy ;;
    tool <- get current_tool ;;
    col <- get current_color ;;
    sty <- get current_style ;;
    (if Py.truthy tool then
       if bool_decide (tool = Some "line") then
         sh <- Line_init ax ay px py col ;;
         update (with_current_shape (Some (CurShape sh))) ;;
         append_shape_object sh
       else if bool_decide (tool = Some "rectangle") then
         sh <- Rectangle_init ax ay px py col sty ;;
         update (with_current_shape (Some (CurShape sh))) ;;
         append_shape_object sh
       else ret tt
     else ret tt) ;;
    draw_shape ax ay px py
  else ret tt.

(** [on_release].  [new_color] and [new_style] are the user's answers to
    the prompts of an edit. *)
Definition on_release (event : Event) (new_color new_style : option string) : M unit :=
  m <- get mode ;;
  if bool_decide (m = "copy") then
    copy_shape ;; update (with_mode "")
  else if bool_decide (m = "move") then
    update (with_mode "ready_to_move")
  else if bool_decide (m = "draw") then
    cur <- get current_shape ;;
    match cur with
    | Some (CurShape sh) =>
        finalize sh ;;
        update (with_current_shape None) ;;
        update (with_current_tool None) ;;
        update (with_mode "")
    | Some (CurItem id) => if id =? 0 then ret tt else raise Py.AttributeError
    | None => ret tt
    end
  else if bool_decide (m = "edit") then
    edit_selected_shape new_color new_style ;; update (with_mode "")
  else if bool_decide (m = "delete") then
    delete_shape ;; update (with_mode "")
  else if bool_decide (m = "group") then
    group_shapes ;; update (with_mode "")
  else if bool_decide (m = "ungroup") then
    ungroup_shapes ;; update (with_mode "")
  else
    sx <- get start_x ;;
    sy <- get start_y ;;
    highlight_shapes_in_area sx sy (Py.PyInt (ev_x event)) (Py.PyInt (ev_y event)).

End Handlers.

(** ** class FileManager *)

Module FileManager.

(** [FileManager.save_file].  [asksaveasfilename] is what the save dialog
    returns if it is shown (the empty string when cancelled). *)
Definition save_file (asksaveasfilename : string) : M unit :=
  cf <- get current_file ;;
  let filename :=
    match cf with
    | Some f => if Py.truthy cf then f else asksaveasfilename
    | None => asksaveasfilename
    end in
  if Py.truthy (Some filename) then
    construct_shape_from_shape_object ;;
    strs <- get shapes ;;
    let content := String.concat "" (map (fun sh => sh +:+ String Py.LF "") strs) in
    update (fun s => with_files (<[filename := content]> (files s)) s) ;;
    update (with_unsaved_changes false)
  else ret tt.

(** [FileManager.open_file].  [askokcancel] answers the unsaved-changes
    question if it is asked, [askopenfilename] is what the open dialog
    returns (the empty string when cancelled). *)
Definition open_file (askokcancel : bool) (askopenfilename : string) : M unit :=
  unsaved <- get unsaved_changes ;;
  if unsaved && negb askokcancel then ret tt
  else
    let filename := askopenfilename in
    if Py.truthy (Some filename) then
      update (with_file_opened true) ;;
      update (with_shapes []) ;;
      tk_delete_all ;;
      disk <- get files ;;
      match disk !! filename with
      | None => raise Py.FileNotFoundError
      | Some content =>
          for_each (Py.readlines content) (fun line =>
            update (fun s => with_shapes (shapes s ++ [Py.strip line]) s)) ;;
          redraw_shapes ;;
          update (with_current_file (Some filename)) ;;
          update (with_unsaved_changes false)
      end
    else ret tt.

End FileManager.

(** [DrawCanvas.save_file] and [DrawCanvas.open_file] *)
Definition save_file (asksaveasfilename : string) : M unit :=
  FileManager.save_file asksaveasfilename.

Definition open_file (askokcancel : bool) (askopenfilename : string) : M unit :=
  FileManager.open_file askokcancel askopenfilename.

(** ** Start-up *)

(** What an unallocated reference reads as; no method reads one. *)
Definition no_shape : Shape :=
  {| cls := Line; x1 := Py.PyInt 0; y1 := Py.PyInt 0; x2 := Py.PyInt 0; y2 := Py.PyInt 0;
     color := ""; style := None; shape_id := None; groups := [] |}.

(** [DrawingApp.__init__]: a fresh canvas; a command-line argument only
    registers the current file.  [disk] is the file system the editor
    finds. *)
Definition init (argv1 : option string) (disk : gmap string string) : State :=
  {| tk := Tk.empty; shapes := []; shape_object := []; selected_shapes := [];
     properties_text_ids := []; current_tool := None; current_color := "black";
     current_style := "s"; start_x := None; start_y := None; current_shape := None;
     file_opened := false; mode := ""; moving := false; canvas_group := [];
     current_file := argv1; unsaved_changes := false;
     shape_heap := fun _ => no_shape; next_shape := 0%nat;
     group_heap := fun _ => Group.new; next_group := 0%nat;
     files := disk; popups := [] |}.

(** ** Sessions

    Concrete runs of the editor, driven through its handlers the way the
    menus and the pointer drive them. *)

Module Scenario.

(** An area selection that ends with the shapes [picked] selected: what
    hit-testing leaves in [selected_shapes] when the drag rectangle meets
    them (the outline and annotation it draws are not reproduced). *)
Definition picks (picked : list nat)
    : option Py.num -> option Py.num -> Py.num -> Py.num -> M unit :=
  fun _ _ _ _ => update (with_selected_shapes picked).

Definition at_ (x y : Z) : Event := {| ev_x := x; ev_y := y |}.

(** The state a computation ends in. *)
Definition after {A} (m : M A) (s : State) : State := (m s).2.

(** Press at [p0], drag through [path], release at [p1], over empty
    canvas. *)
Definition stroke (p0 : Z * Z) (path : list (Z * Z)) (p1 : Z * Z) : M unit :=
  on_click (at_ p0.1 p0.2) ;;
  for_each path (fun p => on_drag (picks []) (at_ p.1 p.2)) ;;
  on_release (picks []) (at_ p1.1 p1.2) None None.

(** Press at [p0], drag to [p1] over the shapes [picked] and release, in
    the current mode; [c] and [st] answer the prompts of an edit. *)
Definition sweep (picked : list nat) (p0 p1 : Z * Z) (c st : option string) : M unit :=
  on_click (at_ p0.1 p0.2) ;;
  on_drag (picks picked) (at_ p1.1 p1.2) ;;
  on_release (picks picked) (at_ p1.1 p1.2) c st.

(** The menu commands of [create_menu]. *)
Definition menu_line (c : string) : M unit :=
  set_color c ;; set_tool "line" ;; set_mode "draw".
Definition menu_rectangle (c : string) : M unit :=
  set_color c ;; set_tool "rectangle" ;; set_mode "draw".
Definition menu_corners (st : string) : M unit :=
  set_style st ;; set_tool "rectangle" ;; set_mode "draw".

Definition fresh : State := init None ∅.

Definition nl : string := String Py.LF "".

(** A blue sharp rectangle from (0,0) to (40,40), saved, and the file
    opened in a new session. *)
Definition blue_square : State :=
  after (menu_rectangle "blue" ;; stroke (0, 0) [(40, 40)] (40, 40)) fresh.
Definition saved_square : State := after (save_file "square.txt") blue_square.
Definition reopened_square : State :=
  after (open_file true "square.txt") (init None (files saved_square)).

(** A black line from (10,10) to (50,50), saved and opened again
    likewise. *)
Definition short_line : State :=
  after (menu_line "black" ;; stroke (10, 10) [(50, 50)] (50, 50)) fresh.
Definition saved_line : State := after (save_file "line.txt") short_line.
Definition reopened_line : State :=
  after (open_file true "line.txt") (init None (files saved_line)).

(** A black line dragged from (10,10) through ([mid],[mid]) to
    (100,100). *)
Definition long_line (mid : Z) : State :=
  after (menu_line "black" ;; stroke (10, 10) [(mid, mid); (100, 100)] (100, 100)) fresh.

(** An edit of the short line, and of the blue square, with a prompt
    cancelled. *)
Definition line_edit_cancelled : State :=
  after (set_mode "edit" ;; sweep [0%nat] (0, 0) (60, 60) None None) short_line.
Definition square_edit_cancelled : State :=
  after (set_mode "edit" ;; sweep [0%nat] (0, 0) (60, 60) (Some "red") None) blue_square.

(** The short line drawn in a session that finds [other.txt] on disk, then
    that file opened, then the document saved again. *)
Definition disk : gmap string string :=
  {[ "other.txt" := "line 1 2 3 4 red" +:+ nl ]}.
Definition line_before_open : State :=
  after (menu_line "black" ;; stroke (10, 10) [(50, 50)] (50, 50)) (init None disk).
Definition opened_other : State := after (open_file true "other.txt") line_before_open.
Definition saved_after_open : State := after (save_file "") opened_other.

(** A rounded rectangle from (10,10) to (50,50), then copied; the short
    line copied. *)
Definition rounded : State :=
  after (menu_corners "r" ;; stroke (10, 10) [(50, 50)] (50, 50)) fresh.
Definition copied_rounded : State :=
  after (set_mode "copy" ;; sweep [0%nat] (0, 0) (60, 60) None None) rounded.
Definition copied_line : State :=
  after (set_mode "copy" ;; sweep [0%nat] (0, 0) (60, 60) None None) short_line.
Definition copied_square : State :=
  after (set_mode "copy" ;; sweep [0%nat] (0, 0) (60, 60) None None) blue_square.

(** A rounded and a sharp rectangle from (0,0) to (100,100), each picked
    up in move mode and dropped with a click at (200,200). *)
Definition pick_up_and_drop : M unit :=
  set_mode "move" ;; sweep [0%nat] (0, 0) (120, 120) None None ;; on_click (at_ 200 200).
Definition big_rounded : State :=
  after (menu_corners "r" ;; stroke (0, 0) [(100, 100)] (100, 100)) fresh.
Definition moved_rounded : State := after pick_up_and_drop big_rounded.
Definition big_sharp : State :=
  after (menu_corners "s" ;; stroke (0, 0) [(100, 100)] (100, 100)) fresh.
Definition moved_sharp : State := after pick_up_and_drop big_sharp.

(** Three lines; the first two grouped; then two selections put together
    by hand on the state so reached. *)
Definition three_lines : State :=
  after (menu_line "black" ;; stroke (0, 0) [(10, 0)] (10, 0) ;;
         menu_line "black" ;; stroke (0, 20) [(10, 20)] (10, 20) ;;
         menu_line "black" ;; stroke (0, 40) [(10, 40)] (10, 40)) fresh.
Definition one_selected : State := with_selected_shapes [2%nat] three_lines.
Definition two_selected : State := with_selected_shapes [0; 1]%nat three_lines.
Definition first_group : State := after group_shapes two_selected.
Definition first_and_third : State := with_selected_shapes [0; 2]%nat first_group.
Definition regrouped_pair : State := with_selected_shapes [0; 1]%nat first_group.

(** The short line selected for an edit, as it is when the pointer is
    released. *)
Definition line_to_edit : State := with_selected_shapes [0%nat] (with_mode "edit" short_line).

(** The sharp rectangle selected, as it is when the drop click comes. *)
Definition sharp_picked_up : State := with_selected_shapes [0%nat] big_sharp.

(** The rounded rectangle, and the short line with its copy, saved and
    opened in a new session. *)
Definition saved_rounded : State := after (save_file "rounded.txt") rounded.
Definition reopen_rounded : Py.Result unit * State :=
  open_file true "rounded.txt" (init None (files saved_rounded)).
Definition saved_copy : State := after (save_file "copy.txt") copied_line.
Definition reopen_copy : Py.Result unit * State :=
  open_file true "copy.txt" (init None (files saved_copy)).

End Scenario.

(** ** Views of the document *)

(** The stored geometry of a shape object. *)
Definition corners (o : Shape) : list Py.num := [x1 o; y1 o; x2 o; y2 o].

(** The render handles of the document, in document order. *)
Definition handles (s : State) : list (option Z) :=
  map (fun sh => shape_id (shape_heap s sh)) (shape_object s).

(** ** Saving from the render state, as the specification words it

    If every line of the file were derived from the shape's render handle,
    two editors showing the same canvas through the same handles, with the
    same file registered and the same files on disk, would leave the same
    files. *)
Definition save_reads_render_state : Prop :=
  ∀ s s' name,
    tk s = tk s' → handles s = handles s' → current_file s = current_file s' →
    files s = files s' →
    files (Scenario.after (save_file name) s) = files (Scenario.after (save_file name) s').

(** ** The spec's partition of a new group's members

    The direct shapes of a new group as the specification words them, for
    comparison with [Group.indv_shapes]: the selected shapes whose stack is
    empty, or whose top group is not the top group of another selected
    shape. *)
Definition top_shared (s : State) (sh : nat) : bool :=
  existsb (fun other =>
             negb (Nat.eqb other sh) &&
             bool_decide (last (groups (shape_heap s other)) = last (groups (shape_heap s sh))))
          (selected_shapes s).

Definition spec_direct_shapes (s : State) : list nat :=
  filter (fun sh => groups (shape_heap s sh) = [] ∨ top_shared s sh = false)
         (selected_shapes s).

(** ** The loops on the heaps alone

    The loops of [group_shapes], [ungroup_shapes] and
    [construct_shape_from_shape_object] touch the object heap and the
    [shapes] list only; these are their effects as plain functions, which
    the proofs below relate to the loops themselves. *)

(** [shape.add_group(g)] and [g.add_shapes(shape)] on the objects. *)
Definition pushed (g : nat) (o : Shape) : Shape := set_groups (groups o ++ [g]) o.

Definition joined (o : Shape) (sh : nat) (grp : Group.t) : Group.t :=
  match last (groups o) with
  | Some top =>
      {| Group.shapes := Group.shapes grp ++ [sh];
         Group.indv_shapes := Group.indv_shapes grp;
         Group.sub_grps := if bool_decide (top ∈ Group.sub_grps grp)
                           then Group.sub_grps grp else Group.sub_grps grp ++ [top] |}
  | None =>
      {| Group.shapes := Group.shapes grp ++ [sh];
         Group.indv_shapes := Group.indv_shapes grp ++ [sh];
         Group.sub_grps := Group.sub_grps grp |}
  end.

Fixpoint group_rounds (g : nat) (l : list nat) (H : nat -> Shape) (G : nat -> Group.t)
    : (nat -> Shape) * (nat -> Group.t) :=
  match l with
  | [] => (H, G)
  | sh :: l' =>
      group_rounds g l' (upd sh (pushed g (H sh)) H) (upd g (joined (H sh) sh (G g)) G)
  end.

(** The state [group_shapes] reaches from [s] when it forms a group. *)
Definition grouped (s : State) : State :=
  let g := next_group s in
  let R := group_rounds g (selected_shapes s) (shape_heap s) (upd g Group.new (group_heap s)) in
  with_popups (popups s ++ ["Group Formed"])
    (with_canvas_group (canvas_group s ++ [g])
       (with_shape_heap R.1 (with_group_heap R.2 (with_next_group (S g) s)))).

(** [shape.groups = shape.groups[:-1]] and [g.shapes.remove(shape)] on the
    objects. *)
Definition popped (o : Shape) : Shape := set_groups (removelast (groups o)) o.

Definition without (members : list nat) (grp : Group.t) : Group.t :=
  {| Group.shapes := members; Group.indv_shapes := Group.indv_shapes grp;
     Group.sub_grps := Group.sub_grps grp |}.

(** [None] when some [remove_shapes] raises. *)
Fixpoint ungroup_rounds (g : nat) (l : list nat) (H : nat -> Shape) (G : nat -> Group.t)
    : option ((nat -> Shape) * (nat -> Group.t)) :=
  match l with
  | [] => Some (H, G)
  | sh :: l' =>
      match Py.remove sh (Group.shapes (G g)) with
      | Py.Ok m => ungroup_rounds g l' (upd sh (popped (H sh)) H) (upd g (without m (G g)) G)
      | Py.Raise _ => None
      end
  end.

(** The body of the popping loop of [ungroup_shapes]. *)
Definition ungroup_body (g sh : nat) : M unit :=
  o <- shape sh ;;
  set_shape sh (set_groups (removelast (groups o)) o) ;;
  remove_shapes g sh.

Definition no_common_group : string :=
  "The selected elements do not belong to a common group".

(** The state [ungroup_shapes] reaches from [s] when it refuses. *)
Definition rejected (s : State) : State := with_popups (popups s ++ [no_common_group]) s.

(** One round of the loops of [move_shape] on the document, the heap and
    the canvas; [None] when the shape is not in the document or has no
    handle. *)
Definition move_round (dx dy : Py.num) (sh : nat)
    (d : list nat * (nat -> Shape) * Tk.Canvas) : option (list nat * (nat -> Shape) * Tk.Canvas) :=
  let '(objs, H, c) := d in
  match Py.remove sh objs, shape_id (H sh) with
  | Py.Ok objs', Some id =>
      Some (objs' ++ [sh], upd sh (translate dx dy (H sh)) H, Tk.move id dx dy c)
  | _, _ => None
  end.

Fixpoint move_rounds (dx dy : Py.num) (l : list nat)
    (d : list nat * (nat -> Shape) * Tk.Canvas) : option (list nat * (nat -> Shape) * Tk.Canvas) :=
  match l with
  | [] => Some d
  | sh :: l' =>
      match move_round dx dy sh d with
      | Some d' => move_rounds dx dy l' d'
      | None => None
      end
  end.

Definition document (s : State) : list nat * (nat -> Shape) * Tk.Canvas :=
  (shape_object s, shape_heap s, tk s).

Definition with_document (d : list nat * (nat -> Shape) * Tk.Canvas) (s : State) : State :=
  let '(objs, H, c) := d in with_shape_object objs (with_shape_heap H (with_tk c s)).

(** [move(id, dx, dy)] for the item of shape [sh], if it has one. *)
Definition item_moved (dx dy : Py.num) (H : nat -> Shape) (c : Tk.Canvas) (sh : nat)
    : Tk.Canvas :=
  match shape_id (H sh) with
  | Some id => Tk.move id dx dy c
  | None => c
  end.

(** [m] only ever appends to the document: whatever it returns or raises,
    the shapes that were in [shape_object] are still there, in front. *)
Definition keeps_document {A} (m : M A) : Prop :=
  ∀ s, ∃ new, shape_object (m s).2 = shape_object s ++ new.

(** The loop body of [construct_shape_from_shape_object]. *)
Definition construct_body (sh : nat) : M unit :=
  o <- shape sh ;;
  shape_type <- tk_type (shape_id o) ;;
  line <- shape_line shape_type o ;;
  update (fun s => with_shapes (shapes s ++ [line]) s).

(** [m] does not look at the canvas beyond what it shares with [c']: run on
    a state whose canvas is replaced by [c'], it gives the same result and
    the same state up to the canvas, which it leaves alone. *)
Definition blind_to_canvas {A} (c' : Tk.Canvas) (m : M A) (s : State) : Prop :=
  m (with_tk c' s) = ((m s).1, with_tk c' (m s).2) ∧
  tk (m s).2 = tk s.

(** * More of the editor *)

(** ** Area selection

    The two selection loops of [highlight_shapes_in_area], run on the item
    ids [overlapping_shapes] that Tk's [find_overlapping] returned for the
    drag rectangle. *)

(** [self.selected_shapes.append(sh)] unless it is there already. *)
Definition select (sh : nat) : M unit :=
  sel <- get selected_shapes ;;
  if bool_decide (sh ∈ sel) then ret tt
  else update (fun s => with_selected_shapes (selected_shapes s ++ [sh]) s).

(** The shape objects whose handle is one of the ids hit, by id and then in
    document order. *)
Definition overlapping_shapes_obj (s : State) (overlapping_shapes : list Z) : list nat :=
  flat_map (fun id => List.filter (fun sh => bool_decide (shape_id (shape_heap s sh) = Some id))
                                  (shape_object s))
           overlapping_shapes.

Definition select_overlapping (overlapping_shapes : list Z) : M unit :=
  hit <- get (fun s => overlapping_shapes_obj s overlapping_shapes) ;;
  for_each hit (fun shape_obj =>
    sel <- get selected_shapes ;;
    if bool_decide (shape_obj ∈ sel) then ret tt
    else
      update (fun s => with_selected_shapes (selected_shapes s ++ [shape_obj]) s) ;;
      o <- shape shape_obj ;;
      if Nat.ltb 0 (length (groups o)) then
        for_each (groups o) (fun g =>
          grp <- group g ;;
          for_each (Group.shapes grp) select)
      else ret tt).

(** The same loops on the selection alone. *)
Definition selected_with (sel : list nat) (sh : nat) : list nat :=
  if bool_decide (sh ∈ sel) then sel else sel ++ [sh].

Definition selected_with_groups (H : nat -> Shape) (G : nat -> Group.t)
    (sel : list nat) (shape_obj : nat) : list nat :=
  if bool_decide (shape_obj ∈ sel) then sel
  else fold_left (fun sel g => fold_left selected_with (Group.shapes (G g)) sel)
                 (groups (H shape_obj)) (sel ++ [shape_obj]).

Definition select_groups (G : nat -> Group.t) (gs : list nat) (sel : list nat) : list nat :=
  fold_left (fun sel g => fold_left selected_with (Group.shapes (G g)) sel) gs sel.

(** [min(a, b)] and [max(a, b)] on numbers: the second argument is taken
    only when it is strictly smaller (larger). *)
Definition num_lt (a b : Py.num) : bool := negb (Qle_bool (Py.to_float b) (Py.to_float a)).
Definition py_min (a b : Py.num) : Py.num := if num_lt b a then b else a.
Definition py_max (a b : Py.num) : Py.num := if num_lt a b then b else a.

(** [create_text(x, y, text=..., anchor="nw")]: a text item at (x, y) in
    the default colour.  The display list keeps the options the editor
    reads back; the text shown is not one of them. *)
Definition create_text (x y : Py.num) (text : string) : M Z :=
  tk_create Tk.KText [x; y] "black" "" false.

(** [gettags(id)]: the tags as a tuple.  No item of this editor is given
    a tag, so the option is the empty string throughout. *)
Definition tk_gettags (i : option Z) : M (list string) :=
  id <- need_item i ;;
  get (fun s => match Tk.itemcget Tk.tags id (tk s) with
                | EmptyString => []
                | t => Py.split " " t
                end).

Section AreaSelection.

(** What Tk computes from the geometry of the items: the ids of the items
    that meet a rectangle, in display order ([find_overlapping]); the
    bounding box of an item, [None] when it has none ([bbox]); and the items
    a Python list used as one tagOrId names, if Tk accepts it. *)
Variable find_overlapping : Tk.Canvas -> Py.num -> Py.num -> Py.num -> Py.num -> list Z.
Variable bbox : Tk.Canvas -> Z -> option (Z * Z * Z * Z).
Variable named_by_list : Tk.Canvas -> list Z -> Py.Result (list Z).

(** [x1, y1, x2, y2 = self.bbox(id)] *)
Definition tk_bbox (i : option Z) : M (Z * Z * Z * Z) :=
  id <- need_item i ;;
  c <- get tk ;;
  match bbox c id with
  | Some b => ret b
  | None => raise Py.TypeError
  end.

(** [highlight_shapes_in_area] *)
Definition highlight_shapes_in_area (x1 y1 : option Py.num) (x2 y2 : Py.num) : M unit :=
  ids <- get properties_text_ids ;;
  match ids with
  | [] => ret tt
  | _ =>
      c <- get tk ;;
      named <- lift (named_by_list c ids) ;;
      for_each named (fun id => tk_delete (Some id))
  end ;;
  ax <- anchor x1 ;;
  ay <- anchor y1 ;;
  c <- get tk ;;
  let overlapping_shapes :=
    find_overlapping c (py_min ax x2) (py_min ay y2) (py_max ax x2) (py_max ay y2) in
  select_overlapping overlapping_shapes ;;
  sel <- get selected_shapes ;;
  for_each sel (fun sh =>
    o <- shape sh ;;
    tk_itemconfig_width (shape_id o) 3 ;;
    b <- tk_bbox (shape_id o) ;;
    let '(bx1, by1, bx2, by2) := b in
    let center_x := Py.div2 (Py.PyInt (bx1 + bx2)) in
    let center_y := Py.div2 (Py.PyInt (by1 + by2)) in
    shape_type <- tk_type (shape_id o) ;;
    properties_text <-
      (if bool_decide (shape_type = Some "rectangle") then
         color <- tk_itemcget Tk.outline (shape_id o) ;;
         tags <- tk_gettags (shape_id o) ;;
         let style := if bool_decide ("r" ∈ tags) then "r" else "s" in
         ret ("Color: " +:+ color +:+ String Py.LF "" +:+ "Style: " +:+ style)
       else
         color <- tk_itemcget Tk.fill (shape_id o) ;;
         ret ("Color: " +:+ color)) ;;
    m <- get mode ;;
    if bool_decide (m ∈ ["delete"; "move"; "copy"; "group"; "ungroup"]) then ret tt
    else
      text <- create_text center_x center_y properties_text ;;
      update (fun s => with_properties_text_ids (properties_text_ids s ++ [text]) s)).

End AreaSelection.

(** ** Export *)

Definition TAB : string := String "009"%char "".

(** [Line.to_xml] and [Rectangle.to_xml] *)
Definition to_xml (o : Shape) : Py.Result string :=
  let n := String Py.LF "" in
  let point tag x y :=
    TAB +:+ "<" +:+ tag +:+ ">" +:+ n +:+
    TAB +:+ TAB +:+ "<x>" +:+ Py.str x +:+ "</x>" +:+ n +:+
    TAB +:+ TAB +:+ "<y>" +:+ Py.str y +:+ "</y>" +:+ n +:+
    TAB +:+ "</" +:+ tag +:+ ">" +:+ n in
  match cls o with
  | Line =>
      Py.Ok ("<line>" +:+ n +:+
             point "begin" (x1 o) (y1 o) +:+
             point "end" (x2 o) (y2 o) +:+
             TAB +:+ "<color>" +:+ color o +:+ "</color>" +:+ n +:+ "</line>" +:+ n)
  | Rectangle =>
      match style o with
      | Some st =>
          Py.Ok ("<rectangle>" +:+ n +:+
                 point "upper-left" (x1 o) (y1 o) +:+
                 point "lower-right" (x2 o) (y2 o) +:+
                 TAB +:+ "<color>" +:+ color o +:+ "</color>" +:+ n +:+
                 TAB +:+ "<corner>" +:+ st +:+ "</corner>" +:+ n +:+
                 "</rectangle>" +:+ n)
      | None => Py.Raise Py.AttributeError
      end
  end.

(** Results of a loop body, collected in order. *)
Fixpoint collect {A B} (l : list A) (f : A -> M B) : M (list B) :=
  match l with
  | [] => ret []
  | a :: l' => b <- f a ;; bs <- collect l' f ;; ret (b :: bs)
  end.

Section XmlExport.

(** ElementTree: the element [ET.fromstring] parses from a string, or the
    exception it raises, and the text [ElementTree.write] produces for a
    root [shapes] with the given children. *)
Variable Element : Type.
Variable ET_fromstring : string -> Py.Result Element.
Variable ET_write : list Element -> string.

(** [FileManager.save_to_xml], with what the save dialog returns if it is
    shown. *)
Definition save_to_xml (asksaveasfilename : string) : M unit :=
  cf <- get current_file ;;
  let filename :=
    match cf with
    | Some f => if Py.truthy cf then f else asksaveasfilename
    | None => asksaveasfilename
    end in
  if Py.truthy (Some filename) then
    objs <- get shape_object ;;
    children <- collect objs (fun sh =>
      o <- shape sh ;;
      xml <- lift (to_xml o) ;;
      lift (ET_fromstring xml)) ;;
    update (fun s => with_files (<[filename := ET_write children]> (files s)) s) ;;
    update (with_unsaved_changes false)
  else ret tt.

End XmlExport.

(** ** The event loop *)

Inductive Colour := Black | Blue | Green | Red.
Inductive Corners := SquareCorners | RoundedCorners.
Inductive Action := Copy | Move | Delete | Edit | GroupObjects | UngroupObjects.

Definition colour_name (c : Colour) : string :=
  match c with Black => "black" | Blue => "blue" | Green => "green" | Red => "red" end.

Definition corners_name (k : Corners) : string :=
  match k with SquareCorners => "s" | RoundedCorners => "r" end.

Definition action_name (a : Action) : string :=
  match a with
  | Copy => "copy" | Move => "move" | Delete => "delete" | Edit => "edit"
  | GroupObjects => "group" | UngroupObjects => "ungroup"
  end.

(** What the user can do: the three pointer bindings of
    [DrawCanvas.__init__] and the entries of [create_menu], each with the
    answers the user gives to the dialogs it may show. *)
Inductive Command :=
  | Press (event : Event)
  | Motion (event : Event)
  | Release (event : Event) (new_color new_style : option string)
  | DrawLine (c : Colour)
  | DrawRectangle (c : Colour)
  | DrawStyle (k : Corners)
  | Actions (a : Action)
  | FileOpen (askokcancel : bool) (askopenfilename : string)
  | FileSave (asksaveasfilename : string)
  | FileExport (asksaveasfilename : string).

(** A callback run by Tk's main loop: an exception ends the callback, is
    reported, and the loop goes on with the state as the callback left
    it. *)
Definition callback (m : M unit) : State -> State := fun s => (m s).2.

Section Loop.

Variable find_overlapping : Tk.Canvas -> Py.num -> Py.num -> Py.num -> Py.num -> list Z.
Variable bbox : Tk.Canvas -> Z -> option (Z * Z * Z * Z).
Variable named_by_list : Tk.Canvas -> list Z -> Py.Result (list Z).
Variable Element : Type.
Variable ET_fromstring : string -> Py.Result Element.
Variable ET_write : list Element -> string.

Definition highlight := highlight_shapes_in_area find_overlapping bbox named_by_list.

Definition perform (c : Command) : M unit :=
  match c with
  | Press event => on_click event
  | Motion event => on_drag highlight event
  | Release event new_color new_style => on_release highlight event new_color new_style
  | DrawLine c => set_color (colour_name c) ;; set_tool "line" ;; set_mode "draw"
  | DrawRectangle c => set_color (colour_name c) ;; set_tool "rectangle" ;; set_mode "draw"
  | DrawStyle k => set_style (corners_name k) ;; set_tool "rectangle" ;; set_mode "draw"
  | Actions a => set_mode (action_name a)
  | FileOpen askokcancel askopenfilename => open_file askokcancel askopenfilename
  | FileSave asksaveasfilename => save_file asksaveasfilename
  | FileExport asksaveasfilename => save_to_xml Element ET_fromstring ET_write asksaveasfilename
  end.

(** [root.mainloop()] over the commands the user gives, in order. *)
Definition mainloop (cs : list Command) (s : State) : State :=
  fold_left (fun s c => callback (perform c) s) cs s.

End Loop.

(** ** Invariants of the event loop *)

(** From a state in [P], [m] returns in [Q] or raises in [E]. *)
Definition hoare {A} (P : State -> Prop) (m : M A) (Q : A -> State -> Prop)
    (E : State -> Prop) : Prop :=
  ∀ s, P s → match m s with
             | (Py.Ok a, s') => Q a s'
             | (Py.Raise _, s') => E s'
             end.

(** [m] keeps [I], whether it returns or raises. *)
Definition preserves {A} (I : State -> Prop) (m : M A) : Prop :=
  hoare I m (fun _ => I) I.

(** The references in [l] have been handed out by [Shape.__init__]. *)
Definition allocated (l : list nat) (s : State) : Prop :=
  ∀ r, r ∈ l → (r < next_shape s)%nat.

(** The document side: no shape object is listed twice in the document or
    in the selection, and what the lists and the groups hold are shape
    objects that exist. *)
Definition doc_sound (s : State) : Prop :=
  NoDup (shape_object s) ∧
  NoDup (selected_shapes s) ∧
  allocated (shape_object s) s ∧
  allocated (selected_shapes s) s ∧
  ∀ g, allocated (Group.shapes (group_heap s g)) s.

(** The canvas side: item ids in use (handles of shape objects, items on
    the display list, annotation texts) have been handed out by Tk; no two
    shape objects have the same handle; no annotation text is the handle of
    a shape object. *)
Definition canvas_sound (s : State) : Prop :=
  0 < Tk.next_id (tk s) ∧
  (∀ r i, shape_id (shape_heap s r) = Some i → 0 < i < Tk.next_id (tk s)) ∧
  (∀ r r' i, shape_id (shape_heap s r) = Some i → shape_id (shape_heap s r') = Some i → r = r') ∧
  (∀ i, is_Some (Tk.items (tk s) !! i) → 0 < i < Tk.next_id (tk s)) ∧
  (∀ i, i ∈ properties_text_ids s → 0 < i < Tk.next_id (tk s)) ∧
  (∀ r i, shape_id (shape_heap s r) = Some i → i ∉ properties_text_ids s).

(** [id] has been handed out and is not in use. *)
Definition unused (id : Z) (s : State) : Prop :=
  0 < id < Tk.next_id (tk s) ∧
  (∀ r, shape_id (shape_heap s r) ≠ Some id) ∧
  id ∉ properties_text_ids s.

(** [delete(shape.shape_id)] for shape [sh] on the display list. *)
Definition item_deleted (H : nat -> Shape) (c : Tk.Canvas) (sh : nat) : Tk.Canvas :=
  match shape_id (H sh) with
  | Some id => Tk.delete id c
  | None => c
  end.

(** The loop of [delete_shape] on the document and the canvas; the flag
    is [false] when a [remove] has raised, with what had been done by
    then. *)
Fixpoint delete_rounds (H : nat -> Shape) (l : list nat) (objs : list nat) (c : Tk.Canvas)
    : bool * list nat * Tk.Canvas :=
  match l with
  | [] => (true, objs, c)
  | sh :: l' =>
      match Py.remove sh objs with
      | Py.Ok objs' => delete_rounds H l' objs' (item_deleted H c sh)
      | Py.Raise _ => (false, objs, item_deleted H c sh)
      end
  end.

(** The colour names the editor itself hands to Tk: those of its menus.
    The colour prompt of an edit takes any text; for a name Tk does not
    know, [itemconfig] and the [create_] calls raise [TclError], which the
    display list here does not tell apart.  What is proved of an answered
    prompt is proved for these names. *)
Definition menu_colour (col : string) : Prop := ∃ c : Colour, col = colour_name c.

(** What [edit_selected_shape] does between reading the selection and
    deleting it, for an item of type [shape_type]. *)
Definition edit_prompts (shape_id : option Z) (shape_type : option string)
    (new_color new_style : option string) : M unit :=
  if bool_decide (shape_type = Some "rectangle") then
    match new_style, new_color with
    | Some st, Some c =>
        if Py.truthy new_style && Py.truthy new_color
        then update_rectangle_style shape_id st c
        else ret tt
    | _, _ => ret tt
    end
  else if bool_decide (shape_type = Some "line") then
    match new_color with
    | Some c => if Py.truthy new_color then tk_itemconfig_fill shape_id c else ret tt
    | None => ret tt
    end
  else ret tt.

(** The state [update_rectangle_style] leaves: a new rectangle object that
    is referenced from [current_shape] only, and for the styles [r] and [s]
    a new item. *)
Definition restyled (c0 c1 c2 c3 : Py.num) (st col : string) (s : State) : State :=
  let new := next_shape s in
  let o := {| cls := Rectangle; x1 := c0; y1 := c1; x2 := c2; y2 := c3; color := col;
              style := Some st; shape_id := None; groups := [] |} in
  let s1 := with_current_shape (Some (CurShape new))
              (with_next_shape (S new) (with_shape_heap (upd new o (shape_heap s)) s)) in
  if bool_decide (st = "r") then
    (draw_rounded_rectangle c0 c1 c2 c3 20 col "" s1).2
  else if bool_decide (st = "s") then
    with_current_shape (Some (CurItem (Tk.next_id (tk s))))
      (with_tk (Tk.create Tk.KRectangle [c0; c1; c2; c3] "" col false (tk s)).2 s1)
  else s1.

(** The File menu's Open. *)
Definition is_open (c : Command) : bool :=
  match c with
  | FileOpen _ _ => true
  | _ => false
  end.

(** The draw branch of [on_drag], with the anchor [on_click] stored. *)
Definition on_drag_draw (ax ay : Py.num) (event : Event) : M unit :=
  let px := Py.PyInt (ev_x event) in
  let py := Py.PyInt (ev_y event) in
  tool <- get current_tool ;;
  col <- get current_color ;;
  sty <- get current_style ;;
  (if Py.truthy tool then
     if bool_decide (tool = Some "line") then
       sh <- Line_init ax ay px py col ;;
       update (with_current_shape (Some (CurShape sh))) ;;
       append_shape_object sh
     else if bool_decide (tool = Some "rectangle") then
       sh <- Rectangle_init ax ay px py col sty ;;
       update (with_current_shape (Some (CurShape sh))) ;;
       append_shape_object sh
     else ret tt
   else ret tt) ;;
  draw_shape ax ay px py.

(** The line item [create_line] makes. *)
Definition line_item (a b c d : Py.num) (f : string) : Tk.Item :=
  {| Tk.kind := Tk.KLine; Tk.coords := map Py.to_float [a; b; c; d]; Tk.fill := f;
     Tk.outline := ""; Tk.width := 1; Tk.tags := ""; Tk.smooth := false |}.

(** A line is being dragged out from [p0]: the shape object [n] was made
    at the first motion event, to [e1], and its item was last drawn to
    [last]. *)
Definition previewing (c : string) (p0 e1 last : Event) (D : list nat) (H : nat -> Shape)
    (n : nat) (s : State) : Prop :=
  mode s = "draw" ∧ current_tool s = None ∧ current_shape s = Some (CurShape n) ∧
  start_x s = Some (Py.PyInt (ev_x p0)) ∧ start_y s = Some (Py.PyInt (ev_y p0)) ∧
  file_opened s = false ∧ shape_object s = D ++ [n] ∧ next_shape s = S n ∧
  (∀ r, r ≠ n → shape_heap s r = H r) ∧
  ∃ h, shape_heap s n =
         {| cls := Line; x1 := Py.PyInt (ev_x p0); y1 := Py.PyInt (ev_y p0);
            x2 := Py.PyInt (ev_x e1); y2 := Py.PyInt (ev_y e1); color := c; style := None;
            shape_id := Some h; groups := [] |} ∧
       0 < h < Tk.next_id (tk s) ∧
       Tk.items (tk s) !! h =
         Some (line_item (Py.PyInt (ev_x p0)) (Py.PyInt (ev_y p0))
                 (Py.PyInt (ev_x last)) (Py.PyInt (ev_y last)) c).

(** Floats are modelled by the rationals they denote, and [str] by the
    decimal expansion.  On the multiples of 1/1024 within 100000 of zero,
    which the coordinates of a screen are, doubles compute the sums,
    differences and halvings of the editor without rounding, and [str]
    prints the expansion in full; [pixel] is that range. *)
Definition pixel (q : Q) : bool :=
  let r := Qred q in
  (1024 mod Z.pos (Qden r) =? 0) && (Z.abs (Qnum r) <=? 100000 * Z.pos (Qden r)).

Definition small_num (a : Py.num) : bool := pixel (Py.to_float a).

(** A number [str] prints as Python does: any int, a float in range. *)
Definition printable (a : Py.num) : bool :=
  match a with
  | Py.PyInt _ => true
  | Py.PyFloat q => pixel q
  end.

(** The stored corners of shape [sh] and the coordinates of its item are
    in that range. *)
Definition in_pixels (s : State) (sh : nat) : bool :=
  let o := shape_heap s sh in
  forallb small_num [x1 o; y1 o; x2 o; y2 o] &&
  match shape_id o with
  | Some id =>
      match Tk.items (tk s) !! id with
      | Some it => forallb pixel (Tk.coords it)
      | None => true
      end
  | None => true
  end.

Definition on_screen (event : Event) : bool :=
  (Z.abs (ev_x event) <=? 100000) && (Z.abs (ev_y event) <=? 100000).

(** The loop body of [copy_shape]. *)
Definition copy_body (sh : nat) : M unit :=
  let offset_x := Py.PyInt 50 in
  let offset_y := Py.PyInt 50 in
  o <- shape sh ;;
  coords <- tk_coords (shape_id o) ;;
  shape_type <- tk_type (shape_id o) ;;
  let new_coords := offset_coords offset_x offset_y coords in
  if bool_decide (shape_type = Some "rectangle") then
    color <- tk_itemcget Tk.outline (shape_id o) ;;
    tags <- tk_itemcget Tk.tags (shape_id o) ;;
    let style := if Py.contains "r" tags then "r" else "s" in
    n0 <- lift (Py.index new_coords 0) ;;
    n1 <- lift (Py.index new_coords 1) ;;
    n2 <- lift (Py.index new_coords 2) ;;
    n3 <- lift (Py.index new_coords 3) ;;
    new <- Rectangle_init n0 n1 n2 n3 color style ;;
    update (with_current_shape (Some (CurShape new))) ;;
    append_shape_object new ;;
    draw_shape n0 n1 n2 n3
  else if bool_decide (shape_type = Some "line") then
    color <- tk_itemcget Tk.fill (shape_id o) ;;
    n0 <- lift (Py.index new_coords 0) ;;
    n1 <- lift (Py.index new_coords 1) ;;
    n2 <- lift (Py.index new_coords 2) ;;
    n3 <- lift (Py.index new_coords 3) ;;
    new <- Line_init n0 n1 n2 n3 color ;;
    update (with_current_shape (Some (CurShape new))) ;;
    append_shape_object new ;;
    draw_shape n0 n1 n2 n3
  else ret tt.

(** A coordinate Tk returned, moved by the offset of [copy_shape]. *)
Definition shifted (q : Q) : Py.num := Py.add (Py.PyFloat q) (Py.PyInt 50).

(** The items [copy_shape] duplicates: lines and rectangles, with their
    two points, in range. *)
Definition copyable (it : Tk.Item) : Prop :=
  length (Tk.coords it) = 4%nat ∧ forallb pixel (Tk.coords it) = true ∧
  (Tk.kind it = Tk.KLine ∨ Tk.kind it = Tk.KRectangle).

(** The style [copy_shape] gives the copy of a rectangle: [r] when the
    letter r occurs in the tags of the item (as it does in [current], the
    tag Tk keeps on the item under the pointer), [s] otherwise. *)
Definition copy_style (it : Tk.Item) : string :=
  if Py.contains "r" (Tk.tags it) then "r" else "s".

(** The control points [draw_rounded_rectangle] passes to
    [create_polygon], for the radius 20 the editor uses. *)
Definition rounded_points (a b c d : Py.num) : list Py.num :=
  let r := Py.PyInt 20 in
  let al := Py.add a r in
  let bl := Py.add b r in
  let cr := Py.sub c r in
  let dr := Py.sub d r in
  [al; b; al; b; cr; b; cr; b; c; b;
   c; bl; c; bl; c; dr; c; dr; c; d;
   cr; d; cr; d; al; d; al; d; a; d;
   a; dr; a; dr; a; bl; a; bl; a; b].

(** The shape object made for the copy of item [it], with handle [h], and
    the item drawn for it. *)
Definition copy_object (it : Tk.Item) (h : option Z) : Shape :=
  match Tk.coords it with
  | [q0; q1; q2; q3] =>
      match Tk.kind it with
      | Tk.KLine =>
          {| cls := Line; x1 := shifted q0; y1 := shifted q1; x2 := shifted q2;
             y2 := shifted q3; color := Tk.fill it; style := None; shape_id := h;
             groups := [] |}
      | _ =>
          {| cls := Rectangle; x1 := shifted q0; y1 := shifted q1; x2 := shifted q2;
             y2 := shifted q3; color := Tk.outline it; style := Some (copy_style it);
             shape_id := h; groups := [] |}
      end
  | _ => no_shape
  end.

Definition copy_item (it : Tk.Item) : Tk.Item :=
  match Tk.kind it, Tk.coords it with
  | Tk.KLine, _ =>
      {| Tk.kind := Tk.KLine;
         Tk.coords := map (fun q => Py.to_float (shifted q)) (Tk.coords it);
         Tk.fill := Tk.fill it; Tk.outline := ""; Tk.width := 1; Tk.tags := "";
         Tk.smooth := false |}
  | _, [q0; q1; q2; q3] =>
      if Py.contains "r" (Tk.tags it) then
        {| Tk.kind := Tk.KPolygon;
           Tk.coords :=
             map Py.to_float (rounded_points (shifted q0) (shifted q1) (shifted q2) (shifted q3));
           Tk.fill := ""; Tk.outline := Tk.outline it; Tk.width := 1; Tk.tags := "";
           Tk.smooth := true |}
      else
        {| Tk.kind := Tk.KRectangle;
           Tk.coords := map (fun q => Py.to_float (shifted q)) (Tk.coords it);
           Tk.fill := ""; Tk.outline := Tk.outline it; Tk.width := 1; Tk.tags := "";
           Tk.smooth := false |}
  | k, _ =>
      {| Tk.kind := k;
         Tk.coords := map (fun q => Py.to_float (shifted q)) (Tk.coords it);
         Tk.fill := ""; Tk.outline := Tk.outline it; Tk.width := 1; Tk.tags := "";
         Tk.smooth := false |}
  end.

(** Shape object [sh] is drawn as the item [it], which [copy_shape] can
    duplicate. *)
Definition copy_source (s : State) (sh : nat) (it : Tk.Item) : Prop :=
  (sh < next_shape s)%nat ∧
  ∃ id, shape_id (shape_heap s sh) = Some id ∧ Tk.items (tk s) !! id = Some it ∧ copyable it.

(** ** Text files of lines *)

(** A string without whitespace. *)
Fixpoint no_space (s : string) : bool :=
  match s with
  | EmptyString => true
  | String c s' => negb (Py.is_space c) && no_space s'
  end.

(** A string without line terminators. *)
Fixpoint one_line (s : string) : bool :=
  match s with
  | EmptyString => true
  | String c s' => negb (Ascii.eqb c Py.LF) && negb (Ascii.eqb c Py.CR) && one_line s'
  end.

(** The text [construct_shape_from_shape_object] makes for a shape whose
    item is a line. *)
Definition line_text (o : Shape) : string :=
  "line" +:+ " " +:+ Py.str (x1 o) +:+ " " +:+ Py.str (y1 o) +:+ " " +:+
  Py.str (x2 o) +:+ " " +:+ Py.str (y2 o) +:+ " " +:+ color o.

(** A shape of the document that Save writes as a line and Open reads
    back: its item is a line, its stored coordinates are integers, and its
    colour is one word. *)
Definition stored_line (s : State) (sh : nat) : Prop :=
  let o := shape_heap s sh in
  (∃ id, shape_id o = Some id ∧ Tk.type id (tk s) = Some "line") ∧
  (∃ a b c d, corners o = [Py.PyInt a; Py.PyInt b; Py.PyInt c; Py.PyInt d]) ∧
  color o ≠ "" ∧ no_space (color o) = true.

(** What [FileManager.save_file] writes for the texts [strs]. *)
Definition file_text (strs : list string) : string :=
  String.concat "" (map (fun sh => sh +:+ String Py.LF "") strs).

(** The loop body of [redraw_shapes]. *)
Definition redraw_body (shape_str : string) : M unit :=
  match Py.split " " shape_str with
  | [] => ret tt
  | shape_type :: args =>
      if bool_decide (shape_type = "line") then
        x1 <- int_arg args 0 ;;
        y1 <- int_arg args 1 ;;
        x2 <- int_arg args 2 ;;
        y2 <- int_arg args 3 ;;
        color <- lift (Py.index_back args 1) ;;
        sh <- Line_init x1 y1 x2 y2 color ;;
        update (with_current_shape (Some (CurShape sh))) ;;
        append_shape_object sh ;;
        Shape_update sh x1 y1 x2 y2
      else if bool_decide (shape_type = "rectangle") then
        x1 <- int_arg args 0 ;;
        x2 <- int_arg args 1 ;;
        y1 <- int_arg args 2 ;;
        y2 <- int_arg args 3 ;;
        color <- lift (Py.index_back args 2) ;;
        style <- lift (Py.index_back args 1) ;;
        sh <- Rectangle_init x1 y1 x2 y2 color style ;;
        update (with_current_shape (Some (CurShape sh))) ;;
        append_shape_object sh ;;
        Shape_update sh x1 y1 x2 y2
      else ret tt
  end.

(** The line object and the item that Open makes of integer coordinates
    and a colour. *)
Definition loaded_line (a b c d : Z) (col : string) (h : Z) : Shape :=
  {| cls := Line; x1 := Py.PyInt a; y1 := Py.PyInt b; x2 := Py.PyInt c; y2 := Py.PyInt d;
     color := col; style := None; shape_id := Some h; groups := [] |}.

(** A shape object with integer coordinates and a one-word colour. *)
Definition plain_line (o : Shape) : Prop :=
  (∃ a b c d, corners o = [Py.PyInt a; Py.PyInt b; Py.PyInt c; Py.PyInt d]) ∧
  color o ≠ "" ∧ no_space (color o) = true.

(** The items that were on the canvas before id [n] was handed out are
    gone. *)
Definition cleared_below (n : Z) (s : State) : Prop :=
  n ≤ Tk.next_id (tk s) ∧ ∀ i, i < n → Tk.items (tk s) !! i = None.

(** [itemconfig(shape.shape_id, width=w)] for shape [sh] on the display
    list. *)
Definition item_width (w : Q) (H : nat -> Shape) (c : Tk.Canvas) (sh : nat) : Tk.Canvas :=
  match shape_id (H sh) with
  | Some id => Tk.itemconfig_width id w c
  | None => c
  end.

(** The state a click leaves when there is no move to drop. *)
Definition clicked (event : Event) (s : State) : State :=
  let s0 := with_start_y (Some (Py.PyInt (ev_y event)))
              (with_start_x (Some (Py.PyInt (ev_x event))) s) in
  match selected_shapes s with
  | [] => s0
  | _ =>
      with_properties_text_ids []
        (with_tk (fold_left (fun c t => Tk.delete t c) (properties_text_ids s)
                    (fold_left (item_width 1 (shape_heap s)) (selected_shapes s) (tk s)))
           (with_selected_shapes [] s0))
  end.

(** Since the state [s0], no group has changed and no shape object that
    existed has changed its stack of groups; the shape objects made since
    are in no group. *)
Definition groups_as_in (s0 s : State) : Prop :=
  group_heap s = group_heap s0 ∧
  (next_shape s0 ≤ next_shape s)%nat ∧
  (∀ r, (r < next_shape s0)%nat → groups (shape_heap s r) = groups (shape_heap s0 r)) ∧
  (∀ r, (next_shape s0 ≤ r < next_shape s)%nat → groups (shape_heap s r) = []).

(** The release of the pointer that forms or dissolves a group. *)
Definition regroups (c : Command) (s : State) : bool :=
  match c with
  | Release _ _ _ => bool_decide (mode s = "group") || bool_decide (mode s = "ungroup")
  | _ => false
  end.

(** ** The text format, field by field

    The line of a shape in the text file, word by word: the type Tk
    reports for the shape's item ([None] when the item is gone), then the
    x1, y1, x2, y2 and the colour stored in the shape object and, when the
    item is a rectangle, the stored style. *)
Definition type_word (c : Tk.Canvas) (id : Z) : string :=
  match Tk.type id c with
  | Some t => t
  | None => "None"
  end.

Definition stored_fields (ty : string) (o : Shape) : list string :=
  [ty; Py.str (x1 o); Py.str (y1 o); Py.str (x2 o); Py.str (y2 o); color o] ++
  (if bool_decide (ty = "rectangle") then
     match style o with
     | Some st => [st]
     | None => []
     end
   else []).

(** The words, separated by single spaces. *)
Definition written_line (s : State) (sh : nat) : string :=
  let o := shape_heap s sh in
  match shape_id o with
  | Some id => String.concat " " (stored_fields (type_word (tk s) id) o)
  | None => ""
  end.

(** A shape the text format has a line for: it has a handle, it has a
    style if its item is a rectangle, and its stored coordinates are
    numbers [str] prints as Python does. *)
Definition savable (s : State) (sh : nat) : Prop :=
  let o := shape_heap s sh in
  forallb printable [x1 o; y1 o; x2 o; y2 o] = true ∧
  ∃ id, shape_id o = Some id ∧ (Tk.type id (tk s) = Some "rectangle" → is_Some (style o)).

(** The file [save_file] writes: the registered file if there is one,
    else the one the dialog returns. *)
Definition target_file (s : State) (asksaveasfilename : string) : string :=
  match current_file s with
  | Some f => if Py.truthy (current_file s) then f else asksaveasfilename
  | None => asksaveasfilename
  end.

(** ** The groups of a session

    How the selection, the stacks of the shape objects and the member
    lists of the groups hang together in every state the editor reaches.
    [stack x] is [x.groups], [members g] is [g.shapes]; [ns] and [ng] are
    the next free references. *)
Record nested (sel : list nat) (stack members : nat -> list nat) (ns ng : nat) : Prop := {
  (** no shape is selected twice *)
  nested_sel : NoDup sel;
  (** references not handed out yet are in no group, and have no members *)
  nested_fresh_shape : ∀ x, (ns ≤ x)%nat → stack x = [];
  nested_fresh_group : ∀ g, (ng ≤ g)%nat → members g = [];
  (** a group is on a shape's stack exactly when the shape is one of its
      members *)
  nested_member : ∀ x g, g ∈ stack x ↔ x ∈ members g;
  (** a stack holds its groups in the order they were formed *)
  nested_sorted : ∀ x, StronglySorted Nat.lt (stack x);
  nested_distinct : ∀ g, NoDup (members g);
  (** members of one group are together in every later group that holds
      one of them *)
  nested_later : ∀ x y g g',
    x ∈ members g → y ∈ members g → (g < g')%nat → x ∈ members g' → y ∈ members g';
  (** no group has a single member *)
  nested_pair : ∀ g x, x ∈ members g → ∃ y, y ≠ x ∧ y ∈ members g;
  (** with a shape, all members of its groups are selected *)
  nested_closed : ∀ x y g, x ∈ sel → x ∈ members g → y ∈ members g → y ∈ sel
}.

Definition group_sound (s : State) : Prop :=
  nested (selected_shapes s) (fun x => groups (shape_heap s x))
         (fun g => Group.shapes (group_heap s g)) (next_shape s) (next_group s).

(** ** Sessions through the event loop

    Runs of [mainloop] in which every hit test reports the items [hit],
    every item has the same bounding box, a list used as a tagOrId names
    its elements, and ElementTree accepts what it is given. *)
Module Session.

Definition run (hit : list Z) (cs : list Command) (s : State) : State :=
  mainloop (fun _ _ _ _ _ => hit) (fun _ _ => Some (0, 0, 10, 10)) (fun _ ids => Py.Ok ids)
    unit (fun _ => Py.Ok tt) (fun _ => "") cs s.

(** A blue sharp rectangle from (0,0) to (40,40), then swept over in edit
    mode. *)
Definition square_to_edit : State :=
  run [1] [DrawRectangle Blue; Press (Scenario.at_ 0 0); Motion (Scenario.at_ 40 40);
           Release (Scenario.at_ 40 40) None None;
           Actions Edit; Press (Scenario.at_ 0 0); Motion (Scenario.at_ 60 60)] Scenario.fresh.

(** A black line from (10,10) to (50,50), then swept over in copy mode. *)
Definition line_to_copy : State :=
  run [1] [DrawLine Black; Press (Scenario.at_ 10 10); Motion (Scenario.at_ 50 50);
           Release (Scenario.at_ 50 50) None None;
           Actions Copy; Press (Scenario.at_ 0 0); Motion (Scenario.at_ 60 60)] Scenario.fresh.

(** The line of [line.txt] opened in a new session, and a red line drawn
    after it. *)
Definition drawn_after_open : State :=
  run [] [DrawLine Red; Press (Scenario.at_ 0 0); Motion (Scenario.at_ 5 5)]
    Scenario.reopened_line.

(** A black horizontal line of length 10 drawn at height [y]. *)
Definition draw_line_at (y : Z) : list Command :=
  [DrawLine Black; Press (Scenario.at_ 0 y); Motion (Scenario.at_ 10 y);
   Release (Scenario.at_ 10 y) None None].

(** A sweep over the canvas in the mode the menu entry [a] sets: press,
    drag, and (for [swept]) release. *)
Definition sweeping (a : Action) : list Command :=
  [Actions a; Press (Scenario.at_ 0 0); Motion (Scenario.at_ 10 50)].

Definition swept (a : Action) : list Command :=
  sweeping a ++ [Release (Scenario.at_ 10 50) None None].

(** Three lines, of which the sweep of a move meets the first two: they
    are picked up, and the next click drops them. *)
Definition two_picked_up : State :=
  run [1; 2] (draw_line_at 0 ++ draw_line_at 20 ++ draw_line_at 40 ++ swept Move)
    Scenario.fresh.

(** Two lines are drawn and grouped; a third line is drawn; then a sweep
    in group mode meets all three, and the pointer is about to be
    released. *)
Definition regrouping : list Command :=
  draw_line_at 0 ++ draw_line_at 20 ++ swept GroupObjects ++
  draw_line_at 40 ++ sweeping GroupObjects.

End Session.

(** * Properties *)

Import Scenario.

(** ** Python values on examples *)

Example str_int : Py.str (Py.PyInt 40) = "40".
Proof. reflexivity. Qed.
Example str_float : Py.str (Py.PyFloat (121 # 2)) = "60.5".
Proof. reflexivity. Qed.
Example int_ok : Py.int " -12 " = Py.Ok (-12).
Proof. reflexivity. Qed.
Example int_bad : Py.int "60.0" = Py.Raise Py.ValueError.
Proof. reflexivity. Qed.
Example split_ex : Py.split " " "a  b" = ["a"; ""; "b"].
Proof. reflexivity. Qed.

(** ** The object heap and [list.remove] *)

Lemma upd_same {A} r (v : A) h : upd r v h r = v.
Proof. unfold upd. by rewrite Nat.eqb_refl. Qed.

Lemma upd_other {A} r k (v : A) h : k ≠ r → upd r v h k = h k.
Proof. intros Hne. unfold upd. destruct (Nat.eqb_spec k r); [done | reflexivity]. Qed.

Lemma remove_Permutation x : ∀ l m, Py.remove x l = Py.Ok m → l ≡ₚ x :: m.
Proof.
  induction l as [|y l IH]; intros m; simpl; [done|].
  destruct (Nat.eqb_spec y x) as [->|Hne].
  - by intros [= ->].
  - destruct (Py.remove x l) as [r|e]; [|done].
    intros [= <-]. rewrite (IH r eq_refl). apply Permutation_swap.
Qed.

Lemma remove_member x : ∀ l, x ∈ l → ∃ m, Py.remove x l = Py.Ok m.
Proof.
  induction l as [|y l IH]; intros Hin; simpl.
  - by apply elem_of_nil in Hin.
  - destruct (Nat.eqb_spec y x) as [->|Hne]; [by eexists|].
    apply elem_of_cons in Hin as [->|Hin]; [done|].
    destruct (IH Hin) as [m ->]. by eexists.
Qed.

Lemma remove_keeps x y : ∀ l m, Py.remove x l = Py.Ok m → y ≠ x → y ∈ l → y ∈ m.
Proof.
  intros l m Hr Hne Hin. apply remove_Permutation in Hr.
  rewrite Hr in Hin. apply elem_of_cons in Hin as [->|Hin]; done.
Qed.

Lemma remove_raises x : ∀ l e, Py.remove x l = Py.Raise e → e = Py.ValueError.
Proof.
  induction l as [|y l IH]; intros e; simpl.
  - by intros [= <-].
  - destruct (Nat.eqb y x); [done|].
    destruct (Py.remove x l); [done|]. intros [= <-]. by apply IH.
Qed.

Lemma last_None_nil {A} (l : list A) : last l = None ↔ l = [].
Proof.
  split; [|by intros ->].
  destruct l as [|a l] using rev_ind; [done|]. by rewrite last_snoc.
Qed.

Lemma popups_differ (l : list string) a b : a ≠ b → l ++ [a] ≠ l ++ [b].
Proof. intros Hne Heq. apply app_inv_head in Heq. by injection Heq. Qed.

Lemma popups_grow (l : list string) a : l ≠ l ++ [a].
Proof.
  intros Heq. apply (f_equal length) in Heq. rewrite length_app in Heq. simpl in Heq. lia.
Qed.

(** An item keeps its type under [move] and [itemconfig]. *)
Lemma type_on_item f id j c :
  (∀ it, Tk.kind (f it) = Tk.kind it) → Tk.type id (Tk.on_item f j c) = Tk.type id c.
Proof.
  intros Hk. unfold Tk.type, Tk.on_item. cbn [Tk.items].
  destruct (decide (j = id)) as [->|Hne].
  - rewrite lookup_alter_eq. destruct (Tk.items c !! id) as [it|]; cbn; [by rewrite Hk|done].
  - by rewrite lookup_alter_ne.
Qed.

(** ** Persistence *)

(** C1 (the code departs from it).  A blue sharp rectangle drawn from
    (0,0) to (40,40) is written as [rectangle 0 0 40 40 blue s]; opening
    that file in a new session gives a rectangle with corners (0,40) and
    (0,40): [redraw_shapes] reads the second token as x2 and the third as
    y1. *)
Theorem text_round_trip_swaps_rectangle_corners :
  files saved_square !! "square.txt" = Some ("rectangle 0 0 40 40 blue s" +:+ nl) ∧
  map (shape_heap blue_square) (shape_object blue_square) =
    [ {| cls := Rectangle; x1 := Py.PyInt 0; y1 := Py.PyInt 0; x2 := Py.PyInt 40;
         y2 := Py.PyInt 40; color := "blue"; style := Some "s"; shape_id := Some 1;
         groups := [] |} ] ∧
  map (shape_heap reopened_square) (shape_object reopened_square) =
    [ {| cls := Rectangle; x1 := Py.PyInt 0; y1 := Py.PyInt 40; x2 := Py.PyInt 0;
         y2 := Py.PyInt 40; color := "blue"; style := Some "s"; shape_id := Some 1;
         groups := [] |} ].
Proof. vm_compute. done. Qed.

(** The line branch of [redraw_shapes] reads the tokens in the order they
    were written: a drawn line comes back as it was. *)
Example line_round_trip :
  map (shape_heap reopened_line) (shape_object reopened_line) =
  map (shape_heap short_line) (shape_object short_line).
Proof. vm_compute. reflexivity. Qed.

(** A rounded rectangle is drawn as a polygon item, so its line starts
    with [polygon] and carries no style; [redraw_shapes] skips such a
    line and the reloaded document is empty. *)
Example rounded_rectangle_is_lost_on_reload :
  files saved_rounded !! "rounded.txt" = Some ("polygon 10 10 50 50 black" +:+ nl) ∧
  reopen_rounded.1 = Py.Ok tt ∧
  shape_object reopen_rounded.2 = [].
Proof. vm_compute. done. Qed.

(** A copy takes its coordinates from Tk, which are floats; they are
    written with a fraction, and [int] refuses them at load. *)
Example copied_line_fails_to_reload :
  files saved_copy !! "copy.txt" =
    Some ("line 10 10 50 50 black" +:+ nl +:+ "line 60.0 60.0 100.0 100.0 black" +:+ nl) ∧
  reopen_copy.1 = Py.Raise Py.ValueError ∧
  shape_object reopen_copy.2 = [0%nat].
Proof. vm_compute. done. Qed.

(** C3, as stated, fails.  A line dragged from (10,10) through (50,50) to
    (100,100) is rendered from (10,10) to (100,100), but its object kept
    the end point of the first drag event, and the file says
    [line 10 10 50 50 black].  Dragged through (70,70) instead, the same
    canvas and the same handle give [line 10 10 70 70 black]: the file is
    not a function of the render state. *)
Lemma save_writes_the_stored_coordinates :
  handles (long_line 50) = [Some 2] ∧
  Tk.get_coords 2 (tk (long_line 50)) =
    [Py.PyFloat 10; Py.PyFloat 10; Py.PyFloat 100; Py.PyFloat 100] ∧
  files (after (save_file "a.txt") (long_line 50)) !! "a.txt" =
    Some ("line 10 10 50 50 black" +:+ nl) ∧
  tk (long_line 70) = tk (long_line 50) ∧
  handles (long_line 70) = handles (long_line 50) ∧
  files (after (save_file "a.txt") (long_line 70)) !! "a.txt" =
    Some ("line 10 10 70 70 black" +:+ nl) ∧
  ¬ save_reads_render_state.
Proof.
  do 6 (split; [vm_compute; done|]).
  intros Hclaim.
  specialize (Hclaim (long_line 70) (long_line 50) "a.txt").
  assert (Hfiles : files (after (save_file "a.txt") (long_line 70)) =
                   files (after (save_file "a.txt") (long_line 50)))
    by (apply Hclaim; vm_compute; reflexivity).
  apply (f_equal (fun m : gmap string string => m !! "a.txt")) in Hfiles.
  vm_compute in Hfiles. discriminate Hfiles.
Qed.

Lemma construct_body_blind c' sh s :
  (∀ id, Tk.type id c' = Tk.type id (tk s)) →
  blind_to_canvas c' (construct_body sh) s.
Proof.
  intros Hty. unfold blind_to_canvas, construct_body, bind, shape, get, tk_type, need_item.
  cbn [shape_heap with_tk].
  destruct (shape_id (shape_heap s sh)) as [id|]; cbn; [|done].
  rewrite Hty. unfold shape_line.
  destruct (bool_decide (Tk.type id (tk s) = Some "rectangle")); cbn.
  - destruct (style (shape_heap s sh)); cbn; done.
  - done.
Qed.

Lemma construct_loop_blind c' l : ∀ s,
  (∀ id, Tk.type id c' = Tk.type id (tk s)) →
  blind_to_canvas c' (for_each l construct_body) s.
Proof.
  induction l as [|sh l IH]; intros s Hty.
  - split; reflexivity.
  - destruct (construct_body_blind c' sh s Hty) as [Hb Htk].
    unfold blind_to_canvas. cbn [for_each]. unfold bind. rewrite Hb.
    destruct (construct_body sh s) as [[[]|e] s1]; cbn [fst snd] in *.
    + destruct (IH s1) as [Hl Htk1]; [by rewrite Htk|].
      rewrite Hl. split; [reflexivity|]. by rewrite Htk1.
    + done.
Qed.

Lemma construct_blind c' s :
  (∀ id, Tk.type id c' = Tk.type id (tk s)) →
  blind_to_canvas c' construct_shape_from_shape_object s.
Proof.
  intros Hty. unfold construct_shape_from_shape_object. fold construct_body.
  unfold blind_to_canvas, bind at 1 2 3, update at 1 2 3.
  unfold bind at 1 2 3, get at 1 2 3. cbn [shape_object with_shapes with_tk].
  destruct (construct_loop_blind c' (shape_object s) (with_shapes [] s) Hty) as [Hl Htk].
  unfold bind, update, get. cbn [shape_object with_shapes].
  change (with_shapes [] (with_tk c' s)) with (with_tk c' (with_shapes [] s)).
  rewrite Hl. done.
Qed.

Lemma save_file_blind c' name s :
  (∀ id, Tk.type id c' = Tk.type id (tk s)) →
  blind_to_canvas c' (save_file name) s.
Proof.
  intros Hty. destruct (construct_blind c' s Hty) as [Hc Htk].
  unfold blind_to_canvas, save_file, FileManager.save_file, bind, get, update.
  cbn [current_file with_tk].
  destruct (Py.truthy _); [|done].
  rewrite Hc.
  destruct (construct_shape_from_shape_object s) as [[[]|e] s1]; cbn; done.
Qed.

(** C4 (the code departs from it).  A line is drawn, then a file holding
    one other line is opened.  The canvas and the [shapes] list are
    cleared and refilled, but [shape_object] still holds the old line
    object, whose handle names no item any more, in front of the loaded
    one; a save then writes it back as a line of type [None]. *)
Theorem open_keeps_the_old_shape_objects :
  shape_object line_before_open = [0%nat] ∧
  shapes opened_other = ["line 1 2 3 4 red"] ∧
  shape_object opened_other = [0; 1]%nat ∧
  shape_heap opened_other 0%nat = shape_heap line_before_open 0%nat ∧
  shape_id (shape_heap opened_other 0%nat) = Some 1 ∧
  Tk.type 1 (tk opened_other) = None ∧
  files saved_after_open !! "other.txt" =
    Some ("None 10 10 50 50 black" +:+ nl +:+ "line 1 2 3 4 red" +:+ nl).
Proof. vm_compute. done. Qed.

(** *** Opening a file never removes a shape object *)

Create HintDb keeps discriminated.

Lemma keeps_ret {A} (a : A) : keeps_document (ret a).
Proof. intros s. exists []. by rewrite app_nil_r. Qed.

Lemma keeps_raise {A} e : keeps_document (@raise A e).
Proof. intros s. exists []. by rewrite app_nil_r. Qed.

Lemma keeps_lift {A} (r : Py.Result A) : keeps_document (lift r).
Proof. intros s. exists []. by rewrite app_nil_r. Qed.

Lemma keeps_get {A} (f : State -> A) : keeps_document (get f).
Proof. intros s. exists []. by rewrite app_nil_r. Qed.

Lemma keeps_update f :
  (∀ s, shape_object (f s) = shape_object s) → keeps_document (update f).
Proof. intros Hf s. exists []. cbn. by rewrite Hf, app_nil_r. Qed.

Lemma keeps_bind {A B} (m : M A) (k : A -> M B) :
  keeps_document m → (∀ a, keeps_document (k a)) → keeps_document (bind m k).
Proof.
  intros Hm Hk s. unfold bind. destruct (Hm s) as [new1 H1].
  destruct (m s) as [[a|e] s1]; cbn [snd] in *.
  - destruct (Hk a s1) as [new2 H2]. exists (new1 ++ new2). by rewrite H2, H1, app_assoc.
  - by exists new1.
Qed.

Lemma keeps_for_each {A} (l : list A) (body : A -> M unit) :
  (∀ x, keeps_document (body x)) → keeps_document (for_each l body).
Proof.
  intros Hbody. induction l as [|x l IH]; cbn [for_each].
  - apply keeps_ret.
  - apply keeps_bind; [apply Hbody|]. intros _. exact IH.
Qed.

Lemma keeps_append sh : keeps_document (append_shape_object sh).
Proof. intros s. by exists [sh]. Qed.

#[local] Hint Resolve keeps_ret keeps_raise keeps_lift keeps_get keeps_append : keeps.

(** One step through a computation, by its head. *)
Ltac keeps_step :=
  lazymatch goal with
  | |- keeps_document (bind _ _) => apply keeps_bind; [|intros ?]
  | |- keeps_document (for_each _ _) => apply keeps_for_each; intros ?
  | |- keeps_document (update _) => apply keeps_update; intros ?; reflexivity
  | |- keeps_document (if ?b then _ else _) => destruct b
  | |- keeps_document (match ?x with _ => _ end) => destruct x
  | |- keeps_document _ => solve [auto with keeps]
  end.

Ltac keeps := repeat keeps_step.

Lemma keeps_new_shape v : keeps_document (new_shape v).
Proof. intros s. exists []. cbn. by rewrite app_nil_r. Qed.

Lemma keeps_tk_create k cs f o sm : keeps_document (tk_create k cs f o sm).
Proof.
  intros s. exists []. unfold tk_create. destruct (Tk.create k cs f o sm (tk s)).
  cbn. by rewrite app_nil_r.
Qed.

#[local] Hint Resolve keeps_new_shape keeps_tk_create : keeps.

Lemma keeps_Shape_update sh a b c d : keeps_document (Shape_update sh a b c d).
Proof.
  unfold Shape_update, Line_update, Rectangle_update, draw_rounded_rectangle, create_line,
    create_rectangle, create_polygon, shape, set_shape, tk_delete.
  keeps.
Qed.

#[local] Hint Resolve keeps_Shape_update : keeps.

Lemma keeps_redraw_shapes : keeps_document redraw_shapes.
Proof.
  unfold redraw_shapes, int_arg, Line_init, Rectangle_init. keeps.
Qed.

(** Whatever file is opened, and however the load ends, every shape
    object of the old document is still in [shape_object] afterwards, in
    front of whatever the file brought in. *)
Theorem open_file_keeps_every_old_shape (askokcancel : bool) (askopenfilename : string) :
  keeps_document (open_file askokcancel askopenfilename).
Proof.
  pose proof keeps_redraw_shapes.
  unfold open_file, FileManager.open_file, tk_delete_all. keeps.
Qed.

(** ** Editing *)

(** C2 (the code departs from it).  A line is selected for an edit and the
    colour prompt is cancelled; a rectangle is selected and the style
    prompt is cancelled.  In both cases [delete_shape] runs all the same:
    the shape leaves the document and its item leaves the canvas. *)
Theorem cancelled_edit_deletes_the_shape :
  shape_object short_line = [0%nat] ∧
  Tk.type 1 (tk short_line) = Some "line" ∧
  shape_object line_edit_cancelled = [] ∧
  Tk.items (tk line_edit_cancelled) = ∅ ∧
  shape_object blue_square = [0%nat] ∧
  Tk.type 1 (tk blue_square) = Some "rectangle" ∧
  shape_object square_edit_cancelled = [] ∧
  Tk.items (tk square_edit_cancelled) = ∅.
Proof. vm_compute. done. Qed.

(** Deleting the annotation texts. *)
Lemma clear_texts_run ids : ∀ s,
  for_each ids (fun text_id => tk_delete (Some text_id)) s =
  (Py.Ok tt, with_tk (fold_left (fun c t => Tk.delete t c) ids (tk s)) s).
Proof.
  induction ids as [|t ids IH]; intros s.
  - destruct s; reflexivity.
  - cbn [for_each fold_left]. unfold bind, tk_delete at 1, update. rewrite IH. reflexivity.
Qed.

Lemma deleted_stays_deleted ids : ∀ c id,
  Tk.items c !! id = None →
  Tk.items (fold_left (fun c t => Tk.delete t c) ids c) !! id = None.
Proof.
  induction ids as [|t ids IH]; intros c id Hnone; cbn [fold_left]; [done|].
  apply IH. unfold Tk.delete. cbn [Tk.items]. by apply lookup_delete_None; right.
Qed.

(** Whatever the shape, when a prompt is cancelled or left empty the edit
    changes no property and then deletes the shape: it leaves the document
    and its item leaves the canvas. *)
Theorem cancelled_edit_always_deletes
    (s : State) (sh : nat) (id : Z) (new_color new_style : option string) :
  selected_shapes s = [sh] →
  shape_id (shape_heap s sh) = Some id →
  sh ∈ shape_object s →
  Py.truthy new_color = false ∨
    (Tk.type id (tk s) = Some "rectangle" ∧ Py.truthy new_style = false) →
  ∃ s' objs',
    edit_selected_shape new_color new_style s = (Py.Ok tt, s') ∧
    Py.remove sh (shape_object s) = Py.Ok objs' ∧
    shape_object s' = objs' ∧
    Tk.items (tk s') !! id = None ∧
    selected_shapes s' = [] ∧
    shape_heap s' = shape_heap s ∧
    popups s' = popups s.
Proof.
  intros Hsel Hid Hin Hcancel.
  destruct (remove_member sh (shape_object s) Hin) as [objs' Hrm].
  set (s1 := with_properties_text_ids []
               (with_tk (fold_left (fun c t => Tk.delete t c) (properties_text_ids s)
                           (Tk.delete id (tk s)))
                  (with_selected_shapes [] (with_shape_object objs' s)))).
  exists s1, objs'.
  split_and!; try reflexivity; try assumption.
  - unfold edit_selected_shape, bind at 1, get at 1. rewrite Hsel. cbn [length Nat.ltb Nat.leb].
    unfold bind at 1, lift at 1. cbn [Py.index lookup list_lookup].
    unfold bind at 1, shape at 1, get at 1. rewrite Hid.
    unfold bind at 1, tk_type at 1, bind at 1, need_item at 1, ret at 1, get at 1.
    unfold bind at 1.
    assert (Hnothing :
      (if bool_decide (Tk.type id (tk s) = Some "rectangle")
       then match new_style, new_color with
            | Some st, Some c =>
                if Py.truthy new_style && Py.truthy new_color
                then update_rectangle_style (Some id) st c else ret tt
            | _, _ => ret tt
            end
       else if bool_decide (Tk.type id (tk s) = Some "line")
            then match new_color with
                 | Some c => if Py.truthy new_color
                             then tk_itemconfig_fill (Some id) c else ret tt
                 | None => ret tt
                 end
            else ret tt) = ret tt).
    { case_bool_decide as Hrect.
      - destruct new_style as [st|], new_color as [c|]; try reflexivity.
        destruct Hcancel as [->|[_ ->]]; [by rewrite andb_false_r|reflexivity].
      - case_bool_decide as Hline; [|reflexivity].
        destruct new_color as [c|]; [|reflexivity].
        destruct Hcancel as [->|[Hr _]]; [reflexivity|done]. }
    rewrite Hnothing. unfold ret at 1.
    unfold bind at 1, delete_shape, bind at 1, get at 1. rewrite Hsel.
    cbn [for_each]. unfold bind at 1 2 3 4, shape at 1, get at 1. rewrite Hid.
    unfold tk_delete at 1, update at 1.
    unfold remove_shape_object, bind at 1, get at 1. cbn [shape_object with_tk].
    unfold bind at 1, lift at 1. rewrite Hrm. unfold update at 1, ret at 1, update at 1.
    unfold clear_properties_text, bind at 1, get at 1.
    unfold bind at 1. rewrite clear_texts_run. unfold update. reflexivity.
  - subst s1. cbn [tk with_properties_text_ids with_tk].
    apply deleted_stays_deleted. unfold Tk.delete. cbn [Tk.items]. apply lookup_delete_eq.
Qed.

Lemma cancelled_edit_always_deletes_witness :
  ∃ s', edit_selected_shape None None line_to_edit = (Py.Ok tt, s') ∧
        shape_object s' = [] ∧ Tk.items (tk s') !! 1 = None.
Proof.
  destruct (cancelled_edit_always_deletes line_to_edit 0%nat 1 None None)
    as (s' & objs' & Hrun & Hrm & Hdoc & Hitem & _).
  - vm_compute. reflexivity.
  - vm_compute. reflexivity.
  - vm_compute. left.
  - left. reflexivity.
  - exists s'. split_and!; [assumption| |assumption].
    rewrite Hdoc. vm_compute in Hrm. by injection Hrm as <-.
Defined.

(** C9.  With nothing selected [edit_selected_shape] raises [IndexError]
    at [self.selected_shapes[0]], before any prompt, message or change of
    state; released in edit mode the pointer handler raises with it and
    the mode stays [edit].  The only guard is the one for more than one
    selected shape, which shows a message and changes nothing else. *)
Theorem edit_with_nothing_selected_raises (s : State) (new_color new_style : option string) :
  (selected_shapes s = [] →
     edit_selected_shape new_color new_style s = (Py.Raise Py.IndexError, s)) ∧
  (selected_shapes s = [] → mode s = "edit" →
     ∀ highlight event,
       on_release highlight event new_color new_style s = (Py.Raise Py.IndexError, s)) ∧
  ((1 < length (selected_shapes s))%nat →
     edit_selected_shape new_color new_style s =
     (Py.Ok tt, with_popups (popups s ++ ["Multiple objects cannot be edited at once"]) s)).
Proof.
  assert (Hedit : selected_shapes s = [] →
            edit_selected_shape new_color new_style s = (Py.Raise Py.IndexError, s)).
  { intros Hsel. unfold edit_selected_shape, bind, get. rewrite Hsel. reflexivity. }
  split_and!.
  - exact Hedit.
  - intros Hsel Hmode highlight event. unfold on_release, bind at 1, get at 1.
    rewrite Hmode. repeat (case_bool_decide; [done|]).
    case_bool_decide; [|done]. unfold bind. by rewrite (Hedit Hsel).
  - intros Hlen. unfold edit_selected_shape, bind, get.
    destruct (Nat.ltb_spec 1 (length (selected_shapes s))) as [_|Hle]; [reflexivity|lia].
Qed.

Lemma edit_with_nothing_selected_raises_witness :
  selected_shapes (with_mode "edit" short_line) = [] ∧
  mode (with_mode "edit" short_line) = "edit" ∧
  edit_selected_shape None None (with_mode "edit" short_line) =
    (Py.Raise Py.IndexError, with_mode "edit" short_line) ∧
  on_release (picks []) (at_ 5 5) None None (with_mode "edit" short_line) =
    (Py.Raise Py.IndexError, with_mode "edit" short_line).
Proof.
  pose proof (edit_with_nothing_selected_raises (with_mode "edit" short_line) None None)
    as (Hedit & Hrelease & _).
  split_and!.
  - vm_compute. reflexivity.
  - vm_compute. reflexivity.
  - apply Hedit. vm_compute. reflexivity.
  - apply Hrelease; vm_compute; reflexivity.
Defined.

(** C7 (the code departs from it).  A rounded rectangle is a polygon item
    to Tk, and [copy_shape] duplicates items of type [rectangle] and
    [line] only: copying the selected rounded rectangle adds nothing to
    the document or to the canvas.  A line from (10,10) to (50,50) is
    copied to (60,60)-(100,100), and a blue sharp rectangle from (0,0) to
    (40,40) to a blue sharp rectangle at (50,50)-(90,90). *)
Theorem copy_skips_a_rounded_rectangle :
  selected_shapes copied_rounded = [0%nat] ∧
  style (shape_heap rounded 0%nat) = Some "r" ∧
  Tk.type 1 (tk rounded) = Some "polygon" ∧
  shape_object copied_rounded = shape_object rounded ∧
  tk copied_rounded = tk rounded ∧
  mode copied_rounded = "" ∧
  map (fun sh => corners (shape_heap copied_line sh)) (shape_object copied_line) =
    [ [Py.PyInt 10; Py.PyInt 10; Py.PyInt 50; Py.PyInt 50];
      [Py.PyFloat 60; Py.PyFloat 60; Py.PyFloat 100; Py.PyFloat 100] ] ∧
  map (fun sh => (corners (shape_heap copied_square sh), color (shape_heap copied_square sh),
                  style (shape_heap copied_square sh))) (shape_object copied_square) =
    [ ([Py.PyInt 0; Py.PyInt 0; Py.PyInt 40; Py.PyInt 40], "blue", Some "s");
      ([Py.PyFloat 50; Py.PyFloat 50; Py.PyFloat 90; Py.PyFloat 90], "blue", Some "s") ].
Proof. vm_compute. done. Qed.

(** A new item has the type it was created with. *)
Lemma type_create k cs f o sm c :
  Tk.type (Tk.create k cs f o sm c).1 (Tk.create k cs f o sm c).2 = Some (Tk.type_name k).
Proof. unfold Tk.type, Tk.create. cbn [fst snd Tk.items]. by rewrite lookup_insert_eq. Qed.

(** A rounded rectangle, once drawn, is a polygon item. *)
Lemma rounded_rectangle_is_a_polygon (sh : nat) (a b c d : Py.num) (s : State) :
  cls (shape_heap s sh) = Rectangle → style (shape_heap s sh) = Some "r" →
  ∃ id, shape_id (shape_heap (Shape_update sh a b c d s).2 sh) = Some id ∧
        Tk.type id (tk (Shape_update sh a b c d s).2) = Some "polygon".
Proof.
  intros Hcls Hst.
  cbv [Shape_update bind shape get]. rewrite Hcls.
  cbv [Rectangle_update bind shape get]. rewrite Hst.
  set (drawn := fun s0 : State =>
         (id <- draw_rounded_rectangle a b c d 20 (color (shape_heap s sh)) "" ;;
          o <- shape sh ;; set_shape sh (set_shape_id (Some id) o)) s0).
  assert (Hdrawn : ∀ s0, ∃ id, shape_id (shape_heap (drawn s0).2 sh) = Some id ∧
                               Tk.type id (tk (drawn s0).2) = Some "polygon").
  { intros s0. subst drawn.
    cbv [bind draw_rounded_rectangle create_polygon tk_create shape get set_shape update].
    match goal with |- context [Tk.create ?k ?cs ?f ?o ?sm ?c0] =>
      pose proof (type_create k cs f o sm c0) as Hty;
      destruct (Tk.create k cs f o sm c0) as [id c'] end.
    cbn [fst snd shape_heap tk with_shape_heap with_tk] in *.
    exists id. by rewrite upd_same. }
  destruct (id_truthy (shape_id (shape_heap s sh))).
  - destruct (shape_id (shape_heap s sh)) as [old|]; apply Hdrawn.
  - apply Hdrawn.
Qed.

(** [copy_shape] passes over every selected shape whose item is a polygon,
    that is, over every rounded rectangle: a selection of them is left
    without a single copy, and nothing at all changes. *)
Theorem copy_shape_ignores_polygons (s : State) :
  (∀ sh, sh ∈ selected_shapes s →
     ∃ id, shape_id (shape_heap s sh) = Some id ∧ Tk.type id (tk s) = Some "polygon") →
  copy_shape s = (Py.Ok tt, s).
Proof.
  unfold copy_shape, bind at 1, get at 1.
  generalize (selected_shapes s) as l.
  induction l as [|sh l IH]; intros Hpoly; [reflexivity|].
  cbn [for_each]. unfold bind at 1.
  destruct (Hpoly sh) as (id & Hid & Hty); [by left|].
  cbv [bind shape get tk_coords tk_type need_item ret] in *.
  rewrite Hid, Hty. cbn. apply IH. intros sh' Hin. apply Hpoly. by right.
Qed.

Lemma copy_shape_ignores_polygons_witness :
  copy_shape (with_selected_shapes [0%nat] rounded) =
  (Py.Ok tt, with_selected_shapes [0%nat] rounded).
Proof.
  apply copy_shape_ignores_polygons.
  intros sh ->%list_elem_of_singleton. exists 1. split; vm_compute; reflexivity.
Defined.

(** C10 (the code departs from it).  [move_shape] takes the first four
    coordinates of the first selected item for its two corners.  For a
    rounded rectangle from (0,0) to (100,100) they are the polygon's first
    point (20,0) twice, so a drop at (200,200) moves the shape by
    (180,200), to (180,200)-(280,300), whose centre is (230,250).  The
    sharp rectangle with the same corners lands on (150,150)-(250,250),
    centred on the click. *)
Theorem move_drops_a_rounded_rectangle_off_centre :
  corners (shape_heap big_rounded 0%nat) =
    [Py.PyInt 0; Py.PyInt 0; Py.PyInt 100; Py.PyInt 100] ∧
  firstn 4 (Tk.get_coords 1 (tk big_rounded)) =
    [Py.PyFloat 20; Py.PyFloat 0; Py.PyFloat 20; Py.PyFloat 0] ∧
  corners (shape_heap moved_rounded 0%nat) =
    [Py.PyFloat 180; Py.PyFloat 200; Py.PyFloat 280; Py.PyFloat 300] ∧
  corners (shape_heap moved_sharp 0%nat) =
    [Py.PyFloat 150; Py.PyFloat 150; Py.PyFloat 250; Py.PyFloat 250].
Proof. vm_compute. done. Qed.

Lemma move_one_run dx dy sh s d' :
  move_round dx dy sh (document s) = Some d' →
  move_one sh dx dy s = (Py.Ok tt, with_document d' s).
Proof.
  unfold move_round, document.
  destruct (Py.remove sh (shape_object s)) as [objs'|] eqn:Er; [|done].
  destruct (shape_id (shape_heap s sh)) as [id|] eqn:Eid; [|done].
  intros [= <-].
  cbv [move_one remove_shape_object bind get lift update shape tk_move need_item set_shape
       append_shape_object ret].
  rewrite Er. cbn [shape_heap with_shape_object]. rewrite Eid. reflexivity.
Qed.

Lemma move_loop dx dy l : ∀ s d',
  move_rounds dx dy l (document s) = Some d' →
  for_each l (fun sh => move_one sh dx dy) s = (Py.Ok tt, with_document d' s).
Proof.
  induction l as [|sh l IH]; intros s d'; cbn [move_rounds for_each].
  - intros [= <-]. destruct s; reflexivity.
  - destruct (move_round dx dy sh (document s)) as [d1|] eqn:E; [|done].
    intros Hr. unfold bind. rewrite (move_one_run _ _ _ _ _ E).
    destruct d1 as [[objs1 H1] c1].
    rewrite (IH (with_document (objs1, H1, c1) s) d'); [|exact Hr].
    destruct d' as [[objs' H'] c']. reflexivity.
Qed.

Lemma move_rounds_document dx dy l : ∀ objs H c objs' H' c',
  move_rounds dx dy l (objs, H, c) = Some (objs', H', c') → objs' ≡ₚ objs.
Proof.
  induction l as [|sh l IH]; intros objs H c objs' H' c'; cbn [move_rounds move_round].
  - by intros [= <- <- <-].
  - destruct (Py.remove sh objs) as [m|] eqn:Er; [|done].
    destruct (shape_id (H sh)) as [id|]; [|done].
    intros Hr. rewrite (IH _ _ _ _ _ _ Hr).
    rewrite (remove_Permutation _ _ _ Er). by rewrite Permutation_app_comm.
Qed.

Lemma move_rounds_untouched dx dy l : ∀ objs H c objs' H' c' sh,
  move_rounds dx dy l (objs, H, c) = Some (objs', H', c') → sh ∉ l → H' sh = H sh.
Proof.
  induction l as [|x l IH]; intros objs H c objs' H' c' sh; cbn [move_rounds move_round].
  - by intros [= <- <- <-].
  - destruct (Py.remove x objs) as [m|]; [|done].
    destruct (shape_id (H x)) as [id|]; [|done].
    intros Hr [Hne Hni]%not_elem_of_cons.
    rewrite (IH _ _ _ _ _ _ _ Hr Hni). by apply upd_other.
Qed.

Lemma move_rounds_translated dx dy l : ∀ objs H c objs' H' c' sh,
  move_rounds dx dy l (objs, H, c) = Some (objs', H', c') → NoDup l → sh ∈ l →
  H' sh = translate dx dy (H sh).
Proof.
  induction l as [|x l IH]; intros objs H c objs' H' c' sh; cbn [move_rounds move_round].
  - intros _ _ Hin. by apply elem_of_nil in Hin.
  - destruct (Py.remove x objs) as [m|]; [|done].
    destruct (shape_id (H x)) as [id|]; [|done].
    intros Hr [Hx Hnd]%NoDup_cons Hin.
    apply elem_of_cons in Hin as [-> |Hin].
    + rewrite (move_rounds_untouched _ _ _ _ _ _ _ _ _ _ Hr Hx). by rewrite upd_same.
    + rewrite (IH _ _ _ _ _ _ _ Hr Hnd Hin). rewrite upd_other; [done|]. by intros ->.
Qed.

Lemma move_rounds_canvas dx dy l : ∀ objs H c objs' H' c' H0,
  move_rounds dx dy l (objs, H, c) = Some (objs', H', c') →
  (∀ sh, shape_id (H sh) = shape_id (H0 sh)) →
  c' = fold_left (item_moved dx dy H0) l c.
Proof.
  induction l as [|x l IH]; intros objs H c objs' H' c' H0; cbn [move_rounds move_round fold_left].
  - by intros [= <- <- <-].
  - destruct (Py.remove x objs) as [m|]; [|done].
    destruct (shape_id (H x)) as [id|] eqn:Eid; [|done].
    intros Hr Hids. rewrite (IH _ _ _ _ _ _ H0 Hr).
    + f_equal. unfold item_moved. by rewrite <- Hids, Eid.
    + intros sh. rewrite <- Hids. unfold upd. by destruct (Nat.eqb sh x) eqn:E;
        [apply Nat.eqb_eq in E as ->|].
Qed.

Lemma move_rounds_succeed dx dy l : ∀ objs H c,
  NoDup l → (∀ sh, sh ∈ l → sh ∈ objs ∧ is_Some (shape_id (H sh))) →
  is_Some (move_rounds dx dy l (objs, H, c)).
Proof.
  induction l as [|x l IH]; intros objs H c Hnd Hok; cbn [move_rounds move_round]; [by eexists|].
  apply NoDup_cons in Hnd as [Hx Hnd].
  destruct (Hok x) as [Hin [id Hid]]; [by left|].
  destruct (remove_member x objs Hin) as [m Hm]. rewrite Hm, Hid.
  apply IH; [done|]. intros sh Hsh.
  destruct (Hok sh) as [Hin' Hid']; [by right|].
  assert (sh ≠ x) by (by intros ->).
  split.
  - apply elem_of_app. left. by apply (remove_keeps x sh objs).
  - by rewrite upd_other.
Qed.

(** The midpoint of two coordinates, moved by [ev - midpoint], is [ev]. *)
Lemma midpoint_lands (ev : Z) (a b : Py.num) :
  let d := Py.sub (Py.PyInt ev) (Py.div2 (Py.add b a)) in
  ((Py.to_float (Py.add a d) + Py.to_float (Py.add b d)) / inject_Z 2 == inject_Z ev)%Q.
Proof.
  assert (Hm : ∀ x y e : Q, ((x + (e - (y + x) / (2#1)) + (y + (e - (y + x) / (2#1)))) / (2#1) == e)%Q)
    by (intros; field).
  destruct a, b; cbn [Py.sub Py.div2 Py.add Py.to_float]; rewrite !Qred_correct;
    rewrite ?inject_Z_plus; apply Hm.
Qed.

Lemma move_shape_run (event : Event) (s : State) first rest id0 c0 c1 c2 c3 more d' :
  selected_shapes s = first :: rest →
  shape_id (shape_heap s first) = Some id0 →
  Tk.get_coords id0 (tk s) = c0 :: c1 :: c2 :: c3 :: more →
  let dx := Py.sub (Py.PyInt (ev_x event)) (Py.div2 (Py.add c2 c0)) in
  let dy := Py.sub (Py.PyInt (ev_y event)) (Py.div2 (Py.add c3 c1)) in
  move_rounds dx dy (first :: rest) (document s) = Some d' →
  move_shape event s = (Py.Ok tt, with_document d' (with_moving true s)).
Proof.
  intros Hsel Hid Hcoords dx dy Hr.
  pose proof (move_loop dx dy (first :: rest) (with_moving true s) d' Hr) as Hloop.
  cbn [for_each] in Hloop.
  cbv [move_shape bind update get shape tk_coords need_item lift ret] .
  cbn [selected_shapes with_moving]. rewrite Hsel.
  cbn [shape_heap with_moving]. rewrite Hid.
  cbn [tk with_moving]. rewrite Hcoords. cbn [Py.index lookup list_lookup].
  exact Hloop.
Qed.

(** What holds of every drop: with the selected shapes distinct, in the
    document and drawn, at least two points on the first one's item, and
    the click, the stored corners and the item coordinates in the range
    of [pixel], where doubles do not round, [move_shape] moves every selected shape,
    its stored corners and its item alike, by the one vector that takes
    the midpoint of those two points to the click; the other shapes stay,
    and the document holds the same shapes as before, each as often as
    before. *)
Theorem move_shape_translates_selection
    (event : Event) (s : State) first rest id0 c0 c1 c2 c3 more :
  selected_shapes s = first :: rest →
  NoDup (first :: rest) →
  (∀ sh, sh ∈ first :: rest → sh ∈ shape_object s ∧ is_Some (shape_id (shape_heap s sh))) →
  shape_id (shape_heap s first) = Some id0 →
  Tk.get_coords id0 (tk s) = c0 :: c1 :: c2 :: c3 :: more →
  on_screen event = true →
  (∀ sh, sh ∈ first :: rest → in_pixels s sh = true) →
  let dx := Py.sub (Py.PyInt (ev_x event)) (Py.div2 (Py.add c2 c0)) in
  let dy := Py.sub (Py.PyInt (ev_y event)) (Py.div2 (Py.add c3 c1)) in
  ∃ s', move_shape event s = (Py.Ok tt, s') ∧
    (∀ sh, sh ∈ first :: rest → shape_heap s' sh = translate dx dy (shape_heap s sh)) ∧
    (∀ sh, sh ∉ first :: rest → shape_heap s' sh = shape_heap s sh) ∧
    tk s' = fold_left (item_moved dx dy (shape_heap s)) (first :: rest) (tk s) ∧
    shape_object s' ≡ₚ shape_object s ∧
    ((Py.to_float (Py.add c0 dx) + Py.to_float (Py.add c2 dx)) / inject_Z 2
       == inject_Z (ev_x event))%Q ∧
    ((Py.to_float (Py.add c1 dy) + Py.to_float (Py.add c3 dy)) / inject_Z 2
       == inject_Z (ev_y event))%Q.
Proof.
  intros Hsel Hnd Hok Hid Hcoords _ _ dx dy.
  destruct (move_rounds_succeed dx dy (first :: rest) (shape_object s) (shape_heap s) (tk s)
              Hnd Hok) as [[[objs' H'] c'] Hr].
  exists (with_document (objs', H', c') (with_moving true s)).
  split; [by apply (move_shape_run event s first rest id0 c0 c1 c2 c3 more)|].
  cbn [with_document shape_heap tk shape_object with_shape_object with_shape_heap with_tk].
  split_and!.
  - intros sh Hin. by apply (move_rounds_translated _ _ _ _ _ _ _ _ _ _ Hr).
  - intros sh Hni. by apply (move_rounds_untouched _ _ _ _ _ _ _ _ _ _ Hr).
  - by apply (move_rounds_canvas _ _ _ _ _ _ _ _ _ _ Hr).
  - by apply (move_rounds_document _ _ _ _ _ _ _ _ _ Hr).
  - apply midpoint_lands.
  - apply midpoint_lands.
Qed.

Lemma move_shape_translates_selection_witness :
  ∃ s', move_shape (at_ 100 100) Session.two_picked_up = (Py.Ok tt, s') ∧
        corners (shape_heap s' 0%nat) =
          [Py.PyFloat 95; Py.PyFloat 100; Py.PyFloat 105; Py.PyFloat 100] ∧
        corners (shape_heap s' 1%nat) =
          [Py.PyFloat 95; Py.PyFloat 120; Py.PyFloat 105; Py.PyFloat 120] ∧
        shape_heap s' 2%nat = shape_heap Session.two_picked_up 2%nat ∧
        shape_object s' ≡ₚ shape_object Session.two_picked_up.
Proof.
  assert (Hsel : ∀ sh, sh ∈ [0; 1]%nat → sh = 0%nat ∨ sh = 1%nat).
  { intros sh [-> |Hin]%elem_of_cons; [by left|].
    apply list_elem_of_singleton in Hin. by right. }
  destruct (move_shape_translates_selection (at_ 100 100) Session.two_picked_up 0%nat [1%nat] 1
              (Py.PyFloat 0) (Py.PyFloat 0) (Py.PyFloat 10) (Py.PyFloat 0) [])
    as (s' & Hrun & Hmoved & Hother & _ & Hdoc & _).
  - vm_compute. reflexivity.
  - apply NoDup_cons_2; [by intros ?%list_elem_of_singleton|apply NoDup_singleton].
  - intros sh [-> | ->]%Hsel.
    + split; [vm_compute; left|exists 1; vm_compute; reflexivity].
    + split; [vm_compute; right; left|exists 2; vm_compute; reflexivity].
  - vm_compute. reflexivity.
  - vm_compute. reflexivity.
  - vm_compute. reflexivity.
  - intros sh [-> | ->]%Hsel; vm_compute; reflexivity.
  - exists s'. split_and!; [assumption| | | |assumption].
    + rewrite (Hmoved 0%nat) by left. vm_compute. reflexivity.
    + rewrite (Hmoved 1%nat) by (right; left). vm_compute. reflexivity.
    + apply Hother. intros [H|H%list_elem_of_singleton]%elem_of_cons; discriminate H.
Defined.

(** ** Grouping *)

Lemma group_round g sh s :
  (add_shapes g sh ;; add_group sh g) s =
  (Py.Ok tt,
   with_shape_heap (upd sh (pushed g (shape_heap s sh)) (shape_heap s))
     (with_group_heap (upd g (joined (shape_heap s sh) sh (group_heap s g)) (group_heap s)) s)).
Proof.
  unfold add_shapes, add_group, bind, group, shape, get, set_group, set_shape, update, joined.
  simpl. destruct (last (groups (shape_heap s sh))) as [top|]; simpl.
  - destruct (bool_decide (top ∈ Group.sub_grps (group_heap s g))); reflexivity.
  - reflexivity.
Qed.

Lemma group_loop g l : ∀ s,
  for_each l (fun sh => add_shapes g sh ;; add_group sh g) s =
  (Py.Ok tt,
   with_shape_heap (group_rounds g l (shape_heap s) (group_heap s)).1
     (with_group_heap (group_rounds g l (shape_heap s) (group_heap s)).2 s)).
Proof.
  induction l as [|sh l IH]; intros s.
  - destruct s; reflexivity.
  - cbn [for_each]. unfold bind at 1. rewrite group_round. rewrite IH. reflexivity.
Qed.

Lemma group_rounds_other g l : ∀ H G g', g' ≠ g → (group_rounds g l H G).2 g' = G g'.
Proof.
  induction l as [|sh l IH]; intros H G g' Hne; simpl; [done|].
  rewrite IH by done. by apply upd_other.
Qed.

Lemma joined_shapes o sh grp : Group.shapes (joined o sh grp) = Group.shapes grp ++ [sh].
Proof. unfold joined. by destruct (last (groups o)). Qed.

Lemma group_rounds_members g l : ∀ H G,
  Group.shapes ((group_rounds g l H G).2 g) = Group.shapes (G g) ++ l.
Proof.
  induction l as [|sh l IH]; intros H G; simpl.
  - by rewrite app_nil_r.
  - rewrite IH, upd_same, joined_shapes. by rewrite <- app_assoc.
Qed.

Lemma group_rounds_untouched g l : ∀ H G sh, sh ∉ l → (group_rounds g l H G).1 sh = H sh.
Proof.
  induction l as [|x l IH]; intros H G sh Hni; simpl; [done|].
  apply not_elem_of_cons in Hni as [Hne Hni].
  rewrite IH by done. by apply upd_other.
Qed.

Lemma group_rounds_top g l : ∀ H G sh,
  sh ∈ l → last (groups ((group_rounds g l H G).1 sh)) = Some g.
Proof.
  induction l as [|x l IH]; intros H G sh Hin; simpl.
  - by apply elem_of_nil in Hin.
  - destruct (decide (sh ∈ l)) as [Hl|Hl].
    + by apply IH.
    + apply elem_of_cons in Hin as [-> |Hin]; [|done].
      rewrite group_rounds_untouched by done.
      rewrite upd_same. unfold pushed. simpl. apply last_snoc.
Qed.

Lemma joined_indv o sh grp :
  Group.indv_shapes (joined o sh grp) =
  Group.indv_shapes grp ++ (if decide (groups o = []) then [sh] else []).
Proof.
  unfold joined. destruct (last (groups o)) as [top|] eqn:E; simpl.
  - destruct (decide (groups o = [])) as [Hn|Hn]; [by rewrite Hn in E | by rewrite app_nil_r].
  - apply last_None_nil in E. by rewrite decide_True.
Qed.

Lemma group_rounds_indv g l : ∀ H G H0,
  NoDup l → (∀ sh, sh ∈ l → H sh = H0 sh) →
  Group.indv_shapes ((group_rounds g l H G).2 g) =
  Group.indv_shapes (G g) ++ filter (fun sh => groups (H0 sh) = []) l.
Proof.
  induction l as [|x l IH]; intros H G H0 Hnd Hag; simpl.
  - by rewrite app_nil_r.
  - apply NoDup_cons in Hnd as [Hx Hnd].
    rewrite (IH _ _ H0); [|done|].
    + rewrite upd_same, joined_indv, <- app_assoc. f_equal.
      rewrite filter_cons, (Hag x) by (by left).
      by destruct (decide (groups (H0 x) = [])).
    + intros sh Hin. rewrite upd_other; [apply Hag; by right|]. by intros ->.
Qed.

Lemma joined_sub o sh grp t :
  t ∈ Group.sub_grps (joined o sh grp) ↔ t ∈ Group.sub_grps grp ∨ last (groups o) = Some t.
Proof.
  unfold joined. destruct (last (groups o)) as [top|]; simpl.
  - case_bool_decide as Hin.
    + split; [by left|]. intros [?|E]; [done|]. by injection E as <-.
    + rewrite elem_of_app, list_elem_of_singleton. split.
      * intros [?| ->]; [by left | by right].
      * intros [?|E]; [by left|]. injection E as ->. by right.
  - split; [by left|]. by intros [?|?].
Qed.

Lemma joined_sub_NoDup o sh grp :
  NoDup (Group.sub_grps grp) → NoDup (Group.sub_grps (joined o sh grp)).
Proof.
  intros Hnd. unfold joined. destruct (last (groups o)) as [top|]; simpl; [|done].
  case_bool_decide as Hin; [done|].
  apply NoDup_app. split_and!; [done| |apply NoDup_singleton].
  intros x Hx ->%list_elem_of_singleton. done.
Qed.

Lemma group_rounds_sub g l : ∀ H G H0 t,
  NoDup l → (∀ sh, sh ∈ l → H sh = H0 sh) →
  t ∈ Group.sub_grps ((group_rounds g l H G).2 g) ↔
  t ∈ Group.sub_grps (G g) ∨ ∃ sh, sh ∈ l ∧ last (groups (H0 sh)) = Some t.
Proof.
  induction l as [|x l IH]; intros H G H0 t Hnd Hag; simpl.
  - split; [by left|]. intros [?|(sh & Hin & _)]; [done|]. by apply elem_of_nil in Hin.
  - apply NoDup_cons in Hnd as [Hx Hnd].
    rewrite (IH _ _ H0); [|done|].
    + rewrite upd_same, joined_sub, (Hag x) by (by left). split.
      * intros [[?|?]|(sh & Hin & Hl)]; [by left| |].
        -- right. exists x. split; [by left|done].
        -- right. exists sh. split; [by right|done].
      * intros [?|(sh & Hin & Hl)]; [by left; left|].
        apply elem_of_cons in Hin as [-> |Hin]; [by left; right|].
        right. by exists sh.
    + intros sh Hin. rewrite upd_other; [apply Hag; by right|]. by intros ->.
Qed.

Lemma group_rounds_sub_NoDup g l : ∀ H G,
  NoDup (Group.sub_grps (G g)) → NoDup (Group.sub_grps ((group_rounds g l H G).2 g)).
Proof.
  induction l as [|x l IH]; intros H G Hnd; simpl; [done|].
  apply IH. rewrite upd_same. by apply joined_sub_NoDup.
Qed.

Lemma group_shapes_run s :
  (2 ≤ length (selected_shapes s))%nat → group_shapes s = (Py.Ok tt, grouped s).
Proof.
  intros Hlen. unfold group_shapes, bind at 1, get at 1.
  destruct (Nat.ltb_spec 1 (length (selected_shapes s))) as [_|Hlt]; [|lia].
  unfold bind at 1, new_group. unfold bind at 1. rewrite group_loop. reflexivity.
Qed.

(** C6.  With fewer than two shapes selected [group_shapes] returns
    without touching the state: no group, no message, every stack as it
    was.  With two or more it allocates exactly one group, whose members
    are the selected shapes in order, pushes it on the stack of each of
    them, registers it in [canvas_group] and reports "Group Formed"; no
    other group and no other shape changes. *)
Theorem group_shapes_needs_two_shapes (s : State) :
  ((length (selected_shapes s) < 2)%nat → group_shapes s = (Py.Ok tt, s)) ∧
  ((2 ≤ length (selected_shapes s))%nat →
     ∃ s', group_shapes s = (Py.Ok tt, s') ∧
       next_group s' = S (next_group s) ∧
       canvas_group s' = canvas_group s ++ [next_group s] ∧
       Group.shapes (group_heap s' (next_group s)) = selected_shapes s ∧
       (∀ g', g' ≠ next_group s → group_heap s' g' = group_heap s g') ∧
       (∀ sh, sh ∈ selected_shapes s →
              last (groups (shape_heap s' sh)) = Some (next_group s)) ∧
       (∀ sh, sh ∉ selected_shapes s → shape_heap s' sh = shape_heap s sh) ∧
       popups s' = popups s ++ ["Group Formed"]).
Proof.
  split.
  - intros Hlen. unfold group_shapes, bind, get.
    destruct (Nat.ltb_spec 1 (length (selected_shapes s))) as [Hlt|_]; [lia|reflexivity].
  - intros Hlen. exists (grouped s). split; [by apply group_shapes_run|].
    unfold grouped. cbn -[group_rounds]. split_and!; try reflexivity.
    + by rewrite group_rounds_members, upd_same.
    + intros g' Hne. rewrite group_rounds_other by done. by apply upd_other.
    + intros sh Hin. by apply group_rounds_top.
    + intros sh Hni. by apply group_rounds_untouched.
Qed.

Lemma group_shapes_needs_two_shapes_witness :
  (length (selected_shapes one_selected) < 2)%nat ∧
  group_shapes one_selected = (Py.Ok tt, one_selected) ∧
  (2 ≤ length (selected_shapes two_selected))%nat ∧
  ∃ s', group_shapes two_selected = (Py.Ok tt, s') ∧
        next_group s' = S (next_group two_selected) ∧
        Group.shapes (group_heap s' (next_group two_selected)) = selected_shapes two_selected.
Proof.
  assert (H1 : (length (selected_shapes one_selected) < 2)%nat) by (vm_compute; lia).
  assert (H2 : (2 ≤ length (selected_shapes two_selected))%nat) by (vm_compute; lia).
  split_and!; [exact H1| |exact H2|].
  - exact (proj1 (group_shapes_needs_two_shapes one_selected) H1).
  - destruct (proj2 (group_shapes_needs_two_shapes two_selected) H2)
      as (s' & Hrun & Hnext & _ & Hmem & _).
    exists s'. split_and!; assumption.
Defined.

Lemma ungroup_round g sh s :
  ungroup_body g sh s =
  let s1 := with_shape_heap (upd sh (popped (shape_heap s sh)) (shape_heap s)) s in
  match Py.remove sh (Group.shapes (group_heap s g)) with
  | Py.Ok m => (Py.Ok tt, with_group_heap (upd g (without m (group_heap s g)) (group_heap s)) s1)
  | Py.Raise _ => (Py.Raise Py.ValueError, s1)
  end.
Proof.
  unfold ungroup_body, remove_shapes, bind, shape, group, get, set_shape, set_group, update, lift.
  cbn [group_heap with_shape_heap].
  destruct (Py.remove sh (Group.shapes (group_heap s g))) as [m|e] eqn:E; [reflexivity|].
  by rewrite (remove_raises _ _ _ E).
Qed.

Lemma ungroup_loop g l : ∀ s,
  match ungroup_rounds g l (shape_heap s) (group_heap s) with
  | Some (H', G') =>
      for_each l (ungroup_body g) s = (Py.Ok tt, with_group_heap G' (with_shape_heap H' s))
  | None => ∃ s', for_each l (ungroup_body g) s = (Py.Raise Py.ValueError, s')
  end.
Proof.
  induction l as [|sh l IH]; intros s.
  - destruct s; reflexivity.
  - cbn [for_each ungroup_rounds]. unfold bind at 1 2. rewrite ungroup_round. cbv zeta.
    destruct (Py.remove sh (Group.shapes (group_heap s g))) as [m|e] eqn:E.
    + specialize (IH (with_group_heap (upd g (without m (group_heap s g)) (group_heap s))
                        (with_shape_heap (upd sh (popped (shape_heap s sh)) (shape_heap s)) s))).
      cbn [shape_heap group_heap with_group_heap with_shape_heap] in IH.
      destruct (ungroup_rounds g l _ _) as [[H' G']|]; exact IH.
    + eexists. reflexivity.
Qed.

Lemma ungroup_rounds_untouched g l : ∀ H G H' G' sh,
  ungroup_rounds g l H G = Some (H', G') → sh ∉ l → H' sh = H sh.
Proof.
  induction l as [|x l IH]; intros H G H' G' sh; simpl.
  - by intros [= <- <-].
  - destruct (Py.remove x (Group.shapes (G g))) as [m|]; [|done].
    intros Hr [Hne Hni]%not_elem_of_cons.
    rewrite (IH _ _ _ _ _ Hr Hni). by apply upd_other.
Qed.

Lemma ungroup_rounds_popped g l : ∀ H G H' G' sh,
  ungroup_rounds g l H G = Some (H', G') → NoDup l → sh ∈ l →
  groups (H' sh) = removelast (groups (H sh)).
Proof.
  induction l as [|x l IH]; intros H G H' G' sh; simpl.
  - intros _ _ Hin. by apply elem_of_nil in Hin.
  - destruct (Py.remove x (Group.shapes (G g))) as [m|]; [|done].
    intros Hr [Hx Hnd]%NoDup_cons Hin.
    apply elem_of_cons in Hin as [-> |Hin].
    + rewrite (ungroup_rounds_untouched _ _ _ _ _ _ _ Hr Hx). by rewrite upd_same.
    + rewrite (IH _ _ _ _ _ Hr Hnd Hin). rewrite upd_other; [done|]. by intros ->.
Qed.

Lemma ungroup_rounds_other g l : ∀ H G H' G' g',
  ungroup_rounds g l H G = Some (H', G') → g' ≠ g → G' g' = G g'.
Proof.
  induction l as [|x l IH]; intros H G H' G' g'; simpl.
  - by intros [= <- <-].
  - destruct (Py.remove x (Group.shapes (G g))) as [m|]; [|done].
    intros Hr Hne. rewrite (IH _ _ _ _ _ Hr Hne). by apply upd_other.
Qed.

Lemma ungroup_rounds_members g l : ∀ H G H' G',
  ungroup_rounds g l H G = Some (H', G') →
  Group.shapes (G g) ≡ₚ l ++ Group.shapes (G' g).
Proof.
  induction l as [|x l IH]; intros H G H' G'; simpl.
  - by intros [= <- <-].
  - destruct (Py.remove x (Group.shapes (G g))) as [m|] eqn:E; [|done].
    intros Hr. apply IH in Hr. rewrite upd_same in Hr. simpl in Hr.
    rewrite <- Hr. by apply remove_Permutation.
Qed.

Lemma ungroup_rounds_succeed g l : ∀ H G,
  NoDup l → (∀ sh, sh ∈ l → sh ∈ Group.shapes (G g)) →
  is_Some (ungroup_rounds g l H G).
Proof.
  induction l as [|x l IH]; intros H G Hnd Hmem; simpl; [by eexists|].
  apply NoDup_cons in Hnd as [Hx Hnd].
  destruct (remove_member x (Group.shapes (G g))) as [m Hm]; [apply Hmem; by left|].
  rewrite Hm. apply IH; [done|].
  intros sh Hin. rewrite upd_same. simpl.
  apply (remove_keeps x sh _ _ Hm); [by intros ->|]. apply Hmem. by right.
Qed.

Lemma ungroup_flag_zero h g l :
  ungroup_flag h g l = 0 ↔ ∀ sh, sh ∈ l → last (groups (h sh)) = Some g.
Proof.
  induction l as [|x l IH]; simpl.
  - split; [|done]. intros _ sh Hin. by apply elem_of_nil in Hin.
  - destruct (last (groups (h x))) as [top|] eqn:E.
    + case_bool_decide as Hne.
      * split; [done|]. intros Hall. specialize (Hall x (list_elem_of_here _ _)).
        rewrite E in Hall. by injection Hall as ->.
      * subst top. rewrite IH. split.
        -- intros Hall sh [-> |Hin]%elem_of_cons; [done|by apply Hall].
        -- intros Hall sh Hin. apply Hall. by right.
    + split; [done|]. intros Hall. specialize (Hall x (list_elem_of_here _ _)).
      by rewrite E in Hall.
Qed.

Lemma ungroup_shapes_unfold s :
  ungroup_shapes s =
  match selected_shapes s with
  | [] => (Py.Ok tt, s)
  | first :: _ =>
      match last (groups (shape_heap s first)) with
      | None => (Py.Ok tt, rejected s)
      | Some g =>
          if ungroup_flag (shape_heap s) g (selected_shapes s) =? 0 then
            match for_each (selected_shapes s) (ungroup_body g) s with
            | (Py.Ok _, s1) => (Py.Ok tt, with_popups (popups s1 ++ ["Objects Ungrouped"]) s1)
            | (Py.Raise e, s1) => (Py.Raise e, s1)
            end
          else (Py.Ok tt, rejected s)
      end
  end.
Proof.
  unfold ungroup_shapes, bind at 1, get at 1.
  destruct (selected_shapes s) as [|first rest]; [reflexivity|].
  unfold bind at 1, shape at 1, get at 1.
  destruct (last (groups (shape_heap s first))) as [g|]; [|reflexivity].
  unfold bind at 1, get at 1.
  destruct (ungroup_flag (shape_heap s) g (first :: rest) =? 0); [|reflexivity].
  unfold bind at 1. fold (ungroup_body g).
  destruct (for_each (first :: rest) (ungroup_body g) s) as [[[]|e] s1]; reflexivity.
Qed.

(** C5.  [ungroup_shapes] on a selection:
    - nothing selected: nothing happens;
    - no group is on top of every selected shape's stack (a stack is empty,
      or two tops differ): the only effect is the message that the
      elements do not belong to a common group, so no stack and no member
      list has changed;
    - it reports "Objects Ungrouped" only if some group [g] is on top of
      every selected shape's stack, and then every selected shape has lost
      the top of its stack, no other shape has changed, and the member
      list of [g] has lost one entry per selected shape, no other group
      having changed;
    - and it does so report whenever the selected shapes are distinct
      members of the group on top of all their stacks. *)
Theorem ungroup_shapes_all_or_nothing (s : State) :
  let sel := selected_shapes s in
  let top sh := last (groups (shape_heap s sh)) in
  (sel = [] → ungroup_shapes s = (Py.Ok tt, s)) ∧
  (sel ≠ [] → (¬ ∃ g, ∀ sh, sh ∈ sel → top sh = Some g) →
     ungroup_shapes s = (Py.Ok tt, with_popups (popups s ++ [no_common_group]) s)) ∧
  (∀ s', ungroup_shapes s = (Py.Ok tt, s') →
     popups s' = popups s ++ ["Objects Ungrouped"] →
     ∃ g, (∀ sh, sh ∈ sel → top sh = Some g) ∧
          (NoDup sel → ∀ sh, sh ∈ sel →
             groups (shape_heap s' sh) = removelast (groups (shape_heap s sh))) ∧
          (∀ sh, sh ∉ sel → shape_heap s' sh = shape_heap s sh) ∧
          Group.shapes (group_heap s g) ≡ₚ sel ++ Group.shapes (group_heap s' g) ∧
          (∀ g', g' ≠ g → group_heap s' g' = group_heap s g')) ∧
  (∀ g, sel ≠ [] → NoDup sel → (∀ sh, sh ∈ sel → top sh = Some g) →
     (∀ sh, sh ∈ sel → sh ∈ Group.shapes (group_heap s g)) →
     ∃ s', ungroup_shapes s = (Py.Ok tt, s') ∧
           popups s' = popups s ++ ["Objects Ungrouped"]).
Proof.
  intros sel top. subst sel top. rewrite ungroup_shapes_unfold.
  destruct (selected_shapes s) as [|first rest] eqn:Esel.
  { split_and!; [done|done| |done].
    intros s' [= <-] Hp. by apply popups_grow in Hp. }
  destruct (last (groups (shape_heap s first))) as [g|] eqn:Etop.
  2:{ split_and!; [done|done| |].
      - intros s' [= <-] Hp. unfold rejected in Hp. simpl in Hp.
        by apply popups_differ in Hp.
      - intros g' _ _ Hall _. specialize (Hall first (list_elem_of_here _ _)).
        by rewrite Etop in Hall. }
  destruct (Z.eqb_spec (ungroup_flag (shape_heap s) g (first :: rest)) 0) as [Hflag|Hflag].
  2:{ split_and!; [done|done| |].
      - intros s' [= <-] Hp. unfold rejected in Hp. simpl in Hp.
        by apply popups_differ in Hp.
      - intros g' _ _ Hall _. exfalso. apply Hflag. apply ungroup_flag_zero.
        intros sh Hin. rewrite (Hall sh Hin). f_equal.
        specialize (Hall first (list_elem_of_here _ _)). rewrite Etop in Hall.
        by injection Hall. }
  pose proof (proj1 (ungroup_flag_zero _ _ _) Hflag) as Hcommon.
  pose proof (ungroup_loop g (first :: rest) s) as Hloop.
  destruct (ungroup_rounds g (first :: rest) (shape_heap s) (group_heap s))
    as [[H' G']|] eqn:Er.
  - rewrite Hloop. split_and!; [done| | |].
    + intros _ Hno. exfalso. apply Hno. by exists g.
    + intros s' [= <-] _. exists g. cbn [shape_heap group_heap with_popups with_group_heap with_shape_heap].
      split_and!; [done| | | |].
      * intros Hnd sh Hin. by apply (ungroup_rounds_popped _ _ _ _ _ _ _ Er).
      * intros sh Hni. by apply (ungroup_rounds_untouched _ _ _ _ _ _ _ Er).
      * by apply (ungroup_rounds_members _ _ _ _ _ _ Er).
      * intros g' Hne. by apply (ungroup_rounds_other _ _ _ _ _ _ _ Er).
    + intros g' _ _ _ _. eexists. split; reflexivity.
  - destruct Hloop as [s1 ->]. split_and!; [done| |done|].
    + intros _ Hno. exfalso. apply Hno. by exists g.
    + intros g' _ Hnd Hall Hmem. exfalso.
      assert (g' = g) as ->.
      { specialize (Hall first (list_elem_of_here _ _)). rewrite Etop in Hall. by injection Hall. }
      destruct (ungroup_rounds_succeed g (first :: rest) (shape_heap s) (group_heap s) Hnd Hmem)
        as [x Hx]. by rewrite Er in Hx.
Qed.

Lemma ungroup_shapes_all_or_nothing_witness :
  (selected_shapes first_and_third ≠ [] ∧
   (¬ ∃ g, ∀ sh, sh ∈ selected_shapes first_and_third →
           last (groups (shape_heap first_and_third sh)) = Some g) ∧
   ungroup_shapes first_and_third =
     (Py.Ok tt, with_popups (popups first_and_third ++ [no_common_group]) first_and_third)) ∧
  (selected_shapes regrouped_pair ≠ [] ∧
   NoDup (selected_shapes regrouped_pair) ∧
   ∃ s', ungroup_shapes regrouped_pair = (Py.Ok tt, s') ∧
         popups s' = popups regrouped_pair ++ ["Objects Ungrouped"]).
Proof.
  assert (Hno : ¬ ∃ g, ∀ sh, sh ∈ selected_shapes first_and_third →
                       last (groups (shape_heap first_and_third sh)) = Some g).
  { intros [g Hall]. specialize (Hall 2%nat). vm_compute in Hall.
    assert (Hin : 2%nat ∈ [0; 2]%nat) by (right; left).
    specialize (Hall Hin). discriminate. }
  assert (Hnd : NoDup (selected_shapes regrouped_pair)).
  { vm_compute. apply NoDup_cons_2; [by intros ?%list_elem_of_singleton|apply NoDup_singleton]. }
  split; split_and!; try (vm_compute; discriminate); try assumption.
  - exact (proj1 (proj2 (ungroup_shapes_all_or_nothing first_and_third))
             ltac:(vm_compute; discriminate) Hno).
  - apply (proj2 (proj2 (proj2 (ungroup_shapes_all_or_nothing regrouped_pair))) 0%nat);
      [vm_compute; discriminate|exact Hnd| |].
    + intros sh Hin. vm_compute in Hin.
      apply elem_of_cons in Hin as [-> |Hin]; [reflexivity|].
      apply list_elem_of_singleton in Hin as ->. reflexivity.
    + intros sh Hin. vm_compute in Hin. vm_compute. exact Hin.
Defined.

(** * More properties *)

(** ** Area selection *)

Lemma select_run sh s :
  select sh s = (Py.Ok tt, with_selected_shapes (selected_with (selected_shapes s) sh) s).
Proof.
  unfold select, selected_with, bind, get. case_bool_decide; [|reflexivity].
  destruct s; reflexivity.
Qed.

Lemma select_loop l : ∀ s,
  for_each l select s =
  (Py.Ok tt, with_selected_shapes (fold_left selected_with l (selected_shapes s)) s).
Proof.
  induction l as [|sh l IH]; intros s.
  - destruct s; reflexivity.
  - cbn [for_each fold_left]. unfold bind. rewrite select_run, IH. reflexivity.
Qed.

Lemma select_groups_loop gs : ∀ s,
  for_each gs (fun g => grp <- group g ;; for_each (Group.shapes grp) select) s =
  (Py.Ok tt,
   with_selected_shapes
     (fold_left (fun sel g => fold_left selected_with (Group.shapes (group_heap s g)) sel)
                gs (selected_shapes s)) s).
Proof.
  induction gs as [|g gs IH]; intros s.
  - destruct s; reflexivity.
  - cbn [for_each fold_left]. unfold bind at 1 2, group at 1, get at 1.
    rewrite select_loop, IH. reflexivity.
Qed.

Lemma select_overlapping_run ids s :
  select_overlapping ids s =
  (Py.Ok tt,
   with_selected_shapes
     (fold_left (selected_with_groups (shape_heap s) (group_heap s)) (overlapping_shapes_obj s ids)
                (selected_shapes s)) s).
Proof.
  unfold select_overlapping, bind at 1, get at 1.
  generalize (overlapping_shapes_obj s ids) as l.
  assert (Hgen : ∀ l s0, shape_heap s0 = shape_heap s → group_heap s0 = group_heap s →
    for_each l (fun shape_obj =>
      sel <- get selected_shapes ;;
      if bool_decide (shape_obj ∈ sel) then ret tt
      else
        update (fun s => with_selected_shapes (selected_shapes s ++ [shape_obj]) s) ;;
        o <- shape shape_obj ;;
        if Nat.ltb 0 (length (groups o)) then
          for_each (groups o) (fun g =>
            grp <- group g ;;
            for_each (Group.shapes grp) select)
        else ret tt) s0 =
    (Py.Ok tt,
     with_selected_shapes
       (fold_left (selected_with_groups (shape_heap s) (group_heap s)) l
                  (selected_shapes s0)) s0)).
  { induction l as [|x l IH]; intros s0 HH HG.
    - destruct s0; reflexivity.
    - cbn [for_each fold_left]. unfold bind at 1 2, get at 1.
      unfold selected_with_groups at 2.
      case_bool_decide as Hin.
      + unfold ret at 1. rewrite IH by done. reflexivity.
      + unfold bind at 1, update at 1. unfold bind at 1, shape at 1, get at 1.
        cbn [shape_heap with_selected_shapes]. rewrite HH.
        destruct (groups (shape_heap s x)) as [|g gs] eqn:Eg.
        * cbn [length Nat.ltb Nat.leb fold_left]. unfold ret at 1.
          rewrite IH by done. reflexivity.
        * cbn [length Nat.ltb Nat.leb]. rewrite select_groups_loop.
          cbn [group_heap selected_shapes with_selected_shapes]. rewrite HG.
          rewrite IH by done. reflexivity. }
  intros l. by apply Hgen.
Qed.

(** *** What the selection loops do to the selection *)

Lemma selected_with_elem sel sh x : x ∈ selected_with sel sh ↔ x ∈ sel ∨ x = sh.
Proof.
  unfold selected_with. case_bool_decide as Hin.
  - split; [by left|]. intros [?| ->]; done.
  - rewrite elem_of_app, list_elem_of_singleton. done.
Qed.

Lemma selected_with_prefix sel sh : sel `prefix_of` selected_with sel sh.
Proof. unfold selected_with. case_bool_decide; [done|]. by apply prefix_app_r. Qed.

Lemma selected_with_NoDup sel sh : NoDup sel → NoDup (selected_with sel sh).
Proof.
  intros Hnd. unfold selected_with. case_bool_decide as Hin; [done|].
  apply NoDup_app. split_and!; [done| |apply NoDup_singleton].
  intros x Hx ->%list_elem_of_singleton. done.
Qed.

Lemma select_all_elem l : ∀ sel x, x ∈ fold_left selected_with l sel ↔ x ∈ sel ∨ x ∈ l.
Proof.
  induction l as [|sh l IH]; intros sel x; cbn [fold_left].
  - split; [by left|]. intros [?|Hin]; [done|]. by apply elem_of_nil in Hin.
  - rewrite IH, selected_with_elem, elem_of_cons. tauto.
Qed.

Lemma select_all_prefix l : ∀ sel, sel `prefix_of` fold_left selected_with l sel.
Proof.
  induction l as [|sh l IH]; intros sel; cbn [fold_left]; [done|].
  etrans; [apply selected_with_prefix|apply IH].
Qed.

Lemma select_all_NoDup l : ∀ sel, NoDup sel → NoDup (fold_left selected_with l sel).
Proof.
  induction l as [|sh l IH]; intros sel Hnd; cbn [fold_left]; [done|].
  apply IH. by apply selected_with_NoDup.
Qed.

Lemma select_groups_elem G gs : ∀ sel x,
  x ∈ select_groups G gs sel ↔ x ∈ sel ∨ ∃ g, g ∈ gs ∧ x ∈ Group.shapes (G g).
Proof.
  unfold select_groups.
  induction gs as [|g gs IH]; intros sel x; cbn [fold_left].
  - split; [by left|]. intros [?|(g & Hin & _)]; [done|]. by apply elem_of_nil in Hin.
  - rewrite IH, select_all_elem. split.
    + intros [[?|?]|(g' & Hin & Hx)]; [by left| |].
      * right. exists g. split; [by left|done].
      * right. exists g'. split; [by right|done].
    + intros [?|(g' & Hin & Hx)]; [left; by left|].
      apply elem_of_cons in Hin as [-> |Hin]; [left; by right|].
      right. by exists g'.
Qed.

Lemma select_groups_prefix G gs : ∀ sel, sel `prefix_of` select_groups G gs sel.
Proof.
  unfold select_groups.
  induction gs as [|g gs IH]; intros sel; cbn [fold_left]; [done|].
  etrans; [apply select_all_prefix|apply IH].
Qed.

Lemma select_groups_NoDup G gs : ∀ sel, NoDup sel → NoDup (select_groups G gs sel).
Proof.
  unfold select_groups.
  induction gs as [|g gs IH]; intros sel Hnd; cbn [fold_left]; [done|].
  apply IH. by apply select_all_NoDup.
Qed.

Lemma selected_with_groups_unfold H G sel t :
  selected_with_groups H G sel t =
  if bool_decide (t ∈ sel) then sel else select_groups G (groups (H t)) (sel ++ [t]).
Proof. reflexivity. Qed.

Lemma selected_with_groups_elem H G sel t x :
  x ∈ selected_with_groups H G sel t ↔
  x ∈ sel ∨ ((t ∉ sel) ∧ (x = t ∨ ∃ g, g ∈ groups (H t) ∧ x ∈ Group.shapes (G g))).
Proof.
  rewrite selected_with_groups_unfold. case_bool_decide as Hin.
  - split; [by left|]. intros [?|[? _]]; done.
  - rewrite select_groups_elem, elem_of_app, list_elem_of_singleton. tauto.
Qed.

Lemma selected_with_groups_prefix H G sel t : sel `prefix_of` selected_with_groups H G sel t.
Proof.
  rewrite selected_with_groups_unfold. case_bool_decide; [done|].
  etrans; [|apply select_groups_prefix]. by apply prefix_app_r.
Qed.

Lemma selected_with_groups_NoDup H G sel t :
  NoDup sel → NoDup (selected_with_groups H G sel t).
Proof.
  intros Hnd. rewrite selected_with_groups_unfold. case_bool_decide as Hin; [done|].
  apply select_groups_NoDup. apply NoDup_app. split_and!; [done| |apply NoDup_singleton].
  intros x Hx ->%list_elem_of_singleton. done.
Qed.

Lemma selected_with_groups_hit H G sel t : t ∈ selected_with_groups H G sel t.
Proof.
  apply selected_with_groups_elem. destruct (decide (t ∈ sel)); [by left|].
  right. split; [done|by left].
Qed.

Section Sweep.
Variables (H : nat -> Shape) (G : nat -> Group.t).

Lemma sweep_prefix l : ∀ sel, sel `prefix_of` fold_left (selected_with_groups H G) l sel.
Proof.
  induction l as [|t l IH]; intros sel; cbn [fold_left]; [done|].
  etrans; [apply selected_with_groups_prefix|apply IH].
Qed.

Lemma sweep_NoDup l : ∀ sel, NoDup sel → NoDup (fold_left (selected_with_groups H G) l sel).
Proof.
  induction l as [|t l IH]; intros sel Hnd; cbn [fold_left]; [done|].
  apply IH. by apply selected_with_groups_NoDup.
Qed.

Lemma sweep_hits l : ∀ sel t, t ∈ l → t ∈ fold_left (selected_with_groups H G) l sel.
Proof.
  induction l as [|u l IH]; intros sel t Hin; cbn [fold_left].
  - by apply elem_of_nil in Hin.
  - apply elem_of_cons in Hin as [-> |Hin]; [|by apply IH].
    eapply elem_of_prefix; [apply selected_with_groups_hit|apply sweep_prefix].
Qed.

Lemma sweep_sound l : ∀ sel x,
  x ∈ fold_left (selected_with_groups H G) l sel →
  x ∈ sel ∨ x ∈ l ∨ ∃ t g, t ∈ l ∧ g ∈ groups (H t) ∧ x ∈ Group.shapes (G g).
Proof.
  induction l as [|u l IH]; intros sel x; cbn [fold_left]; [by left|].
  intros [Hx|[Hx|(t & g & Ht & Hg & Hx)]]%IH.
  - apply selected_with_groups_elem in Hx as [?|[_ [-> |(g & Hg & Hx)]]].
    + by left.
    + right; left; by left.
    + right; right. exists u, g. split_and!; [by left|done|done].
  - right; left; by right.
  - right; right. exists t, g. split_and!; [by right|done|done].
Qed.

End Sweep.

Lemma overlapping_shapes_obj_elem s ids t :
  t ∈ overlapping_shapes_obj s ids ↔
  t ∈ shape_object s ∧ ∃ id, id ∈ ids ∧ shape_id (shape_heap s t) = Some id.
Proof.
  unfold overlapping_shapes_obj. rewrite list_elem_of_In, in_flat_map. split.
  - intros (id & Hid & Hin). apply filter_In in Hin as [Hin Hb].
    apply bool_decide_eq_true in Hb. rewrite <- !list_elem_of_In in *. eauto.
  - intros (Hin & id & Hid & Hsh). exists id. rewrite filter_In, <- !list_elem_of_In.
    split_and!; [done|done|by apply bool_decide_eq_true].
Qed.

(** An area selection only appends to the selection, never selects a shape
    twice, selects every shape object of the document whose handle was hit,
    and beyond those only members of groups of hit shapes. *)
Theorem area_selection_grows (s : State) (ids : list Z) :
  ∃ sel',
    select_overlapping ids s = (Py.Ok tt, with_selected_shapes sel' s) ∧
    selected_shapes s `prefix_of` sel' ∧
    (NoDup (selected_shapes s) → NoDup sel') ∧
    (∀ t id, t ∈ shape_object s → id ∈ ids → shape_id (shape_heap s t) = Some id → t ∈ sel') ∧
    (∀ x, x ∈ sel' →
       x ∈ selected_shapes s ∨ x ∈ overlapping_shapes_obj s ids ∨
       ∃ t g, t ∈ overlapping_shapes_obj s ids ∧ g ∈ groups (shape_heap s t) ∧
              x ∈ Group.shapes (group_heap s g)).
Proof.
  eexists. split; [apply select_overlapping_run|]. split_and!.
  - apply sweep_prefix.
  - apply sweep_NoDup.
  - intros t id Hdoc Hid Hsh. apply sweep_hits. apply overlapping_shapes_obj_elem. eauto.
  - apply sweep_sound.
Qed.

(** Hitting an unselected shape first selects it together with every
    member of every group on its stack; a hit shape that is selected
    already brings nobody in. *)
Theorem area_selection_takes_the_groups (s : State) (ids : list Z) (t : nat) (rest : list nat) :
  overlapping_shapes_obj s ids = t :: rest →
  ∃ sel',
    select_overlapping ids s = (Py.Ok tt, with_selected_shapes sel' s) ∧
    (t ∉ selected_shapes s →
       ∀ g x, g ∈ groups (shape_heap s t) → x ∈ Group.shapes (group_heap s g) → x ∈ sel') ∧
    (rest = [] →
       ∀ x, x ∈ sel' ↔
            x ∈ selected_shapes s ∨
            ((t ∉ selected_shapes s) ∧
             (x = t ∨ ∃ g, g ∈ groups (shape_heap s t) ∧ x ∈ Group.shapes (group_heap s g)))).
Proof.
  intros Hhit. eexists. split; [apply select_overlapping_run|]. rewrite Hhit.
  cbn [fold_left]. split.
  - intros Hni g x Hg Hx. eapply elem_of_prefix; [|apply sweep_prefix].
    apply selected_with_groups_elem. right. split; [done|]. right. eauto.
  - intros -> x. cbn [fold_left]. apply selected_with_groups_elem.
Qed.


Lemma area_selection_takes_the_groups_witness :
  ∃ sel',
    select_overlapping [1] (with_selected_shapes [] first_group) =
      (Py.Ok tt, with_selected_shapes sel' (with_selected_shapes [] first_group)) ∧
    (1%nat ∈ sel').
Proof.
  destruct (area_selection_takes_the_groups (with_selected_shapes [] first_group) [1] 0%nat [])
    as (sel' & Hrun & Hgrp & _).
  - vm_compute. reflexivity.
  - exists sel'. split; [exact Hrun|].
    apply (Hgrp (not_elem_of_nil _) 0%nat 1%nat).
    + vm_compute. left.
    + vm_compute. right. left.
Defined.

(** *** Grouping and ungrouping again *)

Lemma group_rounds_pushed g l : ∀ H G sh,
  NoDup l → sh ∈ l → groups ((group_rounds g l H G).1 sh) = groups (H sh) ++ [g].
Proof.
  induction l as [|x l IH]; intros H G sh Hnd Hin; [by apply elem_of_nil in Hin|].
  apply NoDup_cons in Hnd as [Hx Hnd]. cbn [group_rounds].
  apply elem_of_cons in Hin as [-> |Hin].
  - rewrite group_rounds_untouched by done. by rewrite upd_same.
  - rewrite IH by done. rewrite upd_other; [done|]. by intros ->.
Qed.

(** Grouping two or more distinct shapes and ungrouping the same selection
    gives every shape its stack of groups back; the group formed is left
    without members, and both messages are shown. *)
Theorem group_then_ungroup_restores_the_stacks (s : State) :
  (2 ≤ length (selected_shapes s))%nat → NoDup (selected_shapes s) →
  ∃ s1 s2,
    group_shapes s = (Py.Ok tt, s1) ∧
    ungroup_shapes s1 = (Py.Ok tt, s2) ∧
    (∀ sh, groups (shape_heap s2 sh) = groups (shape_heap s sh)) ∧
    Group.shapes (group_heap s2 (next_group s)) = [] ∧
    (∀ g, g ≠ next_group s → group_heap s2 g = group_heap s g) ∧
    popups s2 = popups s ++ ["Group Formed"; "Objects Ungrouped"].
Proof.
  intros Hlen Hnd.
  exists (grouped s). rewrite group_shapes_run by done.
  set (g := next_group s).
  set (R := group_rounds g (selected_shapes s) (shape_heap s) (upd g Group.new (group_heap s))).
  assert (Hsel : selected_shapes (grouped s) = selected_shapes s) by reflexivity.
  assert (HH : shape_heap (grouped s) = R.1) by reflexivity.
  assert (HG : group_heap (grouped s) = R.2) by reflexivity.
  assert (Hmem : Group.shapes (R.2 g) = selected_shapes s).
  { subst R. by rewrite group_rounds_members, upd_same. }
  assert (Htop : ∀ sh, sh ∈ selected_shapes s → last (groups (R.1 sh)) = Some g).
  { intros sh Hin. by apply group_rounds_top. }
  assert (Hflag : ungroup_flag R.1 g (selected_shapes s) = 0) by (by apply ungroup_flag_zero).
  pose proof (ungroup_loop g (selected_shapes s) (grouped s)) as Hloop.
  rewrite HH, HG in Hloop.
  destruct (ungroup_rounds_succeed g (selected_shapes s) R.1 R.2 Hnd) as [[H' G'] Hr].
  { intros sh Hin. by rewrite Hmem. }
  rewrite Hr in Hloop.
  rewrite ungroup_shapes_unfold, Hsel, HH.
  destruct (selected_shapes s) as [|first rest] eqn:Es; [simpl in Hlen; lia|].
  rewrite (Htop first) by left.
  rewrite Hflag. cbn [Z.eqb]. rewrite Hloop.
  eexists. split; [reflexivity|]. split; [reflexivity|].
  cbn [shape_heap group_heap popups with_popups with_group_heap with_shape_heap].
  split_and!.
  - intros sh. destruct (decide (sh ∈ first :: rest)) as [Hin|Hni].
    + rewrite (ungroup_rounds_popped _ _ _ _ _ _ _ Hr Hnd Hin).
      subst R. rewrite group_rounds_pushed by done.
      apply removelast_last.
    + rewrite (ungroup_rounds_untouched _ _ _ _ _ _ _ Hr Hni).
      subst R. by rewrite group_rounds_untouched.
  - pose proof (ungroup_rounds_members _ _ _ _ _ _ Hr) as Hp. rewrite Hmem in Hp.
    apply Permutation_length in Hp. rewrite length_app in Hp.
    destruct (Group.shapes (G' g)); [done|simpl in Hp; lia].
  - intros g' Hne. rewrite (ungroup_rounds_other _ _ _ _ _ _ _ Hr Hne).
    subst R. rewrite group_rounds_other by done. by apply upd_other.
  - unfold grouped. cbn [popups with_popups]. by rewrite <- app_assoc.
Qed.

Lemma group_then_ungroup_restores_the_stacks_witness :
  ∃ s1 s2,
    group_shapes two_selected = (Py.Ok tt, s1) ∧
    ungroup_shapes s1 = (Py.Ok tt, s2) ∧
    (∀ sh, groups (shape_heap s2 sh) = groups (shape_heap two_selected sh)).
Proof.
  destruct (group_then_ungroup_restores_the_stacks two_selected)
    as (s1 & s2 & Hg & Hu & Hst & _).
  - vm_compute. lia.
  - apply (bool_decide_unpack _). vm_compute. reflexivity.
  - exists s1, s2. by split_and!.
Defined.

(** ** Deleting *)

Lemma delete_loop H l : ∀ s,
  shape_heap s = H →
  for_each l (fun sh => o <- shape sh ;; tk_delete (shape_id o) ;; remove_shape_object sh) s =
  match delete_rounds H l (shape_object s) (tk s) with
  | (true, objs, c) => (Py.Ok tt, with_shape_object objs (with_tk c s))
  | (false, objs, c) => (Py.Raise Py.ValueError, with_shape_object objs (with_tk c s))
  end.
Proof.
  induction l as [|sh l IH]; intros s HH.
  - destruct s; reflexivity.
  - cbn [for_each delete_rounds].
    unfold bind at 1 2, shape at 1, get at 1. rewrite HH.
    unfold item_deleted at 1 2.
    assert (Hdel : tk_delete (shape_id (H sh)) s =
                   (Py.Ok tt, with_tk (item_deleted H (tk s) sh) s)).
    { unfold tk_delete, item_deleted. destruct (shape_id (H sh)); [reflexivity|].
      destruct s; reflexivity. }
    unfold bind at 1. rewrite Hdel.
    unfold remove_shape_object, bind at 1, get at 1. cbn [shape_object with_tk].
    unfold bind at 1, lift at 1.
    destruct (Py.remove sh (shape_object s)) as [objs'|e] eqn:E.
    + unfold update at 1. rewrite IH by (by rewrite <- HH).
      cbn [shape_object tk with_shape_object with_tk]. unfold item_deleted.
      destruct (delete_rounds H l objs' _) as [[[] objs2] c2]; reflexivity.
    + rewrite (remove_raises _ _ _ E). unfold item_deleted. destruct s; reflexivity.
Qed.

Lemma delete_shape_run s :
  delete_shape s =
  match delete_rounds (shape_heap s) (selected_shapes s) (shape_object s) (tk s) with
  | (true, objs, c) => (Py.Ok tt, with_selected_shapes [] (with_shape_object objs (with_tk c s)))
  | (false, objs, c) => (Py.Raise Py.ValueError, with_shape_object objs (with_tk c s))
  end.
Proof.
  unfold delete_shape, bind at 1, get at 1. unfold bind at 1.
  rewrite (delete_loop (shape_heap s)) by reflexivity.
  destruct (delete_rounds _ _ _ _) as [[[] objs] c]; reflexivity.
Qed.

Lemma item_deleted_next H c sh : Tk.next_id (item_deleted H c sh) = Tk.next_id c.
Proof. unfold item_deleted. by destruct (shape_id (H sh)). Qed.

Lemma item_deleted_gone H c sh id :
  Tk.items c !! id = None → Tk.items (item_deleted H c sh) !! id = None.
Proof.
  intros Hn. unfold item_deleted. destruct (shape_id (H sh)); [|done].
  cbn. by apply lookup_delete_None; right.
Qed.

Lemma item_deleted_own H c sh id :
  shape_id (H sh) = Some id → Tk.items (item_deleted H c sh) !! id = None.
Proof. intros Hid. unfold item_deleted. rewrite Hid. cbn. apply lookup_delete_eq. Qed.

Lemma item_deleted_other H c sh id :
  shape_id (H sh) ≠ Some id → Tk.items (item_deleted H c sh) !! id = Tk.items c !! id.
Proof.
  intros Hne. unfold item_deleted. destruct (shape_id (H sh)) as [i|]; [|done].
  cbn. apply lookup_delete_ne. by intros ->.
Qed.

Lemma remove_sublist x : ∀ l m, Py.remove x l = Py.Ok m → m `sublist_of` l.
Proof.
  induction l as [|y l IH]; intros m; simpl; [done|].
  destruct (Nat.eqb y x).
  - intros [= <-]. by apply sublist_cons.
  - destruct (Py.remove x l) as [m'|] eqn:E; [|done].
    intros [= <-]. apply sublist_skip. by apply IH.
Qed.

Lemma delete_rounds_ok H l : ∀ objs c,
  NoDup l → (∀ sh, sh ∈ l → sh ∈ objs) →
  ∃ objs' c',
    delete_rounds H l objs c = (true, objs', c') ∧
    objs ≡ₚ l ++ objs' ∧
    objs' `sublist_of` objs ∧
    Tk.next_id c' = Tk.next_id c ∧
    (∀ id, Tk.items c !! id = None → Tk.items c' !! id = None) ∧
    (∀ sh id, sh ∈ l → shape_id (H sh) = Some id → Tk.items c' !! id = None) ∧
    (∀ id, (∀ sh, sh ∈ l → shape_id (H sh) ≠ Some id) → Tk.items c' !! id = Tk.items c !! id).
Proof.
  induction l as [|x l IH]; intros objs c Hnd Hin.
  - exists objs, c. split_and!; try done. intros sh id Hx. by apply elem_of_nil in Hx.
  - apply NoDup_cons in Hnd as [Hx Hnd]. cbn [delete_rounds].
    destruct (remove_member x objs) as [m Hm]; [apply Hin; left|]. rewrite Hm.
    destruct (IH m (item_deleted H c x) Hnd) as (objs' & c' & Hrun & Hp & Hsub & Hnext & Hgone & Hsel & Hoth).
    { intros sh Hsh. apply (remove_keeps _ _ _ _ Hm); [by intros ->|]. apply Hin. by right. }
    exists objs', c'. split_and!.
    + exact Hrun.
    + rewrite (remove_Permutation _ _ _ Hm). cbn. by rewrite Hp.
    + etrans; [exact Hsub|]. by eapply remove_sublist.
    + by rewrite Hnext, item_deleted_next.
    + intros id Hn. by apply Hgone, item_deleted_gone.
    + intros sh id [-> |Hsh]%elem_of_cons Hid.
      * by apply Hgone, item_deleted_own.
      * by eapply Hsel.
    + intros id Hne. rewrite Hoth by (intros sh Hsh; apply Hne; by right).
      apply item_deleted_other. apply Hne. left.
Qed.

(** [delete_shape] on distinct selected shapes that are all in the
    document: each of them leaves the document once, the rest staying in
    their order; their items leave the canvas and no other item is touched;
    the selection is emptied.  The shape objects and the groups are left as
    they are: a deleted shape keeps its handle and stays in the member list
    of every group it was in. *)
Theorem delete_shape_removes_the_selection (s : State) :
  NoDup (selected_shapes s) →
  (∀ sh, sh ∈ selected_shapes s → sh ∈ shape_object s) →
  ∃ s',
    delete_shape s = (Py.Ok tt, s') ∧
    selected_shapes s' = [] ∧
    shape_object s ≡ₚ selected_shapes s ++ shape_object s' ∧
    shape_object s' `sublist_of` shape_object s ∧
    (∀ sh id, sh ∈ selected_shapes s → shape_id (shape_heap s sh) = Some id →
              Tk.items (tk s') !! id = None) ∧
    (∀ id, (∀ sh, sh ∈ selected_shapes s → shape_id (shape_heap s sh) ≠ Some id) →
           Tk.items (tk s') !! id = Tk.items (tk s) !! id) ∧
    Tk.next_id (tk s') = Tk.next_id (tk s) ∧
    shape_heap s' = shape_heap s ∧
    group_heap s' = group_heap s.
Proof.
  intros Hnd Hin.
  destruct (delete_rounds_ok (shape_heap s) _ (shape_object s) (tk s) Hnd Hin)
    as (objs' & c' & Hrun & Hp & Hsub & Hnext & _ & Hsel & Hoth).
  rewrite delete_shape_run, Hrun. eexists. split; [reflexivity|].
  cbn [selected_shapes shape_object tk shape_heap group_heap
       with_selected_shapes with_shape_object with_tk].
  by split_and!.
Qed.

Lemma delete_shape_removes_the_selection_witness :
  ∃ s', delete_shape two_selected = (Py.Ok tt, s') ∧
        shape_object s' = [2%nat] ∧ selected_shapes s' = [].
Proof.
  destruct (delete_shape_removes_the_selection two_selected) as (s' & Hrun & Hsel & _).
  - apply (bool_decide_unpack _). vm_compute. reflexivity.
  - intros sh Hsh. apply list_elem_of_In. apply list_elem_of_In in Hsh.
    vm_compute in Hsh |- *. tauto.
  - exists s'. split_and!; [assumption| |assumption].
    apply (f_equal (fun r => shape_object r.2)) in Hrun. cbn [snd] in Hrun.
    rewrite <- Hrun. vm_compute. reflexivity.
Defined.

(** When a selected shape is not in the document, [delete_shape] raises
    [ValueError] at its [remove], after deleting its item; the selection is
    not emptied. *)
Theorem delete_shape_stops_at_a_missing_shape (s : State) (sh : nat) (rest : list nat) :
  selected_shapes s = sh :: rest →
  sh ∉ shape_object s →
  delete_shape s =
    (Py.Raise Py.ValueError, with_tk (item_deleted (shape_heap s) (tk s) sh) s).
Proof.
  intros Hsel Hni. rewrite delete_shape_run, Hsel. cbn [delete_rounds].
  destruct (Py.remove sh (shape_object s)) as [m|e] eqn:E.
  - apply remove_Permutation in E. exfalso. apply Hni. rewrite E. left.
  - destruct s; reflexivity.
Qed.

(** ** The logic *)

Lemma hoare_ret {A} (P : State → Prop) (a : A) (Q : A → State → Prop) E :
  (∀ s, P s → Q a s) → hoare P (ret a) Q E.
Proof. intros H s HP. by apply H. Qed.

Lemma hoare_raise {A} (P : State → Prop) e (Q : A → State → Prop) (E : State → Prop) :
  (∀ s, P s → E s) → hoare P (raise e) Q E.
Proof. intros H s HP. by apply H. Qed.

Lemma hoare_get {A} (P : State → Prop) (f : State → A) (Q : A → State → Prop) E :
  (∀ s, P s → Q (f s) s) → hoare P (get f) Q E.
Proof. intros H s HP. by apply H. Qed.

Lemma hoare_update (P : State → Prop) f (Q : unit → State → Prop) E :
  (∀ s, P s → Q tt (f s)) → hoare P (update f) Q E.
Proof. intros H s HP. by apply H. Qed.

Lemma hoare_lift {A} (P : State → Prop) (r : Py.Result A) (Q : A → State → Prop)
    (E : State → Prop) :
  (∀ s, P s → match r with Py.Ok a => Q a s | Py.Raise _ => E s end) → hoare P (lift r) Q E.
Proof. intros H s HP. specialize (H s HP). unfold lift. by destruct r. Qed.

Lemma hoare_bind {A B} (R : A → State → Prop) (P : State → Prop) (m : M A) (k : A → M B)
    (Q : B → State → Prop) E :
  hoare P m R E → (∀ a, hoare (R a) (k a) Q E) → hoare P (bind m k) Q E.
Proof.
  intros Hm Hk s HP. specialize (Hm s HP). unfold bind.
  destruct (m s) as [[a|e] s1]; [|done]. by apply Hk.
Qed.

Lemma hoare_for_each {A} (J : State → Prop) (l : list A) (f : A → M unit) E :
  (∀ x, x ∈ l → hoare J (f x) (fun _ => J) E) → hoare J (for_each l f) (fun _ => J) E.
Proof.
  induction l as [|x l IH]; intros Hf.
  - by intros s HJ.
  - cbn [for_each]. apply (hoare_bind (fun _ => J)).
    + apply Hf. left.
    + intros _. apply IH. intros y Hy. apply Hf. by right.
Qed.

Lemma hoare_collect {A B} (J : State → Prop) (l : list A) (f : A → M B) E :
  (∀ x, x ∈ l → hoare J (f x) (fun _ => J) E) → hoare J (collect l f) (fun _ => J) E.
Proof.
  induction l as [|x l IH]; intros Hf.
  - by intros s HJ.
  - cbn [collect]. apply (hoare_bind (fun _ => J)).
    + apply Hf. left.
    + intros b. apply (hoare_bind (fun _ => J)).
      * apply IH. intros y Hy. apply Hf. by right.
      * intros bs. by apply hoare_ret.
Qed.

Lemma hoare_conseq {A} (P P' : State → Prop) (m : M A) (Q Q' : A → State → Prop)
    (E E' : State → Prop) :
  hoare P m Q E → (∀ s, P' s → P s) → (∀ a s, Q a s → Q' a s) → (∀ s, E s → E' s) →
  hoare P' m Q' E'.
Proof.
  intros Hm HP HQ HE s Hs. specialize (Hm s (HP s Hs)).
  destruct (m s) as [[a|e] s1]; auto.
Qed.

Lemma hoare_pure {A} (φ : Prop) (P : State → Prop) (m : M A) (Q : A → State → Prop) E :
  (φ → hoare P m Q E) → hoare (fun s => P s ∧ φ) m Q E.
Proof. intros H s [HP Hφ]. by apply H. Qed.

(** What a computation keeps, the loop keeps. *)
Lemma mainloop_keeps fo bb nl El fs wr (I : State → Prop) :
  (∀ c, preserves I (perform fo bb nl El fs wr c)) →
  ∀ cs s, I s → I (mainloop fo bb nl El fs wr cs s).
Proof.
  intros Hc cs. induction cs as [|c cs IH]; intros s HI; [done|].
  cbn [mainloop fold_left]. apply IH. unfold callback.
  specialize (Hc c s HI). by destruct (perform _ _ _ _ _ _ c s) as [[[]|e] s1].
Qed.

Create HintDb hoare.

(** One step through a computation, by its head; the assertion in force
    is carried over every step that does not need more. *)
Ltac hoare_weaken HP :=
  first [exact HP | exact (proj1 HP) | exact (proj1 (proj1 HP)) | reflexivity].

Ltac hoare_step :=
  lazymatch goal with
  | |- preserves _ _ => unfold preserves
  | |- hoare ?P (bind _ _) _ _ => apply (hoare_bind (fun _ => P)); [|intros ?]
  | |- hoare _ (for_each _ _) _ _ => apply hoare_for_each; intros ? ?
  | |- hoare _ (collect _ _) _ _ => apply hoare_collect; intros ? ?
  | |- hoare _ (if ?b then _ else _) _ _ => destruct b
  | |- hoare _ (match ?x with _ => _ end) _ _ => destruct x
  | |- hoare _ (shape _) _ _ => unfold shape
  | |- hoare _ (group _) _ _ => unfold group
  | |- hoare _ (ret _) _ _ => apply hoare_ret; intros ? HP; hoare_weaken HP
  | |- hoare _ (raise _) _ _ => apply hoare_raise; intros ? HP; hoare_weaken HP
  | |- hoare _ (get _) _ _ => apply hoare_get; intros ? HP; hoare_weaken HP
  | |- hoare _ (lift ?r) _ _ => apply hoare_lift; intros ? HP; destruct r; hoare_weaken HP
  | |- hoare ?P (update ?f) _ _ =>
      first [ apply hoare_update; intros ? HP; hoare_weaken HP
            | solve [eauto with hoare | change (preserves P (update f)); eauto with hoare] ]
  | |- hoare ?P ?m _ _ =>
      solve [ eauto with hoare | change (preserves P m); eauto with hoare
            | intros ? HP; exact HP ]
  end.

Ltac hoare_run := repeat hoare_step.

(** ** The document side *)

Lemma doc_new_shape v :
  hoare doc_sound (new_shape v)
    (fun sh s => doc_sound s ∧ (sh ∉ shape_object s) ∧ (sh < next_shape s)%nat) doc_sound.
Proof.
  intros s (Hd & Hs & Had & Has & Hg). cbn.
  assert (Hmono : ∀ l, allocated l s → ∀ r, r ∈ l → (r < S (next_shape s))%nat).
  { intros l Hl r Hr. specialize (Hl r Hr). lia. }
  split; [unfold doc_sound; split_and!; try done|split].
  - unfold allocated; cbn. by apply Hmono.
  - unfold allocated; cbn. by apply Hmono.
  - intros g. unfold allocated; cbn. by apply Hmono.
  - intros Hin. specialize (Had _ Hin). lia.
  - lia.
Qed.

Lemma doc_new_shape_kept v : preserves doc_sound (new_shape v).
Proof.
  eapply hoare_conseq; [apply doc_new_shape| | |]; try done. by intros _ s [? _].
Qed.

Lemma doc_append sh :
  hoare (fun s => doc_sound s ∧ (sh ∉ shape_object s) ∧ (sh < next_shape s)%nat)
    (append_shape_object sh) (fun _ => doc_sound) doc_sound.
Proof.
  intros s ((Hd & Hs & Had & Has & Hg) & Hni & Hlt). cbn.
  unfold doc_sound. split_and!; try done.
  - apply NoDup_app. split_and!; [done| |apply NoDup_singleton].
    intros x Hx ->%list_elem_of_singleton. done.
  - intros r [Hr| ->%list_elem_of_singleton]%elem_of_app; [by apply Had|done].
Qed.

Lemma doc_remove sh :
  hoare doc_sound (remove_shape_object sh)
    (fun _ s => doc_sound s ∧ sh ∉ shape_object s) doc_sound.
Proof.
  intros s HI. unfold remove_shape_object, bind, get, lift.
  destruct (Py.remove sh (shape_object s)) as [m|e] eqn:E; [|done].
  destruct HI as (Hd & Hs & Had & Has & Hg). cbn.
  pose proof (remove_Permutation _ _ _ E) as Hp.
  rewrite Hp in Hd. apply NoDup_cons in Hd as [Hni Hd].
  split; [unfold doc_sound; split_and!; try done|done].
  intros r Hr. apply Had. rewrite Hp. by right.
Qed.

Lemma doc_remove_kept sh : preserves doc_sound (remove_shape_object sh).
Proof.
  eapply hoare_conseq; [apply doc_remove| | |]; try done. by intros _ s [? _].
Qed.

Lemma doc_tk_create k cs f o sm : preserves doc_sound (tk_create k cs f o sm).
Proof. intros s HI. unfold tk_create. by destruct (Tk.create k cs f o sm (tk s)). Qed.

#[local] Hint Resolve doc_new_shape_kept doc_remove_kept doc_tk_create : hoare.

(** Allocation followed by the append to the document. *)
Ltac doc_alloc_append :=
  lazymatch goal with
  | |- hoare doc_sound (bind (new_shape _) _) _ _ =>
      apply (hoare_bind (fun sh s => doc_sound s ∧ (sh ∉ shape_object s) ∧ (sh < next_shape s)%nat));
      [apply doc_new_shape|];
      let sh := fresh "sh" in
      intros sh;
      apply (hoare_bind (fun _ s => doc_sound s ∧ (sh ∉ shape_object s) ∧ (sh < next_shape s)%nat));
      [apply hoare_update; intros ? HP; exact HP|];
      intros _;
      first [ apply doc_append
            | apply (hoare_bind (fun _ => doc_sound)); [apply doc_append|]; intros _ ]
  end.

Ltac doc_run := repeat first [doc_alloc_append | hoare_step].

Lemma doc_Shape_update sh a b c d : preserves doc_sound (Shape_update sh a b c d).
Proof.
  unfold Shape_update, Line_update, Rectangle_update, draw_rounded_rectangle, create_line,
    create_rectangle, create_polygon, shape, set_shape, tk_delete.
  doc_run.
Qed.

#[local] Hint Resolve doc_Shape_update : hoare.

Lemma doc_redraw_shapes : preserves doc_sound redraw_shapes.
Proof.
  unfold redraw_shapes, int_arg, Line_init, Rectangle_init. doc_run.
Qed.

#[local] Hint Resolve doc_redraw_shapes : hoare.

Lemma doc_clear_selection : preserves doc_sound (update (with_selected_shapes [])).
Proof.
  intros s (Hd & Hs & Had & Has & Hg). cbn. unfold doc_sound. split_and!; try done.
  - apply NoDup_nil_2.
  - intros r Hr. by apply elem_of_nil in Hr.
Qed.

#[local] Hint Resolve doc_clear_selection : hoare.

Lemma doc_draw_shape a b c d : preserves doc_sound (draw_shape a b c d).
Proof. unfold draw_shape. doc_run. Qed.

Lemma doc_clear_properties_text : preserves doc_sound clear_properties_text.
Proof. unfold clear_properties_text, tk_delete. doc_run. Qed.

Lemma doc_delete_shape : preserves doc_sound delete_shape.
Proof. unfold delete_shape, shape, tk_delete. doc_run. Qed.

#[local] Hint Resolve doc_draw_shape doc_clear_properties_text doc_delete_shape : hoare.

Lemma doc_copy_shape : preserves doc_sound copy_shape.
Proof.
  unfold copy_shape, shape, tk_coords, tk_type, tk_itemcget, need_item, Line_init, Rectangle_init.
  doc_run.
Qed.

Lemma doc_update_rectangle_style i st c : preserves doc_sound (update_rectangle_style i st c).
Proof.
  unfold update_rectangle_style, tk_coords, need_item, Rectangle_init, draw_rounded_rectangle,
    create_polygon, create_rectangle.
  hoare_run.
Qed.

#[local] Hint Resolve doc_copy_shape doc_update_rectangle_style : hoare.

Lemma doc_edit_selected_shape c st : preserves doc_sound (edit_selected_shape c st).
Proof.
  unfold edit_selected_shape, show_popup_message, shape, tk_type, need_item, tk_itemconfig_fill.
  doc_run.
Qed.

(** Moving takes a shape out of the document and puts it back at the end. *)
Lemma doc_move_one l sh dx dy :
  sh ∈ l →
  hoare (fun s => doc_sound s ∧ allocated l s) (move_one sh dx dy)
    (fun _ s => doc_sound s ∧ allocated l s) doc_sound.
Proof.
  intros Hin. unfold move_one.
  apply (hoare_bind (fun _ s => (doc_sound s ∧ (sh ∉ shape_object s) ∧ (sh < next_shape s)%nat)
                                ∧ allocated l s)).
  { intros s [HI Hl]. pose proof (doc_remove sh s HI) as Hr.
    destruct (remove_shape_object sh s) as [[[]|e] s1] eqn:E; [|done].
    assert (next_shape s1 = next_shape s) as Hn.
    { revert E. unfold remove_shape_object, bind, get, lift, update.
      destruct (Py.remove sh (shape_object s)); [|done]. by intros [= <-]. }
    destruct Hr as [HI1 Hni]. split_and!; try done.
    - rewrite Hn. by apply Hl.
    - intros r Hr. rewrite Hn. by apply Hl. }
  intros _. unfold shape, tk_move, need_item, set_shape.
  repeat lazymatch goal with
  | |- hoare _ (append_shape_object _) _ _ => fail
  | |- hoare _ (bind (append_shape_object _) _) _ _ => fail
  | |- _ => hoare_step
  end.
  intros s [HP Hl]. pose proof (doc_append sh s HP) as Ha. cbn in Ha |- *. done.
Qed.

Lemma doc_move_shape event : preserves doc_sound (move_shape event).
Proof.
  unfold move_shape, preserves. apply (hoare_bind (fun _ => doc_sound)); [hoare_run|intros _].
  apply (hoare_bind (fun sel s => doc_sound s ∧ allocated sel s)).
  { apply hoare_get. intros s HI. split; [done|]. apply HI. }
  intros [|first rest]; [hoare_run|].
  unfold shape, tk_coords, need_item.
  assert (Hone : ∀ sh dx dy, sh ∈ first :: rest →
            hoare (fun s => doc_sound s ∧ allocated (first :: rest) s) (move_one sh dx dy)
                  (fun _ s => doc_sound s ∧ allocated (first :: rest) s) doc_sound)
    by (intros; by apply doc_move_one).
  repeat lazymatch goal with
  | |- hoare _ (move_one _ _ _) _ _ => fail
  | |- hoare _ (bind (move_one _ _ _) _) _ _ => fail
  | |- _ => hoare_step
  end.
  apply (hoare_bind (fun _ s => doc_sound s ∧ allocated (first :: rest) s)).
  { apply Hone. left. }
  intros _. eapply hoare_conseq.
  - apply (hoare_for_each (fun s => doc_sound s ∧ allocated (first :: rest) s)).
    intros sh Hsh. apply Hone. by right.
  - done.
  - by intros _ s [HI _].
  - done.
Qed.

#[local] Hint Resolve doc_edit_selected_shape doc_move_shape : hoare.

Lemma doc_on_click event : preserves doc_sound (on_click event).
Proof. unfold on_click, shape, tk_itemconfig_width. doc_run. Qed.

Lemma doc_set_group g v :
  hoare (fun s => doc_sound s ∧ allocated (Group.shapes v) s) (set_group g v)
    (fun _ => doc_sound) doc_sound.
Proof.
  intros s [(Hd & Hs & Had & Has & Hg) Hv]. cbn. unfold doc_sound. split_and!; try done.
  intros g'. cbn. unfold upd. destruct (Nat.eqb g' g); [exact Hv|apply Hg].
Qed.

Lemma doc_new_group : preserves doc_sound (new_group Group.new).
Proof.
  intros s (Hd & Hs & Had & Has & Hg). cbn. unfold doc_sound. split_and!; try done.
  intros g'. cbn. unfold upd. destruct (Nat.eqb g' _); [|apply Hg].
  intros r Hr. by apply elem_of_nil in Hr.
Qed.

Lemma doc_remove_shapes g sh : preserves doc_sound (remove_shapes g sh).
Proof.
  intros s HI. unfold remove_shapes, bind, group, get, lift.
  destruct (Py.remove sh (Group.shapes (group_heap s g))) as [m|e] eqn:E; [|done].
  apply (doc_set_group g _ s). split; [done|].
  intros r Hr. apply (proj2 (proj2 (proj2 (proj2 HI))) g).
  rewrite (remove_Permutation _ _ _ E). by right.
Qed.

Lemma doc_add_shapes l g sh :
  sh ∈ l →
  hoare (fun s => doc_sound s ∧ allocated l s) (add_shapes g sh)
    (fun _ s => doc_sound s ∧ allocated l s) doc_sound.
Proof.
  intros Hin s [HI Hl]. unfold add_shapes, bind, group, shape, get.
  assert (Hm : allocated (Group.shapes (group_heap s g) ++ [sh]) s).
  { intros r [Hr| ->%list_elem_of_singleton]%elem_of_app; [|by apply Hl].
    by apply (proj2 (proj2 (proj2 (proj2 HI))) g). }
  destruct (last (groups (shape_heap s sh))) as [top|]; [case_bool_decide|].
  all: split; [by apply (doc_set_group g _ s)|exact Hl].
Qed.

#[local] Hint Resolve doc_on_click doc_new_group doc_remove_shapes : hoare.

Lemma doc_group_shapes : preserves doc_sound group_shapes.
Proof.
  unfold group_shapes, preserves.
  apply (hoare_bind (fun sel s => doc_sound s ∧ allocated sel s)).
  { apply hoare_get. intros s HI. split; [done|]. apply HI. }
  intros sel. destruct (Nat.ltb 1 (length sel)); [|hoare_run].
  apply (hoare_bind (fun _ s => doc_sound s ∧ allocated sel s)).
  { intros s [HI Hl]. split; [by apply (doc_new_group s)|exact Hl]. }
  intros new.
  apply (hoare_bind (fun _ s => doc_sound s ∧ allocated sel s)).
  { apply hoare_for_each. intros sh Hsh.
    apply (hoare_bind (fun _ s => doc_sound s ∧ allocated sel s)); [by apply doc_add_shapes|].
    intros _. unfold add_group, shape, set_shape. hoare_run. }
  intros _. unfold show_popup_message. hoare_run.
Qed.

Lemma doc_ungroup_shapes : preserves doc_sound ungroup_shapes.
Proof. unfold ungroup_shapes, show_popup_message, shape, set_shape. doc_run. Qed.

Lemma doc_select_overlapping ids : preserves doc_sound (select_overlapping ids).
Proof.
  intros s (Hd & Hs & Had & Has & Hg). rewrite select_overlapping_run.
  unfold doc_sound. cbn. split_and!; try done.
  - by apply sweep_NoDup.
  - intros r Hr. apply sweep_sound in Hr as [Hr|[Hr|(t & g & _ & _ & Hr)]].
    + by apply Has.
    + apply Had. by apply overlapping_shapes_obj_elem in Hr as [Hr _].
    + by apply (Hg g).
Qed.

#[local] Hint Resolve doc_group_shapes doc_ungroup_shapes doc_select_overlapping : hoare.

Lemma doc_highlight fo bb nm x1 y1 x2 y2 :
  preserves doc_sound (highlight_shapes_in_area fo bb nm x1 y1 x2 y2).
Proof.
  unfold highlight_shapes_in_area, anchor, tk_delete, shape, tk_itemconfig_width, tk_bbox,
    tk_type, tk_itemcget, tk_gettags, need_item, create_text.
  doc_run.
Qed.

#[local] Hint Resolve doc_highlight : hoare.

Lemma doc_on_drag fo bb nm event :
  preserves doc_sound (on_drag (highlight_shapes_in_area fo bb nm) event).
Proof. unfold on_drag, anchor, Line_init, Rectangle_init. doc_run. Qed.

Lemma doc_on_release fo bb nm event c st :
  preserves doc_sound (on_release (highlight_shapes_in_area fo bb nm) event c st).
Proof. unfold on_release, finalize. doc_run. Qed.

Lemma doc_save_file name : preserves doc_sound (save_file name).
Proof.
  unfold save_file, FileManager.save_file, construct_shape_from_shape_object, shape, tk_type,
    need_item, shape_line.
  doc_run.
Qed.

Lemma doc_open_file ok name : preserves doc_sound (open_file ok name).
Proof. unfold open_file, FileManager.open_file, tk_delete_all. doc_run. Qed.

Lemma doc_save_to_xml El fs wr name : preserves doc_sound (save_to_xml El fs wr name).
Proof. unfold save_to_xml, shape. doc_run. Qed.

Lemma doc_perform fo bb nm El fs wr c :
  preserves doc_sound (perform fo bb nm El fs wr c).
Proof.
  pose proof doc_on_drag. pose proof doc_on_release. pose proof doc_save_file.
  pose proof doc_open_file. pose proof doc_save_to_xml.
  destruct c; cbn [perform]; unfold highlight, set_color, set_tool, set_mode, set_style;
    doc_run.
Qed.

Lemma doc_sound_init argv disk : doc_sound (init argv disk).
Proof.
  unfold doc_sound, allocated. cbn. split_and!; try apply NoDup_nil_2.
  all: intros; by apply elem_of_nil in H.
Qed.

(** However the editor is driven, no shape object is ever listed twice in
    the document, nor in the selection. *)
Theorem no_shape_is_listed_twice fo bb nm (El : Type) fs wr argv disk (cs : list Command) :
  let s := mainloop fo bb nm El fs wr cs (init argv disk) in
  NoDup (shape_object s) ∧ NoDup (selected_shapes s).
Proof.
  cbv zeta.
  assert (HI : doc_sound (mainloop fo bb nm El fs wr cs (init argv disk))).
  { apply mainloop_keeps; [apply doc_perform|apply doc_sound_init]. }
  split; apply HI.
Qed.

(** ** The canvas side *)

Lemma canvas_tk_create k cs f o sm :
  hoare canvas_sound (tk_create k cs f o sm) (fun id s => canvas_sound s ∧ unused id s)
    canvas_sound.
Proof.
  intros s (Hpos & Hh & Hinj & Hit & Htx & Hth). unfold tk_create, Tk.create. cbn.
  split.
  - unfold canvas_sound. cbn. split_and!; try done.
    + lia.
    + intros r i Hi. specialize (Hh r i Hi). lia.
    + intros i [it Hi]. destruct (decide (i = Tk.next_id (tk s))) as [-> |Hne]; [lia|].
      rewrite lookup_insert_ne in Hi by done. specialize (Hit i (mk_is_Some _ _ Hi)). lia.
    + intros i Hi. specialize (Htx i Hi). lia.
  - unfold unused. cbn. split_and!; try lia.
    + intros r Hr. specialize (Hh r _ Hr). lia.
    + intros Hi. specialize (Htx _ Hi). lia.
Qed.

Lemma canvas_tk_create_kept k cs f o sm : preserves canvas_sound (tk_create k cs f o sm).
Proof.
  eapply hoare_conseq; [apply canvas_tk_create| | |]; try done. by intros _ s [? _].
Qed.

Lemma canvas_set_handle sh id :
  hoare (fun s => canvas_sound s ∧ unused id s)
    (o <- shape sh ;; set_shape sh (set_shape_id (Some id) o)) (fun _ => canvas_sound)
    canvas_sound.
Proof.
  intros s [(Hpos & Hh & Hinj & Hit & Htx & Hth) (Hid & Hnew & Hnt)]. cbn.
  unfold canvas_sound. cbn. split_and!; try done.
  - intros r i. unfold upd. destruct (Nat.eqb r sh); [|apply Hh]. cbn. by intros [= <-].
  - intros r r' i. unfold upd.
    destruct (Nat.eqb_spec r sh) as [-> |Hr], (Nat.eqb_spec r' sh) as [-> |Hr']; cbn.
    + done.
    + intros [= <-] Hi. by destruct (Hnew r').
    + intros Hi [= <-]. by destruct (Hnew r).
    + apply Hinj.
  - intros r i. unfold upd. destruct (Nat.eqb r sh); [|apply Hth]. cbn. by intros [= <-].
Qed.

Lemma canvas_text_append id :
  hoare (fun s => canvas_sound s ∧ unused id s)
    (update (fun s => with_properties_text_ids (properties_text_ids s ++ [id]) s))
    (fun _ => canvas_sound) canvas_sound.
Proof.
  intros s [(Hpos & Hh & Hinj & Hit & Htx & Hth) (Hid & Hnew & Hnt)]. cbn.
  unfold canvas_sound. cbn. split_and!; try done.
  - intros i [Hi| ->%list_elem_of_singleton]%elem_of_app; [by apply Htx|done].
  - intros r i Hi [Ht| ->%list_elem_of_singleton]%elem_of_app.
    + by apply (Hth r i).
    + by apply (Hnew r).
Qed.

Lemma canvas_modify sh (f : Shape → Shape) :
  (∀ o, shape_id (f o) = shape_id o) →
  preserves canvas_sound (o <- shape sh ;; set_shape sh (f o)).
Proof.
  intros Hf s (Hpos & Hh & Hinj & Hit & Htx & Hth). cbn.
  assert (Hsame : ∀ r, shape_id (upd sh (f (shape_heap s sh)) (shape_heap s) r) =
                       shape_id (shape_heap s r)).
  { intros r. unfold upd. destruct (Nat.eqb_spec r sh) as [-> |]; [apply Hf|done]. }
  unfold canvas_sound. cbn. split_and!; try done.
  - intros r i. rewrite Hsame. apply Hh.
  - intros r r' i. rewrite !Hsame. apply Hinj.
  - intros r i. rewrite Hsame. apply Hth.
Qed.

Lemma canvas_modify_then {A} sh (f : Shape → Shape) (k : M A) :
  (∀ o, shape_id (f o) = shape_id o) →
  preserves canvas_sound k →
  preserves canvas_sound (o <- shape sh ;; set_shape sh (f o) ;; k).
Proof.
  intros Hf Hk s HI. pose proof (canvas_modify sh f Hf s HI) as Hm.
  unfold bind, shape, get, set_shape, update in Hm |- *. by apply Hk.
Qed.

Lemma canvas_new_shape v : shape_id v = None → preserves canvas_sound (new_shape v).
Proof.
  intros Hv s (Hpos & Hh & Hinj & Hit & Htx & Hth). cbn.
  assert (Hold : ∀ r i, shape_id (upd (next_shape s) v (shape_heap s) r) = Some i →
                        shape_id (shape_heap s r) = Some i ∧ r ≠ next_shape s).
  { intros r i. unfold upd. destruct (Nat.eqb_spec r (next_shape s)) as [-> |]; [|done].
    by rewrite Hv. }
  unfold canvas_sound. cbn. split_and!; try done.
  - intros r i [Hi _]%Hold. by apply (Hh r).
  - intros r r' i [Hi _]%Hold [Hi' _]%Hold. by apply (Hinj r r' i).
  - intros r i [Hi _]%Hold. by apply (Hth r).
Qed.

Lemma canvas_items_shrink (f : Tk.Canvas → Tk.Canvas) :
  (∀ c, Tk.next_id (f c) = Tk.next_id c) →
  (∀ c i, is_Some (Tk.items (f c) !! i) → is_Some (Tk.items c !! i)) →
  preserves canvas_sound (update (fun s => with_tk (f (tk s)) s)).
Proof.
  intros Hn Hsub s (Hpos & Hh & Hinj & Hit & Htx & Hth). cbn.
  unfold canvas_sound. cbn. rewrite !Hn. split_and!; try done.
  intros i Hi. apply Hit. by apply Hsub.
Qed.

Lemma canvas_delete id :
  preserves canvas_sound (update (fun s => with_tk (Tk.delete id (tk s)) s)).
Proof.
  apply (canvas_items_shrink (Tk.delete id)); [done|].
  intros c i [it Hi]. cbn in Hi. apply lookup_delete_Some in Hi as [_ Hi]. by eexists.
Qed.

Lemma canvas_delete_all :
  preserves canvas_sound (update (fun s => with_tk (Tk.delete_all (tk s)) s)).
Proof.
  apply (canvas_items_shrink Tk.delete_all); [done|].
  intros c i [it Hi]. cbn in Hi. by rewrite lookup_empty in Hi.
Qed.

Lemma canvas_on_item g id :
  preserves canvas_sound (update (fun s => with_tk (Tk.on_item g id (tk s)) s)).
Proof.
  apply (canvas_items_shrink (Tk.on_item g id)); [done|].
  intros c i [it Hi]. cbn in Hi. destruct (decide (i = id)) as [-> |Hne].
  - rewrite lookup_alter_eq in Hi. by destruct (Tk.items c !! id) eqn:E.
  - rewrite lookup_alter_ne in Hi by done. by eexists.
Qed.

Lemma canvas_move id dx dy :
  preserves canvas_sound (update (fun s => with_tk (Tk.move id dx dy (tk s)) s)).
Proof. apply canvas_on_item. Qed.

Lemma canvas_itemconfig_width id w :
  preserves canvas_sound (update (fun s => with_tk (Tk.itemconfig_width id w (tk s)) s)).
Proof. apply canvas_on_item. Qed.

Lemma canvas_itemconfig_fill id f :
  preserves canvas_sound (update (fun s => with_tk (Tk.itemconfig_fill id f (tk s)) s)).
Proof. apply canvas_on_item. Qed.

Lemma canvas_clear_texts : preserves canvas_sound (update (with_properties_text_ids [])).
Proof.
  intros s (Hpos & Hh & Hinj & Hit & Htx & Hth). cbn. unfold canvas_sound. cbn.
  split_and!; try done.
  - intros i Hi. by apply elem_of_nil in Hi.
  - intros r i _ Hi. by apply elem_of_nil in Hi.
Qed.

#[local] Hint Resolve canvas_tk_create_kept canvas_delete canvas_delete_all canvas_move
  canvas_itemconfig_width canvas_itemconfig_fill canvas_clear_texts : hoare.

(** The places where an id just handed out is stored, and where a shape
    object is read, changed and written back. *)
Ltac canvas_special :=
  lazymatch goal with
  | |- hoare canvas_sound (bind (tk_create _ _ _ _ _) _) _ _ =>
      apply (hoare_bind (fun id s => canvas_sound s ∧ unused id s)); [apply canvas_tk_create|];
      intros ?; first [apply canvas_set_handle | apply canvas_text_append]
  | |- hoare canvas_sound (bind (shape ?sh) (fun o => bind (set_shape ?sh (@?f o)) (fun _ => ?k)))
         _ _ =>
      apply (canvas_modify_then sh f k); [reflexivity|]
  | |- hoare canvas_sound (bind (shape ?sh) (fun o => set_shape ?sh (@?f o))) _ _ =>
      apply (canvas_modify sh f); reflexivity
  | |- hoare canvas_sound (new_shape _) _ _ => apply canvas_new_shape; reflexivity
  end.

Ltac canvas_run := repeat first [canvas_special | hoare_step].

Lemma canvas_Shape_update sh a b c d : preserves canvas_sound (Shape_update sh a b c d).
Proof.
  unfold Shape_update, Line_update, Rectangle_update, draw_rounded_rectangle, create_line,
    create_rectangle, create_polygon, tk_delete.
  canvas_run.
Qed.

#[local] Hint Resolve canvas_Shape_update : hoare.

Lemma canvas_redraw_shapes : preserves canvas_sound redraw_shapes.
Proof. unfold redraw_shapes, int_arg, Line_init, Rectangle_init, append_shape_object. canvas_run. Qed.

Lemma canvas_draw_shape a b c d : preserves canvas_sound (draw_shape a b c d).
Proof. unfold draw_shape. canvas_run. Qed.

Lemma canvas_clear_properties_text : preserves canvas_sound clear_properties_text.
Proof. unfold clear_properties_text, tk_delete. canvas_run. Qed.

Lemma canvas_delete_shape : preserves canvas_sound delete_shape.
Proof. unfold delete_shape, tk_delete, remove_shape_object. canvas_run. Qed.

#[local] Hint Resolve canvas_redraw_shapes canvas_draw_shape canvas_clear_properties_text
  canvas_delete_shape : hoare.

Lemma canvas_copy_shape : preserves canvas_sound copy_shape.
Proof.
  unfold copy_shape, tk_coords, tk_type, tk_itemcget, need_item, Line_init, Rectangle_init,
    append_shape_object.
  canvas_run.
Qed.

Lemma canvas_update_rectangle_style i st c :
  preserves canvas_sound (update_rectangle_style i st c).
Proof.
  unfold update_rectangle_style, tk_coords, need_item, Rectangle_init, draw_rounded_rectangle,
    create_polygon, create_rectangle.
  repeat first [ lazymatch goal with
                 | |- hoare canvas_sound (new_shape _) _ _ => apply canvas_new_shape; reflexivity
                 end
               | hoare_step ].
Qed.

#[local] Hint Resolve canvas_copy_shape canvas_update_rectangle_style : hoare.

Lemma canvas_edit_selected_shape c st : preserves canvas_sound (edit_selected_shape c st).
Proof.
  unfold edit_selected_shape, show_popup_message, tk_type, need_item, tk_itemconfig_fill.
  canvas_run.
Qed.

Lemma canvas_move_one sh dx dy : preserves canvas_sound (move_one sh dx dy).
Proof.
  unfold move_one, remove_shape_object, tk_move, need_item, append_shape_object. canvas_run.
Qed.

#[local] Hint Resolve canvas_edit_selected_shape canvas_move_one : hoare.

Lemma canvas_move_shape event : preserves canvas_sound (move_shape event).
Proof. unfold move_shape, tk_coords, need_item. canvas_run. Qed.

#[local] Hint Resolve canvas_move_shape : hoare.

Lemma canvas_on_click event : preserves canvas_sound (on_click event).
Proof. unfold on_click, tk_itemconfig_width. canvas_run. Qed.

Lemma canvas_group_shapes : preserves canvas_sound group_shapes.
Proof.
  unfold group_shapes, show_popup_message, add_shapes, add_group, set_group.
  assert (preserves canvas_sound (new_group Group.new)) by (by intros s HI).
  canvas_run.
Qed.

Lemma canvas_ungroup_shapes : preserves canvas_sound ungroup_shapes.
Proof.
  unfold ungroup_shapes, show_popup_message.
  assert (∀ g sh, preserves canvas_sound (remove_shapes g sh)).
  { intros g sh. unfold remove_shapes, set_group. canvas_run. }
  canvas_run.
Qed.

Lemma canvas_select_overlapping ids : preserves canvas_sound (select_overlapping ids).
Proof. unfold select_overlapping, select. canvas_run. Qed.

#[local] Hint Resolve canvas_on_click canvas_group_shapes canvas_ungroup_shapes
  canvas_select_overlapping : hoare.

Lemma canvas_highlight fo bb nm x1 y1 x2 y2 :
  preserves canvas_sound (highlight_shapes_in_area fo bb nm x1 y1 x2 y2).
Proof.
  unfold highlight_shapes_in_area, anchor, tk_delete, tk_itemconfig_width, tk_bbox,
    tk_type, tk_itemcget, tk_gettags, need_item, create_text.
  canvas_run.
Qed.

#[local] Hint Resolve canvas_highlight : hoare.

Lemma canvas_on_drag fo bb nm event :
  preserves canvas_sound (on_drag (highlight_shapes_in_area fo bb nm) event).
Proof. unfold on_drag, anchor, Line_init, Rectangle_init, append_shape_object. canvas_run. Qed.

Lemma canvas_on_release fo bb nm event c st :
  preserves canvas_sound (on_release (highlight_shapes_in_area fo bb nm) event c st).
Proof. unfold on_release, finalize. canvas_run. Qed.

Lemma canvas_save_file name : preserves canvas_sound (save_file name).
Proof.
  unfold save_file, FileManager.save_file, construct_shape_from_shape_object, tk_type,
    need_item, shape_line.
  canvas_run.
Qed.

Lemma canvas_open_file ok name : preserves canvas_sound (open_file ok name).
Proof. unfold open_file, FileManager.open_file, tk_delete_all. canvas_run. Qed.

Lemma canvas_save_to_xml El fs wr name : preserves canvas_sound (save_to_xml El fs wr name).
Proof. unfold save_to_xml. canvas_run. Qed.

Lemma canvas_perform fo bb nm El fs wr c :
  preserves canvas_sound (perform fo bb nm El fs wr c).
Proof.
  pose proof canvas_on_drag. pose proof canvas_on_release. pose proof canvas_save_file.
  pose proof canvas_open_file. pose proof canvas_save_to_xml.
  destruct c; cbn [perform]; unfold highlight, set_color, set_tool, set_mode, set_style;
    canvas_run.
Qed.

Lemma canvas_sound_init argv disk : canvas_sound (init argv disk).
Proof.
  unfold canvas_sound. cbn. split_and!; try done.
  - intros i [it Hi]. by rewrite lookup_empty in Hi.
  - intros i Hi. by apply elem_of_nil in Hi.
Qed.

(** However the editor is driven, no two shape objects ever have the same
    handle, and no annotation text is ever the handle of a shape object. *)
Theorem no_handle_is_shared fo bb nm (El : Type) fs wr argv disk (cs : list Command) :
  let s := mainloop fo bb nm El fs wr cs (init argv disk) in
  (∀ r r' i, shape_id (shape_heap s r) = Some i → shape_id (shape_heap s r') = Some i →
             r = r') ∧
  (∀ r i, shape_id (shape_heap s r) = Some i → i ∉ properties_text_ids s).
Proof.
  cbv zeta.
  assert (HI : canvas_sound (mainloop fo bb nm El fs wr cs (init argv disk))).
  { apply mainloop_keeps; [apply canvas_perform|apply canvas_sound_init]. }
  split; apply HI.
Qed.

(** ** Flags that are set once *)

Ltac unfold_editor :=
  unfold highlight, set_color, set_tool, set_mode, set_style,
    open_file, FileManager.open_file, save_file, FileManager.save_file, save_to_xml,
    on_release, on_drag, on_click, highlight_shapes_in_area, select_overlapping, select,
    ungroup_shapes, group_shapes, edit_selected_shape, update_rectangle_style,
    move_shape, move_one, copy_shape, delete_shape, draw_shape, redraw_shapes, int_arg,
    construct_shape_from_shape_object, shape_line, clear_properties_text,
    remove_shape_object, append_shape_object, show_popup_message, finalize,
    Shape_update, Rectangle_update, Line_update, draw_rounded_rectangle, add_group, add_shapes,
    remove_shapes, Rectangle_init, Line_init, anchor,
    tk_bbox, tk_gettags, create_text, tk_itemconfig_fill, tk_itemconfig_width, tk_itemcget,
    tk_move, tk_coords, tk_type, tk_delete_all, tk_delete, create_polygon, create_rectangle,
    create_line, need_item, set_group, set_shape.

Lemma unsaved_perform fo bb nm El fs wr c :
  preserves (fun s => unsaved_changes s = false) (perform fo bb nm El fs wr c).
Proof. destruct c; cbn [perform]; unfold_editor; hoare_run. Qed.

Lemma opened_perform fo bb nm El fs wr c :
  preserves (fun s => file_opened s = true) (perform fo bb nm El fs wr c).
Proof. destruct c; cbn [perform]; unfold_editor; hoare_run. Qed.

Lemma moving_perform fo bb nm El fs wr c :
  preserves (fun s => moving s = true) (perform fo bb nm El fs wr c).
Proof. destruct c; cbn [perform]; unfold_editor; hoare_run. Qed.

(** [FileManager.unsaved_changes] is initialised to [False] and every
    assignment to it stores [False]: however the editor is driven the flag
    is down, and Open goes on without asking for confirmation, whatever the
    answer to the question would have been. *)
Theorem open_never_asks_for_confirmation fo bb nm (El : Type) fs wr argv disk
    (cs : list Command) :
  let s := mainloop fo bb nm El fs wr cs (init argv disk) in
  unsaved_changes s = false ∧
  ∀ askopenfilename, open_file false askopenfilename s = open_file true askopenfilename s.
Proof.
  cbv zeta.
  assert (HI : unsaved_changes (mainloop fo bb nm El fs wr cs (init argv disk)) = false).
  { apply (mainloop_keeps fo bb nm El fs wr (fun s => unsaved_changes s = false));
      [apply unsaved_perform|reflexivity]. }
  split; [exact HI|]. intros name.
  unfold open_file, FileManager.open_file.
  unfold bind at 1. unfold get at 1. symmetry. unfold bind at 1. unfold get at 1.
  rewrite HI. reflexivity.
Qed.

Lemma draw_shape_after_open a b c d s :
  file_opened s = true → tk (draw_shape a b c d s).2 = tk s.
Proof.
  intros Ho. unfold draw_shape, bind at 1, get at 1.
  destruct (current_shape s) as [[sh|id]|]; [| |reflexivity].
  - unfold bind at 1, get at 1. rewrite Ho. reflexivity.
  - destruct (id =? 0); [reflexivity|].
    unfold bind at 1, get at 1. rewrite Ho. reflexivity.
Qed.

(** [file_opened] is set when Open has a file name and is never reset.
    From then on [draw_shape] no longer calls [update]: whatever is dragged
    in draw mode afterwards is added to the document and not to the
    canvas. *)
Theorem nothing_is_drawn_after_an_open fo bb nm (El : Type) fs wr
    (s : State) (cs : list Command) :
  file_opened s = true →
  let s' := mainloop fo bb nm El fs wr cs s in
  file_opened s' = true ∧
  ∀ event, mode s' = "draw" →
    tk (callback (perform fo bb nm El fs wr (Motion event)) s') = tk s'.
Proof.
  intros Ho. cbv zeta.
  assert (HI : file_opened (mainloop fo bb nm El fs wr cs s) = true).
  { apply (mainloop_keeps fo bb nm El fs wr (fun s => file_opened s = true));
      [apply opened_perform|exact Ho]. }
  split; [exact HI|]. intros event Hm.
  set (s' := mainloop fo bb nm El fs wr cs s) in *.
  unfold callback. cbn [perform]. unfold on_drag, bind at 1, get at 1. rewrite Hm.
  unfold bind at 1, get at 1. unfold bind at 1, get at 1. unfold bind at 1, get at 1.
  rewrite bool_decide_eq_false_2 by (by vm_compute; intros H%list_elem_of_In; cbn in H; intuition discriminate).
  rewrite bool_decide_eq_false_2 by done. cbn [andb].
  rewrite bool_decide_eq_true_2 by done.
  unfold bind at 1. unfold anchor at 1.
  destruct (start_x s') as [ax|]; [|reflexivity]. unfold ret at 1.
  unfold bind at 1. unfold anchor at 1.
  destruct (start_y s') as [ay|]; [|reflexivity]. unfold ret at 1.
  unfold bind at 1, get at 1. unfold bind at 1, get at 1. unfold bind at 1, get at 1.
  unfold bind at 1.
  destruct (Py.truthy (current_tool s')); [|unfold ret at 1; by apply draw_shape_after_open].
  case_bool_decide.
  { unfold Line_init, bind at 1, new_shape at 1. unfold bind at 1, update at 1.
    unfold append_shape_object, update at 1.
    rewrite draw_shape_after_open; reflexivity || exact HI. }
  case_bool_decide.
  { unfold Rectangle_init, bind at 1, new_shape at 1. unfold bind at 1, update at 1.
    unfold append_shape_object, update at 1.
    rewrite draw_shape_after_open; reflexivity || exact HI. }
  unfold ret at 1. by apply draw_shape_after_open.
Qed.

(** [moving] is set by the first [move_shape] and never reset: from then
    on, dragging in move mode selects nothing any more and changes
    nothing. *)
Theorem area_selection_for_a_move_works_once fo bb nm (El : Type) fs wr
    (s : State) (cs : list Command) :
  moving s = true →
  let s' := mainloop fo bb nm El fs wr cs s in
  moving s' = true ∧
  ∀ event, mode s' = "move" →
    perform fo bb nm El fs wr (Motion event) s' = (Py.Ok tt, s').
Proof.
  intros Ho. cbv zeta.
  assert (HI : moving (mainloop fo bb nm El fs wr cs s) = true).
  { apply (mainloop_keeps fo bb nm El fs wr (fun s => moving s = true));
      [apply moving_perform|exact Ho]. }
  split; [exact HI|]. intros event Hm.
  set (s' := mainloop fo bb nm El fs wr cs s) in *.
  cbn [perform]. unfold on_drag, bind at 1, get at 1. rewrite Hm.
  unfold bind at 1, get at 1. unfold bind at 1, get at 1. unfold bind at 1, get at 1.
  rewrite HI.
  rewrite bool_decide_eq_false_2 by (by vm_compute; intros H%list_elem_of_In; cbn in H; intuition discriminate).
  rewrite bool_decide_eq_true_2 by done. cbn [andb negb].
  rewrite bool_decide_eq_false_2 by done. reflexivity.
Qed.

(** ** Editing, whatever is answered *)

Lemma edit_selected_shape_single sh id c st s :
  selected_shapes s = [sh] →
  shape_id (shape_heap s sh) = Some id →
  edit_selected_shape c st s =
  (edit_prompts (Some id) (Tk.type id (tk s)) c st ;; delete_shape ;; clear_properties_text) s.
Proof.
  intros Hsel Hid.
  unfold edit_selected_shape, bind at 1, get at 1. rewrite Hsel. cbn [length Nat.ltb Nat.leb].
  unfold bind at 1, lift at 1. cbn [Py.index lookup list_lookup].
  unfold bind at 1, shape at 1, get at 1. rewrite Hid.
  unfold bind at 1, tk_type at 1, bind at 1, need_item at 1, ret at 1, get at 1.
  reflexivity.
Qed.

Lemma update_rectangle_style_run id st col s c0 c1 c2 c3 rest :
  Tk.get_coords id (tk s) = c0 :: c1 :: c2 :: c3 :: rest →
  update_rectangle_style (Some id) st col s = (Py.Ok tt, restyled c0 c1 c2 c3 st col s).
Proof.
  intros Hc. unfold update_rectangle_style, bind at 1, tk_coords at 1, bind at 1, need_item, ret at 1,
    get at 1. rewrite Hc.
  unfold restyled. cbv zeta.
  unfold bind at 1, lift at 1. cbn [Py.index lookup list_lookup].
  unfold bind at 1, lift at 1. cbn [Py.index lookup list_lookup].
  unfold bind at 1, lift at 1. cbn [Py.index lookup list_lookup].
  unfold bind at 1, lift at 1. cbn [Py.index lookup list_lookup].
  unfold bind at 1, Rectangle_init at 1, new_shape at 1.
  unfold bind at 1, update at 1.
  case_bool_decide as Hr.
  - unfold bind, draw_rounded_rectangle, create_polygon, tk_create, ret. reflexivity.
  - case_bool_decide as Hs; [|reflexivity].
    unfold bind, create_rectangle, tk_create, update. reflexivity.
Qed.

Lemma restyled_frame c0 c1 c2 c3 st col s :
  let s1 := restyled c0 c1 c2 c3 st col s in
  selected_shapes s1 = selected_shapes s ∧
  shape_object s1 = shape_object s ∧
  properties_text_ids s1 = properties_text_ids s ∧
  group_heap s1 = group_heap s ∧
  popups s1 = popups s ∧
  shape_heap s1 = upd (next_shape s)
                    {| cls := Rectangle; x1 := c0; y1 := c1; x2 := c2; y2 := c3; color := col;
                       style := Some st; shape_id := None; groups := [] |} (shape_heap s) ∧
  (∀ i, i ≠ Tk.next_id (tk s) → Tk.items (tk s1) !! i = Tk.items (tk s) !! i).
Proof.
  unfold restyled. cbv zeta.
  case_bool_decide; [|case_bool_decide]; cbn; split_and!; try reflexivity.
  all: intros i Hi; try done; by rewrite lookup_insert_ne.
Qed.

(** The prompts change nothing the deletion depends on. *)
Lemma edit_prompts_run id c st s :
  (Tk.type id (tk s) = Some "rectangle" → (4 ≤ length (Tk.get_coords id (tk s)))%nat) →
  ∃ s1,
    edit_prompts (Some id) (Tk.type id (tk s)) c st s = (Py.Ok tt, s1) ∧
    selected_shapes s1 = selected_shapes s ∧
    shape_object s1 = shape_object s ∧
    properties_text_ids s1 = properties_text_ids s ∧
    group_heap s1 = group_heap s ∧
    popups s1 = popups s ∧
    (∀ r, r ≠ next_shape s → shape_heap s1 r = shape_heap s r) ∧
    (∀ r i, shape_id (shape_heap s1 r) = Some i → shape_id (shape_heap s r) = Some i) ∧
    (∀ i, i ≠ Tk.next_id (tk s) → Tk.items (tk s) !! i = None → Tk.items (tk s1) !! i = None).
Proof.
  intros Hlen. unfold edit_prompts.
  assert (Hsame : ∃ s1, @ret unit tt s = (Py.Ok tt, s1) ∧
    selected_shapes s1 = selected_shapes s ∧ shape_object s1 = shape_object s ∧
    properties_text_ids s1 = properties_text_ids s ∧ group_heap s1 = group_heap s ∧
    popups s1 = popups s ∧
    (∀ r, r ≠ next_shape s → shape_heap s1 r = shape_heap s r) ∧
    (∀ r i, shape_id (shape_heap s1 r) = Some i → shape_id (shape_heap s r) = Some i) ∧
    (∀ i, i ≠ Tk.next_id (tk s) → Tk.items (tk s) !! i = None → Tk.items (tk s1) !! i = None)).
  { exists s. by split_and!. }
  case_bool_decide as Hrect.
  - destruct st as [st|], c as [c|]; try exact Hsame.
    destruct (Py.truthy (Some st) && Py.truthy (Some c)); [|exact Hsame].
    specialize (Hlen Hrect).
    destruct (Tk.get_coords id (tk s)) as [|c0 [|c1 [|c2 [|c3 rest]]]] eqn:Hc;
      try (simpl in Hlen; lia).
    rewrite (update_rectangle_style_run _ _ _ _ _ _ _ _ _ Hc).
    destruct (restyled_frame c0 c1 c2 c3 st c s) as (H1 & H2 & H3 & H4 & H5 & H6 & H7).
    eexists. split; [reflexivity|]. split_and!; try done.
    + intros r Hr. rewrite H6. by apply upd_other.
    + intros r i. rewrite H6. unfold upd. by destruct (Nat.eqb r (next_shape s)).
    + intros i Hi Hn. by rewrite H7.
  - case_bool_decide as Hline; [|exact Hsame].
    destruct c as [c|]; [|exact Hsame].
    destruct (Py.truthy (Some c)); [|exact Hsame].
    eexists. split; [reflexivity|]. cbn. split_and!; try done.
    intros i _ Hn. destruct (decide (i = id)) as [-> |Hne].
    + rewrite lookup_alter_eq. by rewrite Hn.
    + by rewrite lookup_alter_ne.
Qed.

Lemma edit_selected_shape_run s sh id c st :
  selected_shapes s = [sh] →
  shape_id (shape_heap s sh) = Some id →
  sh ∈ shape_object s →
  (sh < next_shape s)%nat →
  (Tk.type id (tk s) = Some "rectangle" → (4 ≤ length (Tk.get_coords id (tk s)))%nat) →
  ∃ s1 objs',
    edit_prompts (Some id) (Tk.type id (tk s)) c st s = (Py.Ok tt, s1) ∧
    Py.remove sh (shape_object s) = Py.Ok objs' ∧
    edit_selected_shape c st s =
    (Py.Ok tt,
     with_properties_text_ids []
       (with_tk (fold_left (fun c t => Tk.delete t c) (properties_text_ids s)
                   (Tk.delete id (tk s1)))
          (with_selected_shapes [] (with_shape_object objs' s1)))).
Proof.
  intros Hsel Hid Hin Hlt Hlen.
  destruct (remove_member sh (shape_object s) Hin) as [objs' Hrm].
  destruct (edit_prompts_run id c st s Hlen)
    as (s1 & Hrun & Hsel1 & Hdoc1 & Htx1 & _ & Hpop1 & Hheap1 & _ & _).
  exists s1, objs'. split; [exact Hrun|]. split; [exact Hrm|].
  rewrite (edit_selected_shape_single sh id) by done.
  unfold bind at 1. rewrite Hrun.
  unfold bind at 1. rewrite delete_shape_run, Hsel1, Hsel, Hdoc1. cbn [delete_rounds]. rewrite Hrm.
  unfold item_deleted. rewrite Hheap1 by lia. rewrite Hid.
  unfold clear_properties_text, bind at 1, get at 1. cbn [properties_text_ids with_selected_shapes
    with_shape_object with_tk]. rewrite Htx1.
  unfold bind at 1. rewrite clear_texts_run. unfold update. reflexivity.
Qed.

Lemma kept_unless_deleted ids : ∀ c i,
  i ∉ ids → Tk.items (fold_left (fun c t => Tk.delete t c) ids c) !! i = Tk.items c !! i.
Proof.
  induction ids as [|t ids IH]; intros c i Hni; cbn [fold_left]; [done|].
  apply not_elem_of_cons in Hni as [Hne Hni]. rewrite IH by done.
  cbn. by apply lookup_delete_ne.
Qed.

(** Whatever the selected shape is, and whether the user cancels the
    colour prompt, leaves it empty or answers with a colour of the menus,
    whatever is answered for the style, the edit ends by deleting the
    shape: it leaves the document, its item leaves the canvas, and no
    shape object that existed is changed. *)
Theorem edit_always_deletes_the_shape
    (s : State) (sh : nat) (id : Z) (new_color new_style : option string) :
  selected_shapes s = [sh] →
  shape_id (shape_heap s sh) = Some id →
  sh ∈ shape_object s →
  (sh < next_shape s)%nat →
  (Tk.type id (tk s) = Some "rectangle" → (4 ≤ length (Tk.get_coords id (tk s)))%nat) →
  (∀ col, new_color = Some col → col = "" ∨ menu_colour col) →
  ∃ s' objs',
    edit_selected_shape new_color new_style s = (Py.Ok tt, s') ∧
    Py.remove sh (shape_object s) = Py.Ok objs' ∧
    shape_object s' = objs' ∧
    Tk.items (tk s') !! id = None ∧
    selected_shapes s' = [] ∧
    (∀ r, (r < next_shape s)%nat → shape_heap s' r = shape_heap s r) ∧
    popups s' = popups s.
Proof.
  intros Hsel Hid Hin Hlt Hlen _.
  destruct (edit_selected_shape_run s sh id new_color new_style)
    as (s1 & objs' & Hrun & Hrm & Hedit); try done.
  destruct (edit_prompts_run id new_color new_style s Hlen)
    as (s1' & Hrun' & _ & _ & _ & _ & Hpop1 & Hheap1 & _ & _).
  rewrite Hrun in Hrun'. injection Hrun' as <-.
  eexists _, objs'. split; [exact Hedit|].
  cbn [shape_object selected_shapes tk shape_heap popups with_properties_text_ids with_tk
       with_selected_shapes with_shape_object].
  split_and!; try done.
  - apply deleted_stays_deleted. cbn. apply lookup_delete_eq.
  - intros r Hr. apply Hheap1. lia.
Qed.

(** An edit of a rectangle that is answered with a colour of the menus
    and a style: [update_rectangle_style] draws a new item, in that colour
    and with the old coordinates when the style is [s], without touching
    the old item and without storing the new one in a shape object;
    [delete_shape] then deletes the old item and takes the rectangle out
    of the document.  The new item stays on the canvas as the handle of no
    shape object. *)
Theorem edited_rectangle_belongs_to_no_shape
    (s : State) (sh : nat) (id : Z) (it : Tk.Item) (col st : string) :
  canvas_sound s →
  selected_shapes s = [sh] →
  shape_id (shape_heap s sh) = Some id →
  sh ∈ shape_object s →
  (sh < next_shape s)%nat →
  Tk.items (tk s) !! id = Some it →
  Tk.kind it = Tk.KRectangle →
  length (Tk.coords it) = 4%nat →
  menu_colour col →
  st = "s" ∨ st = "r" →
  ∃ s' objs' new_it,
    edit_selected_shape (Some col) (Some st) s = (Py.Ok tt, s') ∧
    Py.remove sh (shape_object s) = Py.Ok objs' ∧
    shape_object s' = objs' ∧
    Tk.items (tk s') !! id = None ∧
    Tk.items (tk s') !! Tk.next_id (tk s) = Some new_it ∧
    Tk.kind new_it = (if bool_decide (st = "s") then Tk.KRectangle else Tk.KPolygon) ∧
    Tk.outline new_it = col ∧
    (st = "s" → Tk.coords new_it = Tk.coords it) ∧
    (∀ r, shape_id (shape_heap s' r) ≠ Some (Tk.next_id (tk s))).
Proof.
  intros (Hpos & Hh & Hinj & Hit & Htx & Hth) Hsel Hid Hin Hlt Hitem Hkind Hlen Hmenu Hst.
  assert (Hcol : col ≠ "") by (destruct Hmenu as [[] ->]; done).
  assert (Htype : Tk.type id (tk s) = Some "rectangle").
  { unfold Tk.type. rewrite Hitem, Hkind. reflexivity. }
  assert (Hcoords : Tk.get_coords id (tk s) = map Py.PyFloat (Tk.coords it)).
  { unfold Tk.get_coords. by rewrite Hitem. }
  destruct (Tk.coords it) as [|q0 [|q1 [|q2 [|q3 [|]]]]] eqn:Hqs; try done.
  cbn [map] in Hcoords.
  destruct (edit_selected_shape_run s sh id (Some col) (Some st))
    as (s1 & objs' & Hrun & Hrm & Hedit); try done.
  { intros _. rewrite Hcoords. simpl. lia. }
  assert (Hs1 : s1 = restyled (Py.PyFloat q0) (Py.PyFloat q1) (Py.PyFloat q2) (Py.PyFloat q3)
                      st col s).
  { revert Hrun. unfold edit_prompts. rewrite Htype. rewrite bool_decide_eq_true_2 by done.
    assert (Py.truthy (Some st) && Py.truthy (Some col) = true) as ->.
    { destruct col; [done|]. by destruct Hst as [-> | ->]. }
    rewrite (update_rectangle_style_run _ _ _ _ _ _ _ _ _ Hcoords). by intros [= <-]. }
  assert (Hn_id : Tk.next_id (tk s) ≠ id).
  { specialize (Hit id (mk_is_Some _ _ Hitem)). lia. }
  assert (Hn_tx : Tk.next_id (tk s) ∉ properties_text_ids s).
  { intros Hi. specialize (Htx _ Hi). lia. }
  assert (Hnew : ∃ new_it,
            Tk.items (tk s1) !! Tk.next_id (tk s) = Some new_it ∧
            Tk.kind new_it = (if bool_decide (st = "s") then Tk.KRectangle else Tk.KPolygon) ∧
            Tk.outline new_it = col ∧
            (st = "s" → Tk.coords new_it = [q0; q1; q2; q3])).
  { rewrite Hs1. unfold restyled. cbv zeta. destruct Hst as [-> | ->].
    - rewrite bool_decide_eq_false_2 by done. rewrite !bool_decide_eq_true_2 by done.
      cbn. rewrite lookup_insert_eq. eexists. by split_and!.
    - rewrite bool_decide_eq_true_2 by done. rewrite bool_decide_eq_false_2 by done.
      cbn. rewrite lookup_insert_eq. eexists. by split_and!. }
  destruct Hnew as (new_it & Hlook & Hk & Ho & Hc).
  eexists _, objs', new_it. split; [exact Hedit|].
  cbn [shape_object selected_shapes tk shape_heap popups with_properties_text_ids with_tk
       with_selected_shapes with_shape_object].
  split_and!; try done.
  - apply deleted_stays_deleted. cbn. apply lookup_delete_eq.
  - rewrite kept_unless_deleted by done. cbn. by rewrite lookup_delete_ne.
  - intros r Hr.
    destruct (restyled_frame (Py.PyFloat q0) (Py.PyFloat q1) (Py.PyFloat q2) (Py.PyFloat q3)
                st col s) as (_ & _ & _ & _ & _ & H6 & _).
    rewrite Hs1, H6 in Hr. unfold upd in Hr.
    destruct (Nat.eqb r (next_shape s)); [done|]. specialize (Hh r _ Hr). lia.
Qed.

(** ** The registered file *)

Lemma registered_perform fo bb nm El fs wr v c :
  is_open c = false →
  preserves (fun s => current_file s = v) (perform fo bb nm El fs wr c).
Proof. intros Hc. destruct c; try done; cbn [perform]; unfold_editor; hoare_run. Qed.

(** Only Open registers a file: as long as Open is not used, the current
    file is what the command line gave, and Save and Export, which write to
    the file the dialog returns, do not register it. *)
Theorem save_and_export_register_no_file fo bb nm (El : Type) fs wr argv disk
    (cs : list Command) :
  forallb (fun c => negb (is_open c)) cs = true →
  current_file (mainloop fo bb nm El fs wr cs (init argv disk)) = argv.
Proof.
  assert (Hgen : ∀ s, current_file s = argv →
            forallb (fun c => negb (is_open c)) cs = true →
            current_file (mainloop fo bb nm El fs wr cs s) = argv).
  { induction cs as [|c cs IH]; intros s Hs Hcs; [done|].
    cbn [forallb] in Hcs. apply andb_true_iff in Hcs as [Hc Hcs].
    cbn [mainloop fold_left]. apply IH; [|done].
    pose proof (registered_perform fo bb nm El fs wr argv c) as Hp.
    specialize (Hp (proj1 (negb_true_iff _) Hc) s Hs).
    unfold callback. by destruct (perform _ _ _ _ _ _ c s) as [[[]|e] s1]. }
  intros Hcs. by apply Hgen.
Qed.

Lemma written_elsewhere g f content (s0 : State) :
  g ≠ f →
  preserves (fun s => files s !! g = files s0 !! g)
    (update (fun s => with_files (<[f := content]> (files s)) s)).
Proof. intros Hg s Hs. cbn. by rewrite lookup_insert_ne. Qed.

(** Once a file is registered it is the target of Save and of Export
    alike, whatever the dialog would have returned: the text file that was
    opened is where the XML goes.  No other file is written. *)
Theorem registered_file_is_the_target (El : Type) fs wr (s : State) (f : string) :
  current_file s = Some f → f ≠ "" →
  ∀ name,
    save_file name s = save_file "" s ∧
    save_to_xml El fs wr name s = save_to_xml El fs wr "" s ∧
    ∀ g, g ≠ f →
      files (save_file name s).2 !! g = files s !! g ∧
      files (save_to_xml El fs wr name s).2 !! g = files s !! g.
Proof.
  intros Hcf Hf name.
  assert (Htarget : ∀ a, match current_file s with
                         | Some f0 => if Py.truthy (current_file s) then f0 else a
                         | None => a
                         end = f).
  { intros a. rewrite Hcf. by destruct f. }
  assert (Hsave : save_file name s = save_file "" s).
  { unfold save_file, FileManager.save_file.
    unfold bind at 1. unfold get at 1. symmetry. unfold bind at 1. unfold get at 1.
    by rewrite !Htarget. }
  assert (Hxml : save_to_xml El fs wr name s = save_to_xml El fs wr "" s).
  { unfold save_to_xml.
    unfold bind at 1. unfold get at 1. symmetry. unfold bind at 1. unfold get at 1.
    by rewrite !Htarget. }
  split; [exact Hsave|]. split; [exact Hxml|].
  intros g Hg.
  pose proof (written_elsewhere g f) as Hw.
  assert (Hpre : (fun s' => files s' !! g = files s !! g ∧ current_file s' = Some f) s) by done.
  split.
  - assert (Hk : hoare (fun s' => files s' !! g = files s !! g ∧ current_file s' = Some f)
                   (save_file name) (fun _ s' => files s' !! g = files s !! g)
                   (fun s' => files s' !! g = files s !! g)).
    { unfold save_file, FileManager.save_file.
      apply (hoare_bind (fun cf s' => files s' !! g = files s !! g ∧ cf = Some f)).
      { apply hoare_get. by intros s' [? ?]. }
      intros cf. apply hoare_pure. intros ->.
      assert ((if Py.truthy (Some f) then f else name) = f) as -> by (by destruct f).
      unfold construct_shape_from_shape_object, tk_type, need_item, shape_line.
      hoare_run. }
    specialize (Hk s Hpre). by destruct (save_file name s) as [[[]|e] s1].
  - assert (Hk : hoare (fun s' => files s' !! g = files s !! g ∧ current_file s' = Some f)
                   (save_to_xml El fs wr name) (fun _ s' => files s' !! g = files s !! g)
                   (fun s' => files s' !! g = files s !! g)).
    { unfold save_to_xml.
      apply (hoare_bind (fun cf s' => files s' !! g = files s !! g ∧ cf = Some f)).
      { apply hoare_get. by intros s' [? ?]. }
      intros cf. apply hoare_pure. intros ->.
      assert ((if Py.truthy (Some f) then f else name) = f) as -> by (by destruct f).
      hoare_run. }
    specialize (Hk s Hpre). by destruct (save_to_xml El fs wr name s) as [[[]|e] s1].
Qed.

(** ** Drawing with the pointer *)

Lemma on_drag_in_draw_mode hl event s ax ay :
  mode s = "draw" → start_x s = Some ax → start_y s = Some ay →
  on_drag hl event s = on_drag_draw ax ay event s.
Proof.
  intros Hm Hx Hy. unfold on_drag, bind at 1, get at 1. rewrite Hm.
  unfold bind at 1, get at 1. unfold bind at 1, get at 1. unfold bind at 1, get at 1.
  rewrite bool_decide_eq_false_2
    by (intros H%list_elem_of_In; cbn in H; intuition discriminate).
  rewrite bool_decide_eq_false_2 by done. cbn [andb].
  rewrite bool_decide_eq_true_2 by done.
  rewrite Hx, Hy. reflexivity.
Qed.

Lemma first_motion hl c p0 e1 s :
  mode s = "draw" → current_tool s = Some "line" → current_color s = c →
  start_x s = Some (Py.PyInt (ev_x p0)) → start_y s = Some (Py.PyInt (ev_y p0)) →
  file_opened s = false → 0 < Tk.next_id (tk s) →
  ∃ s', on_drag hl e1 s = (Py.Ok tt, s') ∧
        previewing c p0 e1 e1 (shape_object s) (shape_heap s) (next_shape s) s'.
Proof.
  intros Hm Ht Hc Hx Hy Ho Hpos.
  rewrite (on_drag_in_draw_mode _ _ _ _ _ Hm Hx Hy).
  unfold on_drag_draw. cbv zeta.
  unfold bind at 1, get at 1. rewrite Ht.
  unfold bind at 1, get at 1. rewrite Hc.
  unfold bind at 1, get at 1.
  cbn [Py.truthy]. rewrite bool_decide_eq_true_2 by done.
  unfold bind at 1. unfold bind at 1, Line_init at 1, new_shape at 1.
  unfold bind at 1, update at 1. unfold append_shape_object at 1, update at 1.
  unfold draw_shape, bind at 1, get at 1.
  cbn [current_shape with_shape_object with_current_shape with_next_shape with_shape_heap].
  unfold bind at 1, get at 1.
  cbn [file_opened with_shape_object with_current_shape with_next_shape with_shape_heap].
  rewrite Ho.
  unfold bind at 1. unfold Shape_update, bind at 1, shape at 1, get at 1.
  cbn [shape_heap with_shape_object with_current_shape with_next_shape with_shape_heap].
  rewrite upd_same. cbn [cls].
  unfold Line_update, bind at 1, shape at 1, get at 1.
  cbn [shape_heap with_shape_object with_current_shape with_next_shape with_shape_heap].
  rewrite upd_same. cbn [shape_id id_truthy color].
  unfold bind at 1, ret at 1. unfold bind at 1, create_line, tk_create, Tk.create.
  cbn [tk with_shape_object with_current_shape with_next_shape with_shape_heap].
  unfold bind at 1, shape at 1, get at 1.
  cbn [shape_heap with_tk with_shape_object with_current_shape with_next_shape with_shape_heap].
  rewrite upd_same. unfold set_shape, update.
  eexists. split; [reflexivity|].
  unfold previewing. cbn. rewrite Hm, Hx, Hy, Ho. split_and!; try done.
  - intros r Hr. rewrite !upd_other by done. reflexivity.
  - exists (Tk.next_id (tk s)). rewrite upd_same. split_and!; try done; try lia.
    by rewrite lookup_insert_eq.
Qed.

Lemma later_motion hl c p0 e1 last e D H n s :
  previewing c p0 e1 last D H n s →
  ∃ s', on_drag hl e s = (Py.Ok tt, s') ∧ previewing c p0 e1 e D H n s'.
Proof.
  intros (Hm & Ht & Hcur & Hx & Hy & Ho & Hdoc & Hn & Hheap & h & Hobj & Hh & Hitem).
  rewrite (on_drag_in_draw_mode _ _ _ _ _ Hm Hx Hy).
  unfold on_drag_draw. cbv zeta.
  unfold bind at 1, get at 1. rewrite Ht.
  unfold bind at 1, get at 1. unfold bind at 1, get at 1.
  cbn [Py.truthy]. unfold bind at 1, ret at 1.
  unfold draw_shape, bind at 1, get at 1. rewrite Hcur.
  unfold bind at 1, get at 1. rewrite Ho.
  unfold bind at 1. unfold Shape_update, bind at 1, shape at 1, get at 1.
  rewrite Hobj. cbn [cls].
  unfold Line_update, bind at 1, shape at 1, get at 1. rewrite Hobj.
  cbn [shape_id id_truthy color].
  assert ((h =? 0) = false) as -> by lia. cbn [negb].
  unfold bind at 1, tk_delete at 1, update at 1.
  unfold bind at 1, create_line, tk_create, Tk.create.
  cbn [tk with_tk Tk.next_id Tk.items Tk.delete].
  unfold bind at 1, shape at 1, get at 1. cbn [shape_heap with_tk]. rewrite Hobj.
  unfold set_shape, update.
  eexists. split; [reflexivity|].
  unfold previewing. cbn. rewrite Hm, Hx, Hy, Ho. split_and!; try done.
  - intros r Hr. rewrite upd_other by done. by apply Hheap.
  - exists (Tk.next_id (tk s)). rewrite upd_same. split_and!; try done; try lia.
    by rewrite lookup_insert_eq.
Qed.

Lemma last_cons_default {A} (l : list A) : ∀ a d, List.last (a :: l) d = List.last l a.
Proof.
  induction l as [|b l IH]; intros a d; [reflexivity|].
  change (List.last (a :: b :: l) d) with (List.last (b :: l) d). by rewrite !IH.
Qed.

Lemma later_motions fo bb nm El fs wr c p0 e1 D H n path : ∀ last s,
  previewing c p0 e1 last D H n s →
  previewing c p0 e1 (List.last path last) D H n
    (mainloop fo bb nm El fs wr (map Motion path) s).
Proof.
  induction path as [|e path IH]; intros last s Hs; [done|].
  cbn [map mainloop fold_left].
  destruct (later_motion (highlight fo bb nm) c p0 e1 last e D H n s Hs) as (s' & Hrun & Hs').
  unfold callback at 2. cbn [perform]. rewrite Hrun. cbn [snd].
  rewrite last_cons_default. by apply IH.
Qed.

Lemma press_to_draw c event s :
  mode s = "draw" → current_tool s = Some "line" → current_color s = c →
  file_opened s = false → 0 < Tk.next_id (tk s) →
  ∃ s', on_click event s = (Py.Ok tt, s') ∧
        mode s' = "draw" ∧ current_tool s' = Some "line" ∧ current_color s' = c ∧
        start_x s' = Some (Py.PyInt (ev_x event)) ∧ start_y s' = Some (Py.PyInt (ev_y event)) ∧
        file_opened s' = false ∧ 0 < Tk.next_id (tk s') ∧
        shape_object s' = shape_object s ∧ shape_heap s' = shape_heap s ∧
        next_shape s' = next_shape s.
Proof.
  intros Hm Ht Hc Ho Hpos.
  set (P := fun s' : State =>
    mode s' = "draw" ∧ current_tool s' = Some "line" ∧ current_color s' = c ∧
    start_x s' = Some (Py.PyInt (ev_x event)) ∧ start_y s' = Some (Py.PyInt (ev_y event)) ∧
    file_opened s' = false ∧ 0 < Tk.next_id (tk s') ∧
    shape_object s' = shape_object s ∧ shape_heap s' = shape_heap s ∧
    next_shape s' = next_shape s).
  set (P0 := fun s' : State =>
    mode s' = "draw" ∧ current_tool s' = Some "line" ∧ current_color s' = c ∧
    file_opened s' = false ∧ 0 < Tk.next_id (tk s') ∧
    shape_object s' = shape_object s ∧ shape_heap s' = shape_heap s ∧
    next_shape s' = next_shape s).
  assert (Hk : hoare P0 (on_click event) (fun _ => P) (fun _ => False)).
  { unfold on_click.
    apply (hoare_bind (fun _ s' => P0 s' ∧ (start_x s' = Some (Py.PyInt (ev_x event))))).
    { apply hoare_update. intros s' HP. split; [exact HP|reflexivity]. }
    intros _. apply (hoare_bind (fun _ => P)).
    { apply hoare_update. intros s' [HP Hx]. unfold P, P0 in *. cbn. by destruct_and!. }
    intros _. apply (hoare_bind (fun m s' => P s' ∧ m = "draw")).
    { apply hoare_get. intros s' HP. split; [exact HP|apply HP]. }
    intros m. apply hoare_pure. intros ->.
    rewrite bool_decide_eq_false_2 by done.
    unfold clear_properties_text, tk_itemconfig_width, tk_delete. hoare_run. }
  assert (P0 s) as HP0 by (by unfold P0).
  specialize (Hk s HP0). destruct (on_click event s) as [[[]|e] s'] eqn:E; [|done].
  exists s'. split; [reflexivity|]. exact Hk.
Qed.

Lemma release_after_drawing hl c p0 e1 last D H n up a b s :
  previewing c p0 e1 last D H n s →
  on_release hl up a b s =
  (Py.Ok tt, with_mode "" (with_current_tool None (with_current_shape None s))).
Proof.
  intros (Hm & Ht & Hcur & _).
  unfold on_release, bind at 1, get at 1. rewrite Hm.
  rewrite bool_decide_eq_false_2 by done. rewrite bool_decide_eq_false_2 by done.
  rewrite bool_decide_eq_true_2 by done.
  unfold bind at 1, get at 1. rewrite Hcur. reflexivity.
Qed.

(** A line drawn with the pointer: the menu entry, a press at [p0], a
    first motion event at [e1], any further motion events, and the
    release.  The document gains exactly one line object.  Its stored end
    point is that of the first motion event; the further events only
    replace the item, which ends at the last of them. *)
Theorem stroke_stores_the_first_motion fo bb nm (El : Type) fs wr
    (s : State) (c : Colour) (p0 e1 up : Event) (path : list Event)
    (new_color new_style : option string) :
  file_opened s = false → 0 < Tk.next_id (tk s) →
  let s' := mainloop fo bb nm El fs wr
              ([DrawLine c; Press p0; Motion e1] ++ map Motion path ++
               [Release up new_color new_style]) s in
  let n := next_shape s in
  shape_object s' = shape_object s ++ [n] ∧
  next_shape s' = S n ∧
  (∀ r, r ≠ n → shape_heap s' r = shape_heap s r) ∧
  mode s' = "" ∧
  ∃ h, shape_heap s' n =
         {| cls := Line; x1 := Py.PyInt (ev_x p0); y1 := Py.PyInt (ev_y p0);
            x2 := Py.PyInt (ev_x e1); y2 := Py.PyInt (ev_y e1); color := colour_name c;
            style := None; shape_id := Some h; groups := [] |} ∧
       Tk.items (tk s') !! h =
         Some (line_item (Py.PyInt (ev_x p0)) (Py.PyInt (ev_y p0))
                 (Py.PyInt (ev_x (List.last path e1))) (Py.PyInt (ev_y (List.last path e1)))
                 (colour_name c)).
Proof.
  intros Ho Hpos. cbv zeta.
  unfold mainloop. rewrite !fold_left_app. cbn [fold_left].
  fold (mainloop fo bb nm El fs wr).
  set (s1 := callback (perform fo bb nm El fs wr (DrawLine c)) s).
  assert (Hs1 : mode s1 = "draw" ∧ current_tool s1 = Some "line" ∧
                current_color s1 = colour_name c ∧ file_opened s1 = false ∧
                0 < Tk.next_id (tk s1) ∧ shape_object s1 = shape_object s ∧
                shape_heap s1 = shape_heap s ∧ next_shape s1 = next_shape s).
  { subst s1. unfold callback. cbn. by split_and!. }
  destruct Hs1 as (Hm1 & Ht1 & Hc1 & Ho1 & Hpos1 & Hd1 & Hh1 & Hn1).
  destruct (press_to_draw (colour_name c) p0 s1 Hm1 Ht1 Hc1 Ho1 Hpos1)
    as (s2 & Hrun2 & Hm2 & Ht2 & Hc2 & Hx2 & Hy2 & Ho2 & Hpos2 & Hd2 & Hh2 & Hn2).
  change (callback (perform fo bb nm El fs wr (Press p0)) s1) with (on_click p0 s1).2.
  rewrite Hrun2. cbn [snd].
  destruct (first_motion (highlight fo bb nm) (colour_name c) p0 e1 s2 Hm2 Ht2 Hc2 Hx2 Hy2 Ho2 Hpos2)
    as (s3 & Hrun3 & Hs3).
  change (callback (perform fo bb nm El fs wr (Motion e1)) s2)
    with (on_drag (highlight fo bb nm) e1 s2).2.
  rewrite Hrun3. cbn [snd].
  rewrite Hd2, Hh2, Hn2, Hd1, Hh1, Hn1 in Hs3.
  pose proof (later_motions fo bb nm El fs wr _ _ _ _ _ _ path e1 s3 Hs3) as Hs4.
  set (s4 := mainloop fo bb nm El fs wr (map Motion path) s3) in *.
  unfold callback. cbn [perform].
  rewrite (release_after_drawing _ _ _ _ _ _ _ _ _ _ _ _ Hs4). cbn [snd].
  destruct Hs4 as (Hm & Ht & Hcur & Hx & Hy & Hop & Hdoc & Hn & Hheap & h & Hobj & Hh & Hitem).
  cbn. split_and!; try done. by exists h.
Qed.

Lemma stroke_stores_the_first_motion_witness :
  ∃ h, let s' := mainloop (fun _ _ _ _ _ => []) (fun _ _ => None) (fun _ ids => Py.Ok ids)
                   unit (fun _ => Py.Ok tt) (fun _ => "")
                   [DrawLine Black; Press (at_ 10 10); Motion (at_ 50 50);
                    Motion (at_ 100 100); Release (at_ 100 100) None None] fresh in
       corners (shape_heap s' 0%nat) =
         [Py.PyInt 10; Py.PyInt 10; Py.PyInt 50; Py.PyInt 50] ∧
       shape_id (shape_heap s' 0%nat) = Some h ∧
       Tk.get_coords h (tk s') =
         [Py.PyFloat 10; Py.PyFloat 10; Py.PyFloat 100; Py.PyFloat 100].
Proof.
  destruct (stroke_stores_the_first_motion (fun _ _ _ _ _ => []) (fun _ _ => None)
              (fun _ ids => Py.Ok ids) unit (fun _ => Py.Ok tt) (fun _ => "")
              fresh Black (at_ 10 10) (at_ 50 50) (at_ 100 100) [at_ 100 100] None None)
    as (_ & _ & _ & _ & h & Hobj & Hitem).
  - vm_compute. reflexivity.
  - vm_compute. reflexivity.
  - exists h. cbv zeta. cbn [app map] in Hobj, Hitem.
    change (next_shape fresh) with 0%nat in Hobj. split_and!.
    + rewrite Hobj. reflexivity.
    + rewrite Hobj. reflexivity.
    + unfold Tk.get_coords. rewrite Hitem. vm_compute. reflexivity.
Defined.

(** ** Copying lines and rectangles *)

Lemma copy_shape_unfold s :
  copy_shape s = (sel <- get selected_shapes ;; for_each sel copy_body) s.
Proof. reflexivity. Qed.

Lemma copy_one sh id it s :
  file_opened s = false →
  shape_id (shape_heap s sh) = Some id →
  Tk.items (tk s) !! id = Some it →
  copyable it →
  ∃ s',
    copy_body sh s = (Py.Ok tt, s') ∧
    file_opened s' = false ∧
    selected_shapes s' = selected_shapes s ∧
    shape_object s' = shape_object s ++ [next_shape s] ∧
    next_shape s' = S (next_shape s) ∧
    shape_heap s' (next_shape s) = copy_object it (Some (Tk.next_id (tk s))) ∧
    (∀ r, r ≠ next_shape s → shape_heap s' r = shape_heap s r) ∧
    Tk.next_id (tk s') = Tk.next_id (tk s) + 1 ∧
    Tk.items (tk s') = <[Tk.next_id (tk s) := copy_item it]> (Tk.items (tk s)).
Proof.
  intros Ho Hid Hit (Hlen & _ & Hkind).
  destruct (Tk.coords it) as [|q0 [|q1 [|q2 [|q3 [|]]]]] eqn:Hqs; try done.
  unfold copy_body. cbv zeta.
  unfold bind at 1, shape at 1, get at 1. rewrite Hid.
  unfold bind at 1, tk_coords at 1, bind at 1, need_item at 1, ret at 1, get at 1.
  unfold bind at 1, tk_type at 1, bind at 1, need_item at 1, ret at 1, get at 1.
  unfold Tk.get_coords, Tk.type. rewrite Hit, Hqs. cbn [map offset_coords].
  destruct Hkind as [Hk|Hk]; rewrite Hk; cbn [Tk.type_name].
  - rewrite bool_decide_eq_false_2 by done. rewrite bool_decide_eq_true_2 by done.
    unfold bind at 1, tk_itemcget at 1, bind at 1, need_item at 1, ret at 1, get at 1.
    unfold Tk.itemcget. rewrite Hit.
    do 4 (unfold bind at 1, lift at 1; cbn [Py.index lookup list_lookup]).
    unfold bind at 1, Line_init at 1, new_shape at 1.
    unfold bind at 1, update at 1. unfold bind at 1, append_shape_object at 1, update at 1.
    unfold draw_shape, bind at 1, get at 1.
    cbn [current_shape with_shape_object with_current_shape with_next_shape with_shape_heap].
    unfold bind at 1, get at 1.
    cbn [file_opened with_shape_object with_current_shape with_next_shape with_shape_heap].
    rewrite Ho.
    unfold bind at 1. unfold Shape_update, bind at 1, shape at 1, get at 1.
    cbn [shape_heap with_shape_object with_current_shape with_next_shape with_shape_heap].
    rewrite upd_same. cbn [cls].
    unfold Line_update, bind at 1, shape at 1, get at 1.
    cbn [shape_heap with_shape_object with_current_shape with_next_shape with_shape_heap].
    rewrite upd_same. cbn [shape_id id_truthy color].
    unfold bind at 1, ret at 1. unfold bind at 1, create_line, tk_create, Tk.create.
    cbn [tk with_shape_object with_current_shape with_next_shape with_shape_heap].
    unfold bind at 1, shape at 1, get at 1.
    cbn [shape_heap with_tk with_shape_object with_current_shape with_next_shape with_shape_heap].
    rewrite upd_same. unfold set_shape, update.
    eexists. split; [reflexivity|].
    cbn. rewrite Ho. split_and!; try done.
    + rewrite upd_same. unfold copy_object. by rewrite Hqs, Hk.
    + intros r Hr. by rewrite !upd_other.
    + unfold copy_item. by rewrite Hqs, Hk.
  - rewrite bool_decide_eq_true_2 by done.
    unfold bind at 1, tk_itemcget at 1, bind at 1, need_item at 1, ret at 1, get at 1.
    unfold bind at 1, tk_itemcget at 1, bind at 1, need_item at 1, ret at 1, get at 1.
    unfold Tk.itemcget. rewrite Hit.
    do 4 (unfold bind at 1, lift at 1; cbn [Py.index lookup list_lookup]).
    unfold bind at 1, Rectangle_init at 1, new_shape at 1.
    unfold bind at 1, update at 1. unfold bind at 1, append_shape_object at 1, update at 1.
    unfold draw_shape, bind at 1, get at 1.
    cbn [current_shape with_shape_object with_current_shape with_next_shape with_shape_heap].
    unfold bind at 1, get at 1.
    cbn [file_opened with_shape_object with_current_shape with_next_shape with_shape_heap].
    rewrite Ho.
    unfold bind at 1. unfold Shape_update, bind at 1, shape at 1, get at 1.
    cbn [shape_heap with_shape_object with_current_shape with_next_shape with_shape_heap].
    rewrite upd_same. cbn [cls].
    unfold Rectangle_update, bind at 1, shape at 1, get at 1.
    cbn [shape_heap with_shape_object with_current_shape with_next_shape with_shape_heap].
    rewrite upd_same. cbn [shape_id id_truthy color style].
    unfold bind at 1, ret at 1.
    destruct (Py.contains "r" (Tk.tags it)) eqn:Htags.
    + rewrite bool_decide_eq_false_2 by done. rewrite bool_decide_eq_true_2 by done.
      unfold bind at 1, draw_rounded_rectangle, create_polygon, tk_create, Tk.create.
      cbn [tk with_shape_object with_current_shape with_next_shape with_shape_heap].
      unfold bind at 1, shape at 1, get at 1.
      cbn [shape_heap with_tk with_shape_object with_current_shape with_next_shape
           with_shape_heap].
      rewrite upd_same. unfold set_shape, update.
      eexists. split; [reflexivity|].
      cbn. rewrite Ho. split_and!; try done.
      * rewrite upd_same. unfold copy_object, copy_style. by rewrite Hqs, Hk, Htags.
      * intros r Hr. by rewrite !upd_other.
      * unfold copy_item. by rewrite Hqs, Hk, Htags.
    + rewrite bool_decide_eq_true_2 by done.
      unfold bind at 1, create_rectangle, tk_create, Tk.create.
      cbn [tk with_shape_object with_current_shape with_next_shape with_shape_heap].
      unfold bind at 1, shape at 1, get at 1.
      cbn [shape_heap with_tk with_shape_object with_current_shape with_next_shape
           with_shape_heap].
      rewrite upd_same. unfold set_shape, update.
      eexists. split; [reflexivity|].
      cbn. rewrite Ho. split_and!; try done.
      * rewrite upd_same. unfold copy_object, copy_style. by rewrite Hqs, Hk, Htags.
      * intros r Hr. by rewrite !upd_other.
      * unfold copy_item. by rewrite Hqs, Hk, Htags.
Qed.

Lemma copy_loop l its : ∀ s,
  file_opened s = false →
  (∀ i, is_Some (Tk.items (tk s) !! i) → i < Tk.next_id (tk s)) →
  Forall2 (copy_source s) l its →
  ∃ s',
    for_each l copy_body s = (Py.Ok tt, s') ∧
    selected_shapes s' = selected_shapes s ∧
    shape_object s' = shape_object s ++ seq (next_shape s) (length its) ∧
    (∀ r, (r < next_shape s)%nat → shape_heap s' r = shape_heap s r) ∧
    (∀ i, i < Tk.next_id (tk s) → Tk.items (tk s') !! i = Tk.items (tk s) !! i) ∧
    (∀ (j : nat) it, its !! j = Some it →
       shape_heap s' (next_shape s + j)%nat =
         copy_object it (Some (Tk.next_id (tk s) + Z.of_nat j)) ∧
       Tk.items (tk s') !! (Tk.next_id (tk s) + Z.of_nat j) = Some (copy_item it)).
Proof.
  revert its. induction l as [|sh l IH]; intros its s Ho Hit Hall.
  - apply Forall2_nil_inv_l in Hall as ->. exists s. cbn. split_and!; try done.
    by rewrite app_nil_r.
  - apply Forall2_cons_inv_l in Hall as (it & its' & (Hlt & id & Hid & Hitem & Hcp) & Hall & ->).
    destruct (copy_one sh id it s Ho Hid Hitem Hcp)
      as (s1 & Hrun & Ho1 & Hsel1 & Hdoc1 & Hn1 & Hnew1 & Hheap1 & Hnid1 & Hitems1).
    destruct (IH its' s1) as (s' & Hrun' & Hsel' & Hdoc' & Hheap' & Hitems' & Hcopies').
    + exact Ho1.
    + intros i [x Hi]. rewrite Hitems1 in Hi. rewrite Hnid1.
      destruct (decide (i = Tk.next_id (tk s))) as [-> |Hne]; [lia|].
      rewrite lookup_insert_ne in Hi by done. specialize (Hit i (mk_is_Some _ _ Hi)). lia.
    + eapply Forall2_impl; [exact Hall|]. cbn beta.
      intros sh' it' (Hlt' & id' & Hid' & Hitem' & Hcp').
      split; [lia|]. exists id'. split_and!; [| |done].
      * rewrite Hheap1 by lia. done.
      * rewrite Hitems1. rewrite lookup_insert_ne; [done|].
        specialize (Hit id' (mk_is_Some _ _ Hitem')). lia.
    + exists s'. cbn [for_each]. unfold bind at 1. rewrite Hrun. split; [exact Hrun'|].
      split_and!.
      * by rewrite Hsel'.
      * rewrite Hdoc', Hdoc1, Hn1. cbn [length seq]. by rewrite <- app_assoc.
      * intros r Hr. rewrite Hheap' by lia. apply Hheap1. lia.
      * intros i Hi. rewrite Hitems' by lia. rewrite Hitems1. apply lookup_insert_ne. lia.
      * intros [|j] it' Hj.
        -- cbn in Hj. injection Hj as <-. rewrite Nat.add_0_r, Z.add_0_r.
           rewrite Hheap' by lia. rewrite Hitems' by lia. rewrite Hitems1.
           split; [exact Hnew1|apply lookup_insert_eq].
        -- cbn in Hj. destruct (Hcopies' j it' Hj) as [Hobj Hitm].
           rewrite Hn1, Hnid1 in Hobj. rewrite Hnid1 in Hitm.
           replace (next_shape s + S j)%nat with (S (next_shape s) + j)%nat by lia.
           replace (Tk.next_id (tk s) + Z.of_nat (S j))
             with (Tk.next_id (tk s) + 1 + Z.of_nat j) by lia.
           done.
Qed.

(** [copy_shape] on a selection of lines and of rectangles that are drawn,
    each with its four coordinates in range, in a session that has opened
    no file: for each selected shape, in order, a new shape object is
    appended to the document, of the class the item's type names, with the
    item's coordinates moved by (50, 50) and its colour; the copy of a
    rectangle has style [r] when the letter r occurs in the tags of the
    item, and [s] otherwise; and an item is drawn for it, a polygon when
    the style is [r].  The shapes and items there were are left as they
    are. *)
Theorem copy_shape_duplicates_what_is_drawn (s : State) (its : list Tk.Item) :
  file_opened s = false →
  (∀ i, is_Some (Tk.items (tk s) !! i) → i < Tk.next_id (tk s)) →
  Forall2 (copy_source s) (selected_shapes s) its →
  ∃ s',
    copy_shape s = (Py.Ok tt, s') ∧
    selected_shapes s' = selected_shapes s ∧
    shape_object s' = shape_object s ++ seq (next_shape s) (length its) ∧
    (∀ r, (r < next_shape s)%nat → shape_heap s' r = shape_heap s r) ∧
    (∀ i, i < Tk.next_id (tk s) → Tk.items (tk s') !! i = Tk.items (tk s) !! i) ∧
    (∀ (j : nat) it, its !! j = Some it →
       shape_heap s' (next_shape s + j)%nat =
         copy_object it (Some (Tk.next_id (tk s) + Z.of_nat j)) ∧
       Tk.items (tk s') !! (Tk.next_id (tk s) + Z.of_nat j) = Some (copy_item it)).
Proof.
  intros Ho Hit Hall. rewrite copy_shape_unfold. unfold bind at 1, get at 1.
  by apply copy_loop.
Qed.

(** ** Saving lines and opening them again *)

(** *** Numbers *)

Lemma digit_of_char m :
  (m < 10)%N →
  Ascii.eqb (pretty_N_char m) "_"%char = false ∧
  Py.digit_val (pretty_N_char m) = Some (Z.of_N m) ∧
  Py.is_space (pretty_N_char m) = false ∧
  Ascii.eqb (pretty_N_char m) "-"%char = false ∧
  Ascii.eqb (pretty_N_char m) "+"%char = false.
Proof.
  intros Hm.
  assert (m = 0 ∨ m = 1 ∨ m = 2 ∨ m = 3 ∨ m = 4 ∨ m = 5 ∨ m = 6 ∨ m = 7 ∨ m = 8 ∨ m = 9)%N
    as Hcases by lia.
  repeat destruct Hcases as [-> |Hcases]; try subst m; by vm_compute.
Qed.

Lemma parse_digits_go x : ∀ s acc,
  ∃ k : Z, 0 ≤ k ∧
    Py.parse_digits acc false (pretty_N_go x s) =
    Py.parse_digits (acc * 10 ^ k + Z.of_N x) false s.
Proof.
  induction (N.lt_wf_0 x) as [x _ IH]; intros s acc.
  assert (x = 0 ∨ 0 < x)%N as [-> |Hx] by lia.
  - exists 0. split; [done|]. rewrite pretty_N_go_0. f_equal. lia.
  - rewrite pretty_N_go_step by done.
    destruct (IH (x `div` 10)%N) with (s := String (pretty_N_char (x `mod` 10)) s) (acc := acc)
      as (k & Hk & Hrun).
    { by apply N.div_lt. }
    exists (k + 1). split; [lia|]. rewrite Hrun. cbn [Py.parse_digits].
    destruct (digit_of_char (x `mod` 10)%N) as (-> & -> & _); [by apply N.mod_lt|].
    f_equal. rewrite Z.pow_add_r by lia.
    pose proof (N.div_mod x 10 ltac:(done)) as Hdm.
    assert (Z.of_N x = 10 * Z.of_N (x `div` 10) + Z.of_N (x `mod` 10)) as ->.
    { rewrite Hdm at 1. by rewrite N2Z.inj_add, N2Z.inj_mul. }
    change (10 ^ 1) with 10. ring.
Qed.

Lemma no_space_go x : ∀ s, no_space (pretty_N_go x s) = no_space s.
Proof.
  induction (N.lt_wf_0 x) as [x _ IH]; intros s.
  assert (x = 0 ∨ 0 < x)%N as [-> |Hx] by lia.
  - by rewrite pretty_N_go_0.
  - rewrite pretty_N_go_step by done. rewrite IH by (by apply N.div_lt).
    cbn [no_space]. destruct (digit_of_char (x `mod` 10)%N) as (_ & _ & -> & _);
      [by apply N.mod_lt|done].
Qed.

Lemma digit_first x : ∀ s,
  (0 < x)%N → ∃ m rest, (m < 10)%N ∧ pretty_N_go x s = String (pretty_N_char m) rest.
Proof.
  induction (N.lt_wf_0 x) as [x _ IH]; intros s Hx.
  rewrite pretty_N_go_step by done.
  destruct (N.eq_0_gt_0_cases (x `div` 10)) as [-> |Hd].
  - rewrite pretty_N_go_0. eexists _, _. split; [|done]. by apply N.mod_lt.
  - apply IH; [by apply N.div_lt|done].
Qed.

Lemma strip_no_space s : no_space s = true → Py.strip s = s.
Proof.
  intros Hs. unfold Py.strip.
  assert (Hl : Py.lstrip s = s).
  { destruct s as [|c s]; [done|]. cbn in Hs |- *.
    apply andb_true_iff in Hs as [Hc _]. by destruct (Py.is_space c). }
  rewrite Hl. clear Hl. induction s as [|c s IH]; [done|].
  cbn in Hs |- *. apply andb_true_iff in Hs as [Hc Hs]. rewrite IH by done.
  destruct s; [|done]. by destruct (Py.is_space c).
Qed.

Lemma int_pretty_pos p : Py.int (pretty (Z.pos p)) = Py.Ok (Z.pos p).
Proof.
  unfold pretty, pretty_Z, pretty, pretty_positive, pretty, pretty_N.
  rewrite decide_False by done.
  unfold Py.int. rewrite strip_no_space by (by rewrite no_space_go).
  destruct (digit_first (N.pos p) "") as (m & rest & Hm & Hfirst); [done|].
  destruct (parse_digits_go (N.pos p) "" 0) as (k & Hk & Hparse).
  rewrite Hfirst in Hparse |- *.
  destruct (digit_of_char m Hm) as (H_ & _ & _ & Hminus & Hplus).
  rewrite Hminus, Hplus, H_. rewrite Hparse. cbn. done.
Qed.

Lemma int_pretty z : Py.int (pretty z) = Py.Ok z.
Proof.
  destruct z as [|p|p]; [by vm_compute|apply int_pretty_pos|].
  unfold pretty, pretty_Z, pretty, pretty_positive, pretty, pretty_N.
  rewrite decide_False by done.
  unfold Py.int.
  change ("-" +:+ pretty_N_go (N.pos p) "") with (String "-"%char (pretty_N_go (N.pos p) "")).
  rewrite strip_no_space by (cbn [no_space]; by rewrite no_space_go).
  change (Ascii.eqb "-" "-") with true. cbv iota.
  destruct (digit_first (N.pos p) "") as (m & rest & Hm & Hfirst); [done|].
  destruct (parse_digits_go (N.pos p) "" 0) as (k & Hk & Hparse).
  rewrite Hfirst in Hparse |- *.
  destruct (digit_of_char m Hm) as (H_ & _ & _ & Hminus & Hplus).
  rewrite H_. rewrite Hparse. cbn. done.
Qed.

Lemma no_space_pretty (z : Z) : no_space (pretty z) = true.
Proof.
  destruct z as [|p|p]; [done| |];
    unfold pretty, pretty_Z, pretty, pretty_positive, pretty, pretty_N;
    rewrite decide_False by done.
  - by rewrite no_space_go.
  - change ("-" +:+ pretty_N_go (N.pos p) "") with (String "-"%char (pretty_N_go (N.pos p) "")).
    cbn [no_space]. by rewrite no_space_go.
Qed.

(** *** Words and lines *)

Lemma app_cons c a b : String c a +:+ b = String c (a +:+ b).
Proof. reflexivity. Qed.

Lemma app_nil b : "" +:+ b = b.
Proof. reflexivity. Qed.

Lemma str_app_assoc a b c : (a +:+ b) +:+ c = a +:+ (b +:+ c).
Proof. induction a as [|x a IH]; [done|]. by rewrite !app_cons, IH. Qed.

Lemma str_app_nil_r a : a +:+ "" = a.
Proof. induction a as [|x a IH]; [done|]. by rewrite app_cons, IH. Qed.

Lemma no_space_app a b : no_space (a +:+ b) = no_space a && no_space b.
Proof.
  induction a as [|x a IH]; [done|]. rewrite app_cons. cbn [no_space].
  by rewrite IH, andb_assoc.
Qed.

Lemma one_line_app a b : one_line (a +:+ b) = one_line a && one_line b.
Proof.
  induction a as [|x a IH]; [done|]. rewrite app_cons. cbn [one_line].
  by rewrite IH, !andb_assoc.
Qed.

Lemma no_space_one_line a : no_space a = true → one_line a = true.
Proof.
  induction a as [|x a IH]; [done|]. cbn [no_space one_line].
  intros [Hx Ha]%andb_true_iff. rewrite IH by done.
  assert (Ascii.eqb x Py.LF = false ∧ Ascii.eqb x Py.CR = false) as [-> ->]; [|done].
  split; apply Ascii.eqb_neq; intros ->; by vm_compute in Hx.
Qed.

Lemma split_word w rest :
  no_space w = true → Py.split " " (w +:+ String " " rest) = w :: Py.split " " rest.
Proof.
  induction w as [|c w IH]; intros Hw.
  - rewrite app_nil. reflexivity.
  - cbn [no_space] in Hw. apply andb_true_iff in Hw as [Hc Hw].
    rewrite app_cons. cbn [Py.split]. rewrite IH by done.
    assert (Ascii.eqb c " " = false) as ->; [|done].
    apply Ascii.eqb_neq. intros ->. by vm_compute in Hc.
Qed.

Lemma split_last_word w : no_space w = true → Py.split " " w = [w].
Proof.
  induction w as [|c w IH]; intros Hw; [done|].
  cbn [no_space] in Hw. apply andb_true_iff in Hw as [Hc Hw].
  cbn [Py.split]. rewrite IH by done.
  assert (Ascii.eqb c " " = false) as ->; [|done].
  apply Ascii.eqb_neq. intros ->. by vm_compute in Hc.
Qed.

Lemma rstrip_no_space w : no_space w = true → Py.rstrip w = w.
Proof.
  induction w as [|c w IH]; intros Hw; [done|].
  cbn [no_space] in Hw. apply andb_true_iff in Hw as [Hc Hw].
  cbn [Py.rstrip]. rewrite IH by done. destruct w; [|done]. by destruct (Py.is_space c).
Qed.

Lemma rstrip_app a w :
  w ≠ "" → no_space w = true → Py.rstrip (a +:+ w +:+ String Py.LF "") = a +:+ w.
Proof.
  intros Hne Hw.
  assert (Hend : Py.rstrip (w +:+ String Py.LF "") = w).
  { clear Hne. induction w as [|c w IH]; [done|].
    cbn [no_space] in Hw. apply andb_true_iff in Hw as [Hc Hw].
    rewrite app_cons. cbn [Py.rstrip]. rewrite IH by done.
    destruct w; [|done]. by destruct (Py.is_space c). }
  induction a as [|c a IH]; [by rewrite !app_nil|].
  rewrite !app_cons. cbn [Py.rstrip]. rewrite IH.
  destruct (a +:+ w) eqn:E; [|done].
  destruct a; [|done]. rewrite app_nil in E. done.
Qed.

Lemma rev_app_spec a : ∀ t, String.rev_app a t = String.rev a +:+ t.
Proof.
  unfold String.rev. induction a as [|c a IH]; intros t; [done|].
  cbn [String.rev_app]. rewrite IH, (IH (String c "")), str_app_assoc. reflexivity.
Qed.

Lemma rev_cons c a : String.rev (String c a) = String.rev a +:+ String c "".
Proof. unfold String.rev at 1. cbn [String.rev_app]. apply rev_app_spec. Qed.

Lemma readlines_line l : ∀ acc rest,
  one_line l = true →
  Py.readlines_from acc (l +:+ String Py.LF rest) =
  (String.rev acc +:+ l +:+ String Py.LF "") :: Py.readlines_from "" rest.
Proof.
  induction l as [|c l IH]; intros acc rest Hl.
  - rewrite !app_nil. cbn [Py.readlines_from].
    change (Ascii.eqb Py.LF Py.LF) with true. cbv iota. by rewrite rev_cons.
  - cbn [one_line] in Hl. apply andb_true_iff in Hl as [[Hn Hr]%andb_true_iff Hl].
    rewrite app_cons. cbn [Py.readlines_from].
    apply negb_true_iff in Hn, Hr. rewrite Hn, Hr. rewrite IH by done.
    f_equal. rewrite rev_cons, str_app_assoc. reflexivity.
Qed.

Lemma readlines_lines ls :
  Forall (fun l => one_line l = true) ls →
  Py.readlines (String.concat "" (map (fun l => l +:+ String Py.LF "") ls)) =
  map (fun l => l +:+ String Py.LF "") ls.
Proof.
  unfold Py.readlines. induction 1 as [|l ls Hl Hls IH]; [done|].
  assert (Hcat : String.concat "" (map (fun l => l +:+ String Py.LF "") (l :: ls)) =
                 l +:+ String Py.LF (String.concat "" (map (fun l => l +:+ String Py.LF "") ls))).
  { cbn [map String.concat]. destruct ls as [|l' ls]; [done|].
    cbn [map]. change (?a ++ ?b)%string with (a +:+ b).
    rewrite app_nil, str_app_assoc. reflexivity. }
  rewrite Hcat, readlines_line by done. cbn [map]. rewrite IH.
  change (String.rev "") with "". by rewrite app_nil.
Qed.

(** *** Saving *)

Lemma construct_lines l : ∀ s,
  Forall (stored_line s) l →
  for_each l construct_body s =
  (Py.Ok tt, with_shapes (shapes s ++ map (fun sh => line_text (shape_heap s sh)) l) s).
Proof.
  induction l as [|sh l IH]; intros s Hall.
  - cbn. rewrite app_nil_r. by destruct s.
  - apply Forall_cons in Hall as [((id & Hid & Hty) & _) Hall].
    cbn [for_each]. unfold bind at 1.
    assert (Hone : construct_body sh s =
                   (Py.Ok tt, with_shapes (shapes s ++ [line_text (shape_heap s sh)]) s)).
    { unfold construct_body, bind at 1, shape at 1, get at 1. rewrite Hid.
      unfold bind at 1, tk_type at 1, bind at 1, need_item at 1, ret at 1, get at 1.
      rewrite Hty. unfold bind at 1, shape_line at 1.
      rewrite bool_decide_eq_false_2 by done. reflexivity. }
    rewrite Hone. rewrite IH by exact Hall.
    cbn [shapes shape_heap with_shapes map]. rewrite <- app_assoc. reflexivity.
Qed.

Lemma save_lines name s :
  name ≠ "" → Py.truthy (current_file s) = false →
  Forall (stored_line s) (shape_object s) →
  ∃ s', save_file name s = (Py.Ok tt, s') ∧
        files s' =
          <[name := file_text (map (fun sh => line_text (shape_heap s sh)) (shape_object s))]>
            (files s).
Proof.
  intros Hname Hcf Hall.
  unfold save_file, FileManager.save_file, bind at 1, get at 1.
  assert (match current_file s with
          | Some f => if Py.truthy (current_file s) then f else name
          | None => name
          end = name) as ->.
  { destruct (current_file s); [by rewrite Hcf|done]. }
  assert (Py.truthy (Some name) = true) as -> by (by destruct name).
  unfold bind at 1. unfold construct_shape_from_shape_object. fold construct_body.
  unfold bind at 1, update at 1. unfold bind at 1, get at 1.
  cbn [shape_object with_shapes].
  rewrite construct_lines by exact Hall.
  unfold bind at 1, get at 1. unfold bind at 1, update at 1. unfold update.
  eexists. split; [reflexivity|]. reflexivity.
Qed.

(** *** Opening *)

Lemma space_app r : " " +:+ r = String " " r.
Proof. reflexivity. Qed.

Lemma split_line_text (a b c d : Z) col :
  no_space col = true →
  Py.split " " ("line" +:+ " " +:+ pretty a +:+ " " +:+ pretty b +:+ " " +:+
                pretty c +:+ " " +:+ pretty d +:+ " " +:+ col) =
  ["line"; pretty a; pretty b; pretty c; pretty d; col].
Proof.
  intros Hcol. rewrite !space_app.
  rewrite (split_word "line") by done.
  rewrite !split_word by apply no_space_pretty.
  by rewrite split_last_word.
Qed.

Lemma strip_line_text (a b c d : Z) col :
  col ≠ "" → no_space col = true →
  Py.strip (("line" +:+ " " +:+ pretty a +:+ " " +:+ pretty b +:+ " " +:+
             pretty c +:+ " " +:+ pretty d +:+ " " +:+ col) +:+ String Py.LF "") =
  "line" +:+ " " +:+ pretty a +:+ " " +:+ pretty b +:+ " " +:+
  pretty c +:+ " " +:+ pretty d +:+ " " +:+ col.
Proof.
  intros Hne Hcol. unfold Py.strip.
  change (Py.lstrip ?x) with x.
  rewrite !str_app_assoc.
  pose proof (rstrip_app ("line" +:+ " " +:+ pretty a +:+ " " +:+ pretty b +:+ " " +:+
                          pretty c +:+ " " +:+ pretty d +:+ " ") col Hne Hcol) as Hr.
  rewrite !str_app_assoc in Hr. exact Hr.
Qed.

Lemma one_line_text (a b c d : Z) col :
  no_space col = true →
  one_line ("line" +:+ " " +:+ pretty a +:+ " " +:+ pretty b +:+ " " +:+
            pretty c +:+ " " +:+ pretty d +:+ " " +:+ col) = true.
Proof.
  intros Hcol. rewrite !one_line_app.
  rewrite (no_space_one_line (pretty a)), (no_space_one_line (pretty b)),
    (no_space_one_line (pretty c)), (no_space_one_line (pretty d)) by apply no_space_pretty.
  rewrite (no_space_one_line col) by done. reflexivity.
Qed.

Lemma load_one (a b c d : Z) col s :
  no_space col = true →
  ∃ s',
    redraw_body ("line" +:+ " " +:+ pretty a +:+ " " +:+ pretty b +:+ " " +:+
                 pretty c +:+ " " +:+ pretty d +:+ " " +:+ col) s = (Py.Ok tt, s') ∧
    shape_object s' = shape_object s ++ [next_shape s] ∧
    next_shape s' = S (next_shape s) ∧
    shape_heap s' (next_shape s) = loaded_line a b c d col (Tk.next_id (tk s)) ∧
    (∀ r, r ≠ next_shape s → shape_heap s' r = shape_heap s r) ∧
    Tk.next_id (tk s') = Tk.next_id (tk s) + 1 ∧
    Tk.items (tk s') =
      <[Tk.next_id (tk s) := line_item (Py.PyInt a) (Py.PyInt b) (Py.PyInt c) (Py.PyInt d) col]>
        (Tk.items (tk s)).
Proof.
  intros Hcol. unfold redraw_body. rewrite split_line_text by done.
  rewrite bool_decide_eq_true_2 by done.
  do 4 (unfold bind at 1, int_arg at 1, bind at 1, lift at 1;
        cbn [Py.index lookup list_lookup];
        unfold bind at 1, lift at 1; rewrite int_pretty; unfold ret at 1).
  unfold bind at 1, lift at 1. cbn [Py.index_back Py.index length Nat.leb Nat.ltb andb Nat.sub
    lookup list_lookup].
  unfold bind at 1, Line_init at 1, new_shape at 1.
  unfold bind at 1, update at 1. unfold bind at 1, append_shape_object at 1, update at 1.
  unfold Shape_update, bind at 1, shape at 1, get at 1.
  cbn [shape_heap with_shape_object with_current_shape with_next_shape with_shape_heap].
  rewrite upd_same. cbn [cls].
  unfold Line_update, bind at 1, shape at 1, get at 1.
  cbn [shape_heap with_shape_object with_current_shape with_next_shape with_shape_heap].
  rewrite upd_same. cbn [shape_id id_truthy color].
  unfold bind at 1, ret at 1. unfold bind at 1, create_line, tk_create, Tk.create.
  cbn [tk with_shape_object with_current_shape with_next_shape with_shape_heap].
  unfold bind at 1, shape at 1, get at 1.
  cbn [shape_heap with_tk with_shape_object with_current_shape with_next_shape with_shape_heap].
  rewrite upd_same. unfold set_shape, update.
  eexists. split; [reflexivity|].
  cbn. split_and!; try done.
  - by rewrite upd_same.
  - intros r Hr. by rewrite !upd_other.
Qed.

Lemma line_text_plain o :
  plain_line o →
  ∃ a b c d,
    corners o = [Py.PyInt a; Py.PyInt b; Py.PyInt c; Py.PyInt d] ∧
    line_text o = "line" +:+ " " +:+ pretty a +:+ " " +:+ pretty b +:+ " " +:+
                  pretty c +:+ " " +:+ pretty d +:+ " " +:+ color o.
Proof.
  intros ((a & b & c & d & Hc) & _). exists a, b, c, d. split; [done|].
  unfold corners in Hc. injection Hc as Ha Hb Hc Hd.
  unfold line_text. by rewrite Ha, Hb, Hc, Hd.
Qed.

Lemma load_loop os : ∀ s,
  Forall plain_line os →
  ∃ s',
    for_each (map line_text os) redraw_body s = (Py.Ok tt, s') ∧
    shape_object s' = shape_object s ++ seq (next_shape s) (length os) ∧
    (∀ r, (r < next_shape s)%nat → shape_heap s' r = shape_heap s r) ∧
    (∀ i, i < Tk.next_id (tk s) → Tk.items (tk s') !! i = Tk.items (tk s) !! i) ∧
    (∀ (j : nat) o, os !! j = Some o →
       let new := shape_heap s' (next_shape s + j)%nat in
       cls new = Line ∧ corners new = corners o ∧ color new = color o ∧
       groups new = [] ∧
       shape_id new = Some (Tk.next_id (tk s) + Z.of_nat j) ∧
       Tk.items (tk s') !! (Tk.next_id (tk s) + Z.of_nat j) =
         Some (line_item (x1 o) (y1 o) (x2 o) (y2 o) (color o))).
Proof.
  induction os as [|o os IH]; intros s Hall.
  - exists s. cbn. split_and!; try done. by rewrite app_nil_r.
  - apply Forall_cons in Hall as [Ho Hall].
    destruct (line_text_plain o Ho) as (a & b & c & d & Hc & Htext).
    destruct Ho as (_ & _ & Hcol).
    destruct (load_one a b c d (color o) s Hcol)
      as (s1 & Hrun & Hdoc1 & Hn1 & Hnew1 & Hheap1 & Hnid1 & Hitems1).
    destruct (IH s1 Hall) as (s' & Hrun' & Hdoc' & Hheap' & Hitems' & Hloaded').
    exists s'. cbn [map for_each]. unfold bind at 1. rewrite Htext, Hrun.
    split; [exact Hrun'|]. split_and!.
    + rewrite Hdoc', Hdoc1, Hn1. cbn [length seq]. by rewrite <- app_assoc.
    + intros r Hr. rewrite Hheap' by lia. apply Hheap1. lia.
    + intros i Hi. rewrite Hitems' by lia. rewrite Hitems1. apply lookup_insert_ne. lia.
    + intros [|j] o' Hj.
      * cbn in Hj. injection Hj as <-. cbv zeta. rewrite Nat.add_0_r, Z.add_0_r.
        rewrite Hheap' by lia. rewrite Hitems' by lia. rewrite Hitems1, Hnew1.
        unfold corners in Hc. injection Hc as Ha Hb Hc Hd.
        unfold loaded_line, corners. cbn. rewrite Ha, Hb, Hc, Hd.
        split_and!; try done. apply lookup_insert_eq.
      * cbn in Hj. specialize (Hloaded' j o' Hj). cbv zeta in Hloaded' |- *.
        rewrite Hn1, Hnid1 in Hloaded'.
        replace (next_shape s + S j)%nat with (S (next_shape s) + j)%nat by lia.
        replace (Tk.next_id (tk s) + Z.of_nat (S j))
          with (Tk.next_id (tk s) + 1 + Z.of_nat j) by lia.
        exact Hloaded'.
Qed.

Lemma read_loop ls : ∀ s,
  for_each ls (fun line => update (fun s => with_shapes (shapes s ++ [Py.strip line]) s)) s =
  (Py.Ok tt, with_shapes (shapes s ++ map Py.strip ls) s).
Proof.
  induction ls as [|l ls IH]; intros s.
  - cbn. rewrite app_nil_r. by destruct s.
  - cbn [for_each map]. unfold bind at 1, update at 1. rewrite IH.
    cbn [shapes with_shapes]. by rewrite <- app_assoc.
Qed.

Lemma file_text_lines os :
  Forall plain_line os →
  map Py.strip (Py.readlines (file_text (map line_text os))) = map line_text os.
Proof.
  intros Hall. unfold file_text. rewrite readlines_lines.
  - rewrite !map_map. apply map_ext_Forall. eapply Forall_impl; [exact Hall|].
    intros o Ho. cbn beta.
    destruct (line_text_plain o Ho) as (a & b & c & d & _ & ->).
    destruct Ho as (_ & Hne & Hcol). by apply strip_line_text.
  - apply Forall_map. eapply Forall_impl; [exact Hall|].
    intros o Ho. cbn beta.
    destruct (line_text_plain o Ho) as (a & b & c & d & _ & ->).
    destruct Ho as (_ & _ & Hcol). by apply one_line_text.
Qed.

Lemma open_lines ok name os t :
  name ≠ "" →
  unsaved_changes t = false ∨ ok = true →
  files t !! name = Some (file_text (map line_text os)) →
  Forall plain_line os →
  ∃ t',
    open_file ok name t = (Py.Ok tt, t') ∧
    current_file t' = Some name ∧
    shape_object t' = shape_object t ++ seq (next_shape t) (length os) ∧
    (∀ r, (r < next_shape t)%nat → shape_heap t' r = shape_heap t r) ∧
    (∀ (j : nat) o, os !! j = Some o →
       let new := shape_heap t' (next_shape t + j)%nat in
       cls new = Line ∧ corners new = corners o ∧ color new = color o ∧
       groups new = [] ∧
       shape_id new = Some (Tk.next_id (tk t) + Z.of_nat j) ∧
       Tk.items (tk t') !! (Tk.next_id (tk t) + Z.of_nat j) =
         Some (line_item (x1 o) (y1 o) (x2 o) (y2 o) (color o))).
Proof.
  intros Hname Hask Hfile Hall.
  unfold open_file, FileManager.open_file, bind at 1, get at 1.
  assert (unsaved_changes t && negb ok = false) as ->.
  { destruct Hask as [-> | ->]; [done|apply andb_false_r]. }
  assert (Py.truthy (Some name) = true) as -> by (by destruct name).
  unfold bind at 1, update at 1. unfold bind at 1, update at 1.
  unfold bind at 1, tk_delete_all at 1, update at 1.
  unfold bind at 1, get at 1.
  cbn [files with_file_opened with_shapes with_tk]. rewrite Hfile.
  unfold bind at 1. rewrite read_loop.
  cbn [shapes with_file_opened with_shapes with_tk app].
  rewrite file_text_lines by done.
  unfold bind at 1. unfold redraw_shapes. fold redraw_body.
  unfold bind at 1, get at 1. cbn [shapes with_shapes].
  match goal with
  | |- context [for_each (map line_text os) redraw_body ?s0] =>
      destruct (load_loop os s0 Hall) as (t1 & Hrun & Hdoc & Hheap & Hitems & Hloaded)
  end.
  rewrite Hrun. unfold bind at 1, update at 1. unfold update.
  eexists. split; [reflexivity|].
  cbn in Hdoc, Hheap, Hitems, Hloaded |- *. by split_and!.
Qed.

(** Save and Open agree on lines.  A document whose shapes are drawn as
    lines, with integer coordinates and one-word colours, is saved; whatever
    session opens the file then gets, behind the shape objects it had, one
    new line object per saved shape, in order, with the same coordinates
    and colour, drawn as a line between those coordinates. *)
Theorem saved_lines_are_read_back (s t : State) (name : string) (ok : bool) :
  name ≠ "" →
  Py.truthy (current_file s) = false →
  Forall (stored_line s) (shape_object s) →
  unsaved_changes t = false ∨ ok = true →
  files t !! name = files (save_file name s).2 !! name →
  ∃ s' t',
    save_file name s = (Py.Ok tt, s') ∧
    open_file ok name t = (Py.Ok tt, t') ∧
    shape_object t' =
      shape_object t ++ seq (next_shape t) (length (shape_object s)) ∧
    (∀ (j : nat) sh, shape_object s !! j = Some sh →
       let old := shape_heap s sh in
       let new := shape_heap t' (next_shape t + j)%nat in
       cls new = Line ∧ corners new = corners old ∧ color new = color old ∧
       ∃ h, shape_id new = Some h ∧
            Tk.items (tk t') !! h =
              Some (line_item (x1 old) (y1 old) (x2 old) (y2 old) (color old))).
Proof.
  intros Hname Hcf Hall Hask Hfile.
  destruct (save_lines name s Hname Hcf Hall) as (s' & Hsave & Hfiles).
  rewrite Hsave in Hfile. cbn [snd] in Hfile. rewrite Hfiles, lookup_insert_eq in Hfile.
  rewrite <- (map_map (shape_heap s) line_text) in Hfile.
  assert (Hplain : Forall plain_line (map (shape_heap s) (shape_object s))).
  { apply Forall_map. eapply Forall_impl; [exact Hall|]. intros sh (_ & Hc & Hne & Hw).
    cbn beta. by split_and!. }
  destruct (open_lines ok name _ t Hname Hask Hfile Hplain)
    as (t' & Hopen & _ & Hdoc & _ & Hloaded).
  exists s', t'. split; [done|]. split; [done|].
  rewrite length_map in Hdoc. split; [done|].
  intros j sh Hj. cbv zeta.
  destruct (Hloaded j (shape_heap s sh)) as (H1 & H2 & H3 & _ & H5 & H6).
  { by rewrite list_lookup_fmap, Hj. }
  split_and!; try done. eexists. by split.
Qed.

(** ** Saving shapes that have no item *)

Lemma construct_body_cases sh s :
  (∃ e, construct_body sh s = (Py.Raise e, s)) ∨
  (∃ line, construct_body sh s = (Py.Ok tt, with_shapes (shapes s ++ [line]) s) ∧
           shape_id (shape_heap s sh) ≠ None).
Proof.
  unfold construct_body, bind, shape, get, tk_type, need_item, shape_line, update.
  destruct (shape_id (shape_heap s sh)) as [id|] eqn:Hid; cbn.
  - destruct (bool_decide (Tk.type id (tk s) = Some "rectangle")); cbn.
    + destruct (style (shape_heap s sh)); cbn; [right|left]; eexists; [|reflexivity].
      split; [reflexivity|done].
    + right. eexists. split; [reflexivity|done].
  - left. eexists. reflexivity.
Qed.

Lemma construct_stops sh l : ∀ s,
  sh ∈ l → shape_id (shape_heap s sh) = None →
  ∃ e s', for_each l construct_body s = (Py.Raise e, s') ∧ files s' = files s.
Proof.
  induction l as [|x l IH]; intros s Hin Hid; [by apply elem_of_nil in Hin|].
  cbn [for_each]. unfold bind at 1.
  destruct (construct_body_cases x s) as [[e ->]|(line & -> & Hx)].
  - by exists e, s.
  - apply elem_of_cons in Hin as [-> |Hin]; [done|].
    destruct (IH (with_shapes (shapes s ++ [line]) s) Hin Hid) as (e & s' & -> & Hf).
    by exists e, s'.
Qed.

(** A shape object without an item makes Save fail: [self.type(None)]
    raises in the loop that builds the texts, before the file is opened
    for writing.  Nothing is written. *)
Theorem save_fails_on_a_shape_without_an_item (s : State) (name : string) (sh : nat) :
  sh ∈ shape_object s →
  shape_id (shape_heap s sh) = None →
  Py.truthy (current_file s) = true ∨ name ≠ "" →
  ∃ e s', save_file name s = (Py.Raise e, s') ∧ files s' = files s.
Proof.
  intros Hin Hid Hname.
  unfold save_file, FileManager.save_file, bind at 1, get at 1.
  set (filename := match current_file s with
                   | Some f => if Py.truthy (current_file s) then f else name
                   | None => name
                   end).
  assert (Py.truthy (Some filename) = true) as ->.
  { subst filename. destruct (current_file s) as [[|c f]|]; destruct Hname as [Hn|Hn];
      try done; by destruct name. }
  unfold bind at 1. unfold construct_shape_from_shape_object. fold construct_body.
  unfold bind at 1, update at 1. unfold bind at 1, get at 1. cbn [shape_object with_shapes].
  destruct (construct_stops sh (shape_object s) (with_shapes [] s) Hin Hid) as (e & s' & -> & Hf).
  by exists e, s'.
Qed.

(** ** A click *)

Lemma widths_run w l : ∀ s,
  for_each l (fun sh => o <- shape sh ;; tk_itemconfig_width (shape_id o) w) s =
  (Py.Ok tt, with_tk (fold_left (item_width w (shape_heap s)) l (tk s)) s).
Proof.
  induction l as [|sh l IH]; intros s.
  - by destruct s.
  - cbn [for_each fold_left]. unfold bind at 1 2, shape at 1, get at 1.
    unfold item_width at 2.
    destruct (shape_id (shape_heap s sh)) as [id|]; cbn [tk_itemconfig_width].
    + unfold update at 1. by rewrite IH.
    + unfold ret at 1. by rewrite IH.
Qed.

Lemma deleted_all ids : ∀ c t,
  t ∈ ids → Tk.items (fold_left (fun c t => Tk.delete t c) ids c) !! t = None.
Proof.
  induction ids as [|x ids IH]; intros c t Ht; [by apply elem_of_nil in Ht|].
  cbn [fold_left]. apply elem_of_cons in Ht as [-> |Ht]; [|by apply IH].
  apply deleted_stays_deleted. cbn. apply lookup_delete_eq.
Qed.

(** A click that has no move to drop deselects: the selection is emptied,
    the outlines of the shapes that were selected are set back to width 1
    and the annotation texts are deleted; the document and the shape
    objects are not touched.  With nothing selected, the annotation texts
    stay. *)
Theorem click_deselects (event : Event) (s : State) :
  mode s ≠ "ready_to_move" →
  on_click event s = (Py.Ok tt, clicked event s) ∧
  selected_shapes (clicked event s) = [] ∧
  shape_object (clicked event s) = shape_object s ∧
  shape_heap (clicked event s) = shape_heap s ∧
  (selected_shapes s ≠ [] →
     properties_text_ids (clicked event s) = [] ∧
     ∀ t, t ∈ properties_text_ids s → Tk.items (tk (clicked event s)) !! t = None) ∧
  (selected_shapes s = [] →
     properties_text_ids (clicked event s) = properties_text_ids s ∧
     tk (clicked event s) = tk s).
Proof.
  intros Hm.
  assert (Hrun : on_click event s = (Py.Ok tt, clicked event s)).
  { unfold on_click, clicked. unfold bind at 1, update at 1. unfold bind at 1, update at 1.
    unfold bind at 1, get at 1. cbn [mode with_start_x with_start_y].
    rewrite bool_decide_eq_false_2 by done.
    unfold bind at 1, ret at 1. unfold bind at 1, get at 1.
    cbn [selected_shapes with_start_x with_start_y].
    destruct (selected_shapes s) as [|sh l] eqn:Hsel; [reflexivity|].
    unfold bind at 1. rewrite widths_run.
    unfold bind at 1, update at 1.
    unfold clear_properties_text, bind at 1, get at 1. unfold bind at 1.
    rewrite clear_texts_run. unfold update. reflexivity. }
  split; [exact Hrun|]. unfold clicked.
  destruct (selected_shapes s) as [|sh l] eqn:Hsel; cbn; split_and!; try done.
  intros _. split; [done|]. intros t Ht. by apply deleted_all.
Qed.

(** ** An Open that fails *)

Lemma cleared_create (I : State → Prop) n k cs f o sm :
  (∀ s c, I s → I (with_tk c s)) →
  preserves (fun s => I s ∧ cleared_below n s) (tk_create k cs f o sm).
Proof.
  intros HI s [Hs [Hn Hgone]]. unfold tk_create, Tk.create. cbn.
  split; [by apply HI|]. split; cbn; [lia|].
  intros i Hi. rewrite lookup_insert_ne by lia. by apply Hgone.
Qed.

Lemma cleared_delete (I : State → Prop) n id :
  (∀ s c, I s → I (with_tk c s)) →
  preserves (fun s => I s ∧ cleared_below n s)
    (update (fun s => with_tk (Tk.delete id (tk s)) s)).
Proof.
  intros HI s [Hs [Hn Hgone]]. cbn.
  split; [by apply HI|]. split; cbn; [lia|].
  intros i Hi. apply lookup_delete_None. right. by apply Hgone.
Qed.

(** When the load fails (no such file, a number that does not parse, a
    line that is too short), Open has raised before it registers the file:
    the current file and the unsaved flag are what they were.  By then
    [file_opened] is set and every item the canvas held is deleted. *)
Theorem failed_open_registers_nothing (ok : bool) (name : string) (s s' : State) (e : Py.exn) :
  open_file ok name s = (Py.Raise e, s') →
  current_file s' = current_file s ∧
  unsaved_changes s' = unsaved_changes s ∧
  file_opened s' = true ∧
  cleared_below (Tk.next_id (tk s)) s'.
Proof.
  intros Hrun.
  set (I := fun t : State =>
    current_file t = current_file s ∧ unsaved_changes t = unsaved_changes s ∧
    file_opened t = true).
  set (P := fun t : State => I t ∧ cleared_below (Tk.next_id (tk s)) t).
  assert (HI : ∀ t c, I t → I (with_tk c t)) by done.
  pose proof (cleared_create I (Tk.next_id (tk s))) as Hc.
  pose proof (cleared_delete I (Tk.next_id (tk s))) as Hd.
  assert (Hload : ∀ content,
            hoare P (for_each (Py.readlines content) (fun line =>
                       update (fun s => with_shapes (shapes s ++ [Py.strip line]) s)) ;;
                     redraw_shapes ;;
                     update (with_current_file (Some name)) ;;
                     update (with_unsaved_changes false))
                  (fun _ _ => True) P).
  { intros content.
    apply (hoare_bind (fun _ => P)); [hoare_run|]. intros _.
    apply (hoare_bind (fun _ => P)).
    { unfold redraw_shapes, int_arg, Line_init, Rectangle_init, append_shape_object,
        Shape_update, Line_update, Rectangle_update, draw_rounded_rectangle, create_line,
        create_rectangle, create_polygon, tk_delete, set_shape.
      subst P. hoare_run; by apply Hc || by apply Hd. }
    intros _. apply (hoare_bind (fun _ _ => True)); [by apply hoare_update|].
    intros _. by apply hoare_update. }
  assert (Hk : hoare (fun t => t = s) (open_file ok name) (fun _ _ => True) P).
  { unfold open_file, FileManager.open_file.
    apply (hoare_bind (fun _ t => t = s)); [by apply hoare_get|]. intros unsaved.
    destruct (unsaved && negb ok); [by apply hoare_ret|].
    destruct (Py.truthy (Some name)); [|by apply hoare_ret].
    apply (hoare_bind (fun _ t => I t ∧ tk t = tk s)).
    { apply hoare_update. by intros t ->. }
    intros _. apply (hoare_bind (fun _ t => I t ∧ tk t = tk s)).
    { apply hoare_update. by intros t [? ?]. }
    intros _. apply (hoare_bind (fun _ => P)).
    { unfold tk_delete_all. apply hoare_update. intros t [Ht Htk]. split; [done|].
      split; cbn; [by rewrite Htk|]. intros i _. apply lookup_empty. }
    intros _. apply (hoare_bind (fun _ => P)); [by apply hoare_get|]. intros disk.
    destruct (disk !! name) as [content|]; [apply Hload|by apply hoare_raise]. }
  specialize (Hk s eq_refl). rewrite Hrun in Hk.
  destruct Hk as [(H1 & H2 & H3) H4]. by split_and!.
Qed.

Lemma failed_open_registers_nothing_witness :
  ∃ s', open_file true "missing.txt" short_line = (Py.Raise Py.FileNotFoundError, s') ∧
        current_file s' = None ∧ file_opened s' = true ∧ Tk.items (tk s') !! 1 = None.
Proof.
  eexists. split; [vm_compute; reflexivity|].
  destruct (failed_open_registers_nothing true "missing.txt" short_line
              (open_file true "missing.txt" short_line).2 Py.FileNotFoundError)
    as (Hcf & _ & Ho & _ & Hgone).
  - vm_compute. reflexivity.
  - split_and!; [vm_compute; reflexivity|exact Ho|].
    apply Hgone. vm_compute. reflexivity.
Defined.

(** ** What changes the groups *)

Lemma groups_new_shape s0 v :
  groups v = [] → preserves (groups_as_in s0) (new_shape v).
Proof.
  intros Hv s (HG & Hn & Hold & Hnew). unfold groups_as_in. cbn. split_and!; [done|lia| |].
  - intros r Hr. rewrite upd_other by lia. by apply Hold.
  - intros r Hr. unfold upd. destruct (Nat.eqb_spec r (next_shape s)) as [-> |Hne]; [done|].
    apply Hnew. lia.
Qed.

Lemma groups_modify s0 sh (f : Shape → Shape) :
  (∀ o, groups (f o) = groups o) →
  preserves (groups_as_in s0) (o <- shape sh ;; set_shape sh (f o)).
Proof.
  intros Hf s (HG & Hn & Hold & Hnew). cbn.
  assert (Hsame : ∀ r, groups (upd sh (f (shape_heap s sh)) (shape_heap s) r) =
                       groups (shape_heap s r)).
  { intros r. unfold upd. destruct (Nat.eqb_spec r sh) as [-> |]; [apply Hf|done]. }
  unfold groups_as_in. cbn. split_and!; [done|done| |].
  - intros r Hr. rewrite Hsame. by apply Hold.
  - intros r Hr. rewrite Hsame. by apply Hnew.
Qed.

Lemma groups_modify_then {A} s0 sh (f : Shape → Shape) (k : M A) :
  (∀ o, groups (f o) = groups o) →
  preserves (groups_as_in s0) k →
  preserves (groups_as_in s0) (o <- shape sh ;; set_shape sh (f o) ;; k).
Proof.
  intros Hf Hk s HI. pose proof (groups_modify s0 sh f Hf s HI) as Hm.
  unfold bind, shape, get, set_shape, update in Hm |- *. by apply Hk.
Qed.

Ltac groups_special :=
  lazymatch goal with
  | |- hoare (groups_as_in _)
         (bind (shape ?sh) (fun o => bind (set_shape ?sh (@?f o)) (fun _ => ?k))) _ _ =>
      apply (groups_modify_then _ sh f k); [reflexivity|]
  | |- hoare (groups_as_in _) (bind (shape ?sh) (fun o => set_shape ?sh (@?f o))) _ _ =>
      apply (groups_modify _ sh f); reflexivity
  | |- hoare (groups_as_in _) (new_shape _) _ _ => apply groups_new_shape; reflexivity
  end.

Ltac groups_run := repeat first [groups_special | hoare_step].

Ltac unfold_canvas_methods :=
  unfold highlight, set_color, set_tool, set_mode, set_style,
    open_file, FileManager.open_file, save_file, FileManager.save_file, save_to_xml,
    on_drag, on_click, highlight_shapes_in_area, select_overlapping, select,
    edit_selected_shape, update_rectangle_style,
    move_shape, move_one, copy_shape, delete_shape, draw_shape, redraw_shapes, int_arg,
    construct_shape_from_shape_object, shape_line, clear_properties_text,
    remove_shape_object, append_shape_object, show_popup_message, finalize,
    Shape_update, Rectangle_update, Line_update, draw_rounded_rectangle,
    Rectangle_init, Line_init, anchor,
    tk_bbox, tk_gettags, create_text, tk_itemconfig_fill, tk_itemconfig_width, tk_itemcget,
    tk_move, tk_coords, tk_type, tk_delete_all, tk_delete, create_polygon, create_rectangle,
    create_line, tk_create, need_item.

Lemma groups_perform fo bb nm El fs wr s0 c :
  regroups c s0 = false →
  hoare (fun s => s = s0) (perform fo bb nm El fs wr c)
    (fun _ => groups_as_in s0) (groups_as_in s0).
Proof.
  intros Hc.
  assert (Hstart : ∀ s, s = s0 → groups_as_in s0 s).
  { intros s ->. unfold groups_as_in. split_and!; try done. intros r Hr. lia. }
  destruct c; cbn [perform];
    try (apply (hoare_conseq (groups_as_in s0) _ _ (fun _ => groups_as_in s0) _
                  (groups_as_in s0) (groups_as_in s0)); [|exact Hstart|done|done];
         unfold_canvas_methods; groups_run; fail).
  cbn [regroups] in Hc. apply orb_false_iff in Hc as [Hg Hu].
  apply bool_decide_eq_false in Hg, Hu.
  unfold on_release.
  apply (hoare_bind (fun m s => groups_as_in s0 s ∧ m = mode s0)).
  { apply hoare_get. intros s ->. split; [by apply Hstart|done]. }
  intros m. apply hoare_pure. intros ->.
  rewrite (bool_decide_eq_false_2 (mode s0 = "group")) by done.
  rewrite (bool_decide_eq_false_2 (mode s0 = "ungroup")) by done.
  unfold_canvas_methods. groups_run.
Qed.

(** The groups change only when the pointer is released in group or
    ungroup mode.  Whatever else the user does (draw, copy, move, delete,
    edit, open, save), no group changes and no shape object changes its
    stack of groups, and the shape objects it makes are in no group: a
    deleted shape stays a member of its groups, a copy is never in the
    groups of its original. *)
Theorem only_grouping_changes_the_groups fo bb nm (El : Type) fs wr
    (c : Command) (s : State) :
  regroups c s = false →
  let s' := callback (perform fo bb nm El fs wr c) s in
  group_heap s' = group_heap s ∧
  (∀ r, (r < next_shape s)%nat → groups (shape_heap s' r) = groups (shape_heap s r)) ∧
  (∀ r, (next_shape s ≤ r < next_shape s')%nat → groups (shape_heap s' r) = []).
Proof.
  intros Hc. cbv zeta. unfold callback.
  pose proof (groups_perform fo bb nm El fs wr s c Hc s eq_refl) as Hk.
  destruct (perform fo bb nm El fs wr c s) as [[[]|e] s']; cbn [snd];
    destruct Hk as (H1 & _ & H3 & H4); by split_and!.
Qed.

Lemma run_canvas_sound hit cs argv disk : canvas_sound (Session.run hit cs (init argv disk)).
Proof.
  unfold Session.run.
  apply (mainloop_keeps _ _ _ _ _ _ canvas_sound); [apply canvas_perform|apply canvas_sound_init].
Qed.

Lemma delete_shape_stops_at_a_missing_shape_witness :
  ∃ s', delete_shape (with_selected_shapes [5%nat] three_lines) = (Py.Raise Py.ValueError, s').
Proof.
  eexists.
  apply (delete_shape_stops_at_a_missing_shape (with_selected_shapes [5%nat] three_lines)
           5%nat []).
  - vm_compute. reflexivity.
  - intros H%list_elem_of_In. vm_compute in H. intuition discriminate.
Defined.

Lemma edit_always_deletes_the_shape_witness :
  ∃ s', edit_selected_shape (Some "red") None line_to_edit = (Py.Ok tt, s') ∧
        shape_object s' = [] ∧ Tk.items (tk s') !! 1 = None.
Proof.
  destruct (edit_always_deletes_the_shape line_to_edit 0%nat 1 (Some "red") None)
    as (s' & objs' & Hrun & Hrm & Hdoc & Hitem & _).
  - vm_compute. reflexivity.
  - vm_compute. reflexivity.
  - vm_compute. left.
  - vm_compute. lia.
  - intros H. vm_compute in H. discriminate H.
  - intros col [= <-]. right. by exists Red.
  - exists s'. split_and!; [assumption| |assumption].
    rewrite Hdoc. vm_compute in Hrm. by injection Hrm as <-.
Defined.

Lemma edited_rectangle_belongs_to_no_shape_witness :
  ∃ s' new_it,
    edit_selected_shape (Some "red") (Some "s") Session.square_to_edit = (Py.Ok tt, s') ∧
    shape_object s' = [] ∧
    Tk.items (tk s') !! 1 = None ∧
    Tk.items (tk s') !! 3 = Some new_it ∧
    Tk.outline new_it = "red" ∧
    (∀ r, shape_id (shape_heap s' r) ≠ Some 3).
Proof.
  destruct (edited_rectangle_belongs_to_no_shape Session.square_to_edit 0%nat 1
              {| Tk.kind := Tk.KRectangle; Tk.coords := [0; 0; 40; 40]%Q; Tk.fill := "";
                 Tk.outline := "blue"; Tk.width := 3; Tk.tags := ""; Tk.smooth := false |}
              "red" "s")
    as (s' & objs' & new_it & Hrun & Hrm & Hdoc & Hgone & Hitem & _ & Hout & _ & Hfree).
  - apply run_canvas_sound.
  - vm_compute. reflexivity.
  - vm_compute. reflexivity.
  - vm_compute. left.
  - vm_compute. lia.
  - vm_compute. reflexivity.
  - reflexivity.
  - reflexivity.
  - by exists Red.
  - by left.
  - exists s', new_it. split_and!; try assumption.
    rewrite Hdoc. vm_compute in Hrm. by injection Hrm as <-.
Defined.

Lemma nothing_is_drawn_after_an_open_witness :
  let s' := Session.run [] [DrawLine Red; Press (at_ 0 0)] reopened_line in
  file_opened s' = true ∧
  ∀ event, mode s' = "draw" →
    tk (callback (perform (fun _ _ _ _ _ => []) (fun _ _ => Some (0, 0, 10, 10))
                    (fun _ ids => Py.Ok ids) unit (fun _ => Py.Ok tt) (fun _ => "")
                    (Motion event)) s') = tk s'.
Proof.
  apply (nothing_is_drawn_after_an_open (fun _ _ _ _ _ => []) (fun _ _ => Some (0, 0, 10, 10))
           (fun _ ids => Py.Ok ids) unit (fun _ => Py.Ok tt) (fun _ => "") reopened_line
           [DrawLine Red; Press (at_ 0 0)]).
  vm_compute. reflexivity.
Defined.

Lemma area_selection_for_a_move_works_once_witness :
  let s' := Session.run [1] [Actions Move; Press (at_ 0 0)] moved_sharp in
  moving s' = true ∧
  ∀ event, mode s' = "move" →
    perform (fun _ _ _ _ _ => [1]) (fun _ _ => Some (0, 0, 10, 10))
      (fun _ ids => Py.Ok ids) unit (fun _ => Py.Ok tt) (fun _ => "") (Motion event) s' =
    (Py.Ok tt, s').
Proof.
  apply (area_selection_for_a_move_works_once (fun _ _ _ _ _ => [1])
           (fun _ _ => Some (0, 0, 10, 10)) (fun _ ids => Py.Ok ids) unit (fun _ => Py.Ok tt)
           (fun _ => "") moved_sharp [Actions Move; Press (at_ 0 0)]).
  vm_compute. reflexivity.
Defined.

Lemma save_and_export_register_no_file_witness :
  current_file (Session.run [] [FileSave "a.txt"; FileExport "a.xml"] (init None ∅)) = None.
Proof.
  apply (save_and_export_register_no_file (fun _ _ _ _ _ => []) (fun _ _ => Some (0, 0, 10, 10))
           (fun _ ids => Py.Ok ids) unit (fun _ => Py.Ok tt) (fun _ => "") None ∅
           [FileSave "a.txt"; FileExport "a.xml"]).
  reflexivity.
Defined.

Lemma registered_file_is_the_target_witness :
  save_file "new.txt" opened_other = save_file "" opened_other ∧
  save_to_xml unit (fun _ => Py.Ok tt) (fun _ => "") "new.xml" opened_other =
    save_to_xml unit (fun _ => Py.Ok tt) (fun _ => "") "" opened_other.
Proof.
  destruct (registered_file_is_the_target unit (fun _ => Py.Ok tt) (fun _ => "") opened_other
              "other.txt") with (name := "new.txt") as (Hs & _ & _).
  - vm_compute. reflexivity.
  - discriminate.
  - split; [exact Hs|].
    destruct (registered_file_is_the_target unit (fun _ => Py.Ok tt) (fun _ => "") opened_other
                "other.txt") with (name := "new.xml") as (_ & Hx & _).
    + vm_compute. reflexivity.
    + discriminate.
    + exact Hx.
Defined.

Lemma copy_shape_duplicates_what_is_drawn_witness :
  ∃ s', copy_shape Session.line_to_copy = (Py.Ok tt, s') ∧
        shape_object s' = [0; 1]%nat ∧
        corners (shape_heap s' 1%nat) =
          [Py.PyFloat 60; Py.PyFloat 60; Py.PyFloat 100; Py.PyFloat 100].
Proof.
  destruct (copy_shape_duplicates_what_is_drawn Session.line_to_copy
              [ {| Tk.kind := Tk.KLine; Tk.coords := [10; 10; 50; 50]%Q; Tk.fill := "black";
                   Tk.outline := ""; Tk.width := 3; Tk.tags := ""; Tk.smooth := false |} ])
    as (s' & Hrun & _ & Hdoc & _ & _ & Hcopies).
  - vm_compute. reflexivity.
  - intros i Hi.
    assert (Hc : canvas_sound Session.line_to_copy) by apply run_canvas_sound.
    destruct Hc as (_ & _ & _ & Hit & _). specialize (Hit i Hi). lia.
  - replace (selected_shapes Session.line_to_copy) with [0%nat] by (vm_compute; reflexivity).
    constructor; [|constructor]. split; [vm_compute; lia|].
    exists 1. split_and!.
    + vm_compute. reflexivity.
    + vm_compute. reflexivity.
    + split_and!; [reflexivity|vm_compute; reflexivity|by left].
  - exists s'. split_and!; [assumption| |].
    + rewrite Hdoc. vm_compute. reflexivity.
    + destruct (Hcopies 0%nat _ eq_refl) as [Hobj _].
      replace (next_shape Session.line_to_copy + 0)%nat with 1%nat in Hobj
        by (vm_compute; reflexivity).
      rewrite Hobj. vm_compute. reflexivity.
Defined.

Lemma saved_lines_are_read_back_witness :
  ∃ s' t',
    save_file "line.txt" short_line = (Py.Ok tt, s') ∧
    open_file true "line.txt" (init None (files saved_line)) = (Py.Ok tt, t') ∧
    shape_object t' = [0%nat] ∧
    corners (shape_heap t' 0%nat) = [Py.PyInt 10; Py.PyInt 10; Py.PyInt 50; Py.PyInt 50] ∧
    color (shape_heap t' 0%nat) = "black".
Proof.
  destruct (saved_lines_are_read_back short_line (init None (files saved_line)) "line.txt" true)
    as (s' & t' & Hsave & Hopen & Hdoc & Hlines).
  - discriminate.
  - vm_compute. reflexivity.
  - replace (shape_object short_line) with [0%nat] by (vm_compute; reflexivity).
    constructor; [|constructor]. split_and!.
    + exists 1. split; vm_compute; reflexivity.
    + exists 10, 10, 50, 50. vm_compute. reflexivity.
    + vm_compute. discriminate.
    + vm_compute. reflexivity.
  - by right.
  - vm_compute. reflexivity.
  - exists s', t'. split; [exact Hsave|]. split; [exact Hopen|].
    destruct (Hlines 0%nat 0%nat) as (_ & Hc & Hcol & _); [vm_compute; reflexivity|].
    change (next_shape (init None (files saved_line)) + 0)%nat with 0%nat in Hc, Hcol.
    split_and!.
    + rewrite Hdoc. vm_compute. reflexivity.
    + rewrite Hc. vm_compute. reflexivity.
    + rewrite Hcol. vm_compute. reflexivity.
Defined.

Lemma save_fails_on_a_shape_without_an_item_witness :
  ∃ e s', save_file "" Session.drawn_after_open = (Py.Raise e, s') ∧
          files s' = files Session.drawn_after_open.
Proof.
  apply (save_fails_on_a_shape_without_an_item Session.drawn_after_open "" 1%nat).
  - vm_compute. right. left.
  - vm_compute. reflexivity.
  - left. vm_compute. reflexivity.
Defined.

Lemma click_deselects_witness :
  on_click (at_ 0 0) two_selected = (Py.Ok tt, clicked (at_ 0 0) two_selected) ∧
  selected_shapes (clicked (at_ 0 0) two_selected) = [].
Proof.
  destruct (click_deselects (at_ 0 0) two_selected) as (Hrun & Hsel & _).
  - vm_compute. discriminate.
  - split; assumption.
Defined.

Lemma only_grouping_changes_the_groups_witness :
  group_heap (callback (perform (fun _ _ _ _ _ => []) (fun _ _ => None)
                          (fun _ ids => Py.Ok ids) unit (fun _ => Py.Ok tt) (fun _ => "")
                          (Release (at_ 0 0) None None)) (with_mode "delete" first_group)) =
  group_heap (with_mode "delete" first_group).
Proof.
  destruct (only_grouping_changes_the_groups (fun _ _ _ _ _ => []) (fun _ _ => None)
              (fun _ ids => Py.Ok ids) unit (fun _ => Py.Ok tt) (fun _ => "")
              (Release (at_ 0 0) None None) (with_mode "delete" first_group))
    as (HG & _).
  - vm_compute. reflexivity.
  - exact HG.
Defined.

Lemma rounded_rectangle_is_a_polygon_witness :
  ∃ id, shape_id (shape_heap (Shape_update 0%nat (Py.PyInt 0) (Py.PyInt 0) (Py.PyInt 90)
                                (Py.PyInt 90) rounded).2 0%nat) = Some id ∧
        Tk.type id (tk (Shape_update 0%nat (Py.PyInt 0) (Py.PyInt 0) (Py.PyInt 90)
                          (Py.PyInt 90) rounded).2) = Some "polygon".
Proof.
  apply (rounded_rectangle_is_a_polygon 0%nat (Py.PyInt 0) (Py.PyInt 0) (Py.PyInt 90)
           (Py.PyInt 90) rounded).
  - vm_compute. reflexivity.
  - vm_compute. reflexivity.
Defined.

(** ** Saving, field by field *)

Lemma shape_line_written c id o s0 :
  (Tk.type id c = Some "rectangle" → is_Some (style o)) →
  shape_line (Tk.type id c) o s0 =
  (Py.Ok (String.concat " " (stored_fields (type_word c id) o)), s0).
Proof.
  intros Hst. unfold shape_line, stored_fields, type_word.
  destruct (Tk.type id c) as [t|] eqn:Et.
  - case_bool_decide as Hr.
    + injection Hr as ->. rewrite bool_decide_eq_true_2 by done.
      destruct (Hst eq_refl) as [st ->]. unfold ret. f_equal. f_equal.
      cbn [app String.concat]. rewrite !str_app_assoc. reflexivity.
    + rewrite bool_decide_eq_false_2 by (by intros ->). reflexivity.
  - rewrite bool_decide_eq_false_2 by done. rewrite bool_decide_eq_false_2 by done.
    reflexivity.
Qed.

Lemma construct_written l (s : State) : ∀ s0,
  shape_heap s0 = shape_heap s → tk s0 = tk s →
  Forall (savable s) l →
  for_each l construct_body s0 =
  (Py.Ok tt, with_shapes (shapes s0 ++ map (written_line s) l) s0).
Proof.
  induction l as [|sh l IH]; intros s0 HH Htk Hall.
  - cbn. rewrite app_nil_r. by destruct s0.
  - apply Forall_cons in Hall as [(_ & id & Hid & Hst) Hall].
    cbn [for_each]. unfold bind at 1.
    assert (Hone : construct_body sh s0 =
                   (Py.Ok tt, with_shapes (shapes s0 ++ [written_line s sh]) s0)).
    { unfold construct_body, bind at 1, shape at 1, get at 1. rewrite HH, Hid.
      unfold bind at 1, tk_type at 1, bind at 1, need_item at 1, ret at 1, get at 1.
      rewrite Htk. unfold bind at 1. rewrite shape_line_written by exact Hst.
      unfold update, written_line. cbv zeta. by rewrite Hid. }
    rewrite Hone. rewrite IH by done.
    cbn [shapes shape_heap with_shapes map]. rewrite <- app_assoc. reflexivity.
Qed.

(** C3, amended.  [save_file] reads the canvas only for the type of each
    shape's item: on a canvas [c'] whose items have the same types, with
    whatever coordinates and options, it returns the same result and
    leaves the same files.  And on a document whose shapes have handles
    and coordinates in range, it succeeds and what it writes is this: one
    line per shape object, in document order, made of the type word of the
    shape's item followed by the x1, y1, x2, y2, the colour and (for a
    rectangle item) the style that are stored in the shape object. *)
Theorem save_takes_fields_from_shape_objects (s : State) (name : string) :
  (∀ c', (∀ id, Tk.type id c' = Tk.type id (tk s)) →
         (save_file name (with_tk c' s)).1 = (save_file name s).1 ∧
         files (save_file name (with_tk c' s)).2 = files (save_file name s).2) ∧
  (target_file s name ≠ "" →
   Forall (savable s) (shape_object s) →
   ∃ s',
     save_file name s = (Py.Ok tt, s') ∧
     shapes s' = map (written_line s) (shape_object s) ∧
     files s' =
       <[target_file s name := file_text (map (written_line s) (shape_object s))]> (files s)).
Proof.
  split.
  { intros c' Hty. destruct (save_file_blind c' name s Hty) as [-> _]. done. }
  intros Hname Hall.
  exists (with_unsaved_changes false
            (with_files (<[target_file s name :=
                             file_text (map (written_line s) (shape_object s))]> (files s))
               (with_shapes (map (written_line s) (shape_object s)) s))).
  split; [|split; reflexivity].
  unfold save_file, FileManager.save_file, bind at 1, get at 1.
  fold (target_file s name).
  assert (Py.truthy (Some (target_file s name)) = true) as ->
    by (by destruct (target_file s name)).
  unfold bind at 1. unfold construct_shape_from_shape_object. fold construct_body.
  unfold bind at 1, update at 1. unfold bind at 1, get at 1.
  cbn [shape_object with_shapes].
  rewrite (construct_written _ s) by done.
  unfold bind at 1, get at 1. unfold bind at 1, update at 1. unfold update.
  reflexivity.
Qed.

(** The line dragged through (50,50) to (100,100): its item ends at
    (100,100), its line in the file at the stored (50,50). *)
Lemma save_takes_fields_from_shape_objects_witness :
  ∃ s', save_file "a.txt" (long_line 50) = (Py.Ok tt, s') ∧
        files s' !! "a.txt" = Some ("line 10 10 50 50 black" +:+ nl) ∧
        Tk.get_coords 2 (tk (long_line 50)) =
          [Py.PyFloat 10; Py.PyFloat 10; Py.PyFloat 100; Py.PyFloat 100].
Proof.
  destruct (proj2 (save_takes_fields_from_shape_objects (long_line 50) "a.txt"))
    as (s' & Hrun & _ & Hfiles).
  - vm_compute. discriminate.
  - replace (shape_object (long_line 50)) with [0%nat] by (vm_compute; reflexivity).
    constructor; [|constructor]. split; [vm_compute; reflexivity|].
    exists 2. split; [vm_compute; reflexivity|].
    intros H. vm_compute in H. discriminate H.
  - exists s'. split_and!; [assumption| |vm_compute; reflexivity].
    rewrite Hfiles. vm_compute. reflexivity.
Defined.

(** ** The groups of a session *)

Lemma nested_ext sel stack members ns ng stack' members' ns' :
  (∀ x, stack' x = stack x) → (∀ g, members' g = members g) → (ns ≤ ns')%nat →
  nested sel stack members ns ng → nested sel stack' members' ns' ng.
Proof.
  intros Hs Hm Hn [H1 H2 H3 H4 H5 H6 H7 H8 H9]. constructor.
  - done.
  - intros x Hx. rewrite Hs. apply H2. lia.
  - intros g Hg. rewrite Hm. by apply H3.
  - intros x g. rewrite Hs, Hm. apply H4.
  - intros x. rewrite Hs. apply H5.
  - intros g. rewrite Hm. apply H6.
  - intros x y g g'. rewrite !Hm. apply H7.
  - intros g x. rewrite Hm. intros Hx. destruct (H8 g x Hx) as (y & Hne & Hy).
    by exists y.
  - intros x y g. rewrite Hm. apply H9.
Qed.

Lemma nested_with_selection sel' sel stack members ns ng :
  nested sel stack members ns ng → NoDup sel' →
  (∀ x y g, x ∈ sel' → x ∈ members g → y ∈ members g → y ∈ sel') →
  nested sel' stack members ns ng.
Proof. intros [H1 H2 H3 H4 H5 H6 H7 H8 H9] Hnd Hc. by constructor. Qed.

(** A group that is on a stack has been handed out. *)
Lemma nested_old_group sel stack members ns ng x g :
  nested sel stack members ns ng → g ∈ stack x → (g < ng)%nat.
Proof.
  intros Hn Hg. destruct (Nat.lt_ge_cases g ng) as [|Hge]; [done|].
  apply (nested_member _ _ _ _ _ Hn) in Hg.
  rewrite (nested_fresh_group _ _ _ _ _ Hn g Hge) in Hg. by apply elem_of_nil in Hg.
Qed.

(** The top of a stack is its latest group. *)
Lemma sorted_last_max (l : list nat) g g' :
  StronglySorted Nat.lt l → last l = Some g → g' ∈ l → (g' ≤ g)%nat.
Proof.
  intros Hs Hl Hin. apply last_Some in Hl as [l' ->].
  apply elem_of_app in Hin as [Hin| ->%list_elem_of_singleton]; [|done].
  apply Nat.lt_le_incl. eapply StronglySorted_app_1_elem_of; [exact Hs|exact Hin|left].
Qed.

Lemma sorted_max_last (l : list nat) g :
  StronglySorted Nat.lt l → g ∈ l → (∀ g', g' ∈ l → (g' ≤ g)%nat) → last l = Some g.
Proof.
  intros Hs Hin Hmax. destruct (last l) as [m|] eqn:El.
  - f_equal. apply Nat.le_antisymm.
    + apply Hmax. apply last_Some in El as [l' ->]. apply elem_of_app. right. left.
    + by apply (sorted_last_max l).
  - apply last_None in El. subst l. by apply elem_of_nil in Hin.
Qed.

Lemma sorted_removelast (l : list nat) :
  StronglySorted Nat.lt l → StronglySorted Nat.lt (removelast l).
Proof.
  intros Hs. destruct (last l) as [m|] eqn:El.
  - apply last_Some in El as [l' ->]. rewrite removelast_last.
    by apply StronglySorted_app_1_l in Hs.
  - apply last_None in El. by subst l.
Qed.

(** Every member of the group on top of a shape's stack has that group on
    top of its own. *)
Lemma nested_top sel stack members ns ng x y g :
  nested sel stack members ns ng →
  last (stack x) = Some g → y ∈ members g → last (stack y) = Some g.
Proof.
  intros Hn Hl Hy.
  assert (Hx : x ∈ members g).
  { apply (nested_member _ _ _ _ _ Hn). apply last_Some in Hl as [l' ->].
    apply elem_of_app. right. left. }
  apply sorted_max_last.
  - apply (nested_sorted _ _ _ _ _ Hn).
  - by apply (nested_member _ _ _ _ _ Hn).
  - intros g' Hg'. destruct (Nat.le_gt_cases g' g) as [|Hlt]; [done|].
    apply (nested_member _ _ _ _ _ Hn) in Hg'.
    pose proof (nested_later _ _ _ _ _ Hn y x g g' Hy Hx Hlt Hg') as Hxg'.
    apply (nested_member _ _ _ _ _ Hn) in Hxg'.
    pose proof (sorted_last_max _ _ _ (nested_sorted _ _ _ _ _ Hn x) Hl Hxg'). lia.
Qed.

(** *** Selecting *)

Lemma nested_select_one sel stack members ns ng (H : nat → Shape) (G : nat → Group.t) t :
  (∀ x, groups (H x) = stack x) → (∀ g, Group.shapes (G g) = members g) →
  nested sel stack members ns ng →
  nested (selected_with_groups H G sel t) stack members ns ng.
Proof.
  intros HH HG Hn. apply (nested_with_selection _ sel); [done| |].
  - apply selected_with_groups_NoDup. apply (nested_sel _ _ _ _ _ Hn).
  - intros x y g Hx Hxg Hyg.
    apply selected_with_groups_elem in Hx as [Hx|[Hni Hx]].
    { apply selected_with_groups_elem. left.
      by apply (nested_closed _ _ _ _ _ Hn x y g). }
    apply selected_with_groups_elem. right. split; [done|]. right.
    destruct Hx as [-> |(g0 & Hg0 & Hx)].
    + exists g. rewrite HH, HG. split; [|done]. by apply (nested_member _ _ _ _ _ Hn).
    + rewrite HH in Hg0. rewrite HG in Hx.
      apply (nested_member _ _ _ _ _ Hn) in Hg0.
      destruct (Nat.lt_total g g0) as [Hlt|[-> |Hlt]].
      * exists g0. rewrite HH, HG. split; [by apply (nested_member _ _ _ _ _ Hn)|].
        by apply (nested_later _ _ _ _ _ Hn x y g g0).
      * exists g0. rewrite HH, HG. split; [by apply (nested_member _ _ _ _ _ Hn)|done].
      * exists g. rewrite HH, HG. split; [|done].
        apply (nested_member _ _ _ _ _ Hn).
        by apply (nested_later _ _ _ _ _ Hn x t g0 g).
Qed.

Lemma gs_select_overlapping ids : preserves group_sound (select_overlapping ids).
Proof.
  intros s Hg. rewrite select_overlapping_run. unfold group_sound in *.
  cbn [selected_shapes shape_heap group_heap next_shape next_group with_selected_shapes].
  revert Hg. generalize (selected_shapes s) as sel.
  induction (overlapping_shapes_obj s ids) as [|t l IH]; intros sel Hn; [done|].
  cbn [fold_left]. apply IH. by apply nested_select_one.
Qed.

Lemma gs_clear_selection : preserves group_sound (update (with_selected_shapes [])).
Proof.
  intros s Hg. cbn. unfold group_sound in *. cbn.
  apply (nested_with_selection _ (selected_shapes s)); [done|apply NoDup_nil_2|].
  intros x y g Hx. by apply elem_of_nil in Hx.
Qed.

(** *** Shape objects come and change, outside their stacks *)

Lemma gs_new_shape v : groups v = [] → preserves group_sound (new_shape v).
Proof.
  intros Hv s Hg. cbn. unfold group_sound in *. cbn.
  eapply nested_ext; [| |apply Nat.le_succ_diag_r|exact Hg]; [|done].
  intros x. cbv beta. unfold upd. destruct (Nat.eqb_spec x (next_shape s)) as [-> |]; [|done].
  rewrite Hv. symmetry. by apply (nested_fresh_shape _ _ _ _ _ Hg).
Qed.

Lemma gs_modify sh (f : Shape → Shape) :
  (∀ o, groups (f o) = groups o) →
  preserves group_sound (o <- shape sh ;; set_shape sh (f o)).
Proof.
  intros Hf s Hg. cbn. unfold group_sound in *. cbn.
  eapply nested_ext; [| |reflexivity|exact Hg]; [|done].
  intros x. cbv beta. unfold upd. destruct (Nat.eqb_spec x sh) as [-> |]; [apply Hf|done].
Qed.

Lemma gs_modify_then {A} sh (f : Shape → Shape) (k : M A) :
  (∀ o, groups (f o) = groups o) →
  preserves group_sound k →
  preserves group_sound (o <- shape sh ;; set_shape sh (f o) ;; k).
Proof.
  intros Hf Hk s HI. pose proof (gs_modify sh f Hf s HI) as Hm.
  unfold bind, shape, get, set_shape, update in Hm |- *. by apply Hk.
Qed.

Lemma gs_tk_create k cs f o sm : preserves group_sound (tk_create k cs f o sm).
Proof. intros s HI. unfold tk_create. by destruct (Tk.create k cs f o sm (tk s)). Qed.

(** *** Forming a group *)

Lemma two_distinct (l : list nat) x :
  (2 ≤ length l)%nat → NoDup l → x ∈ l → ∃ y, y ≠ x ∧ y ∈ l.
Proof.
  intros Hlen Hnd Hx. destruct l as [|a [|b l]]; [simpl in Hlen; lia..|].
  apply NoDup_cons in Hnd as [Hab _]. apply not_elem_of_cons in Hab as [Hab _].
  destruct (decide (x = a)) as [-> |Hne].
  - exists b. split; [done|]. right. left.
  - exists a. split; [done|]. left.
Qed.

Lemma nested_push sel stack members ns ng :
  nested sel stack members ns ng → (2 ≤ length sel)%nat → (∀ x, x ∈ sel → (x < ns)%nat) →
  nested sel (fun x => if decide (x ∈ sel) then stack x ++ [ng] else stack x)
             (fun g => if decide (g = ng) then sel else members g) ns (S ng).
Proof.
  intros Hn Hlen Hal.
  assert (Hfresh : members ng = []) by (by apply (nested_fresh_group _ _ _ _ _ Hn)).
  assert (Hnot : ∀ x, ng ∉ stack x).
  { intros x Hin. pose proof (nested_old_group _ _ _ _ _ _ _ Hn Hin). lia. }
  constructor.
  - apply (nested_sel _ _ _ _ _ Hn).
  - intros x Hx. rewrite decide_False; [by apply (nested_fresh_shape _ _ _ _ _ Hn)|].
    intros Hin. specialize (Hal x Hin). lia.
  - intros g Hg. rewrite decide_False by lia. apply (nested_fresh_group _ _ _ _ _ Hn). lia.
  - intros x g. destruct (decide (g = ng)) as [-> |Hne].
    + destruct (decide (x ∈ sel)) as [Hin|Hni].
      * split; [done|]. intros _. apply elem_of_app. right. left.
      * split; [|done]. intros Hg. by apply Hnot in Hg.
    + rewrite <- (nested_member _ _ _ _ _ Hn). destruct (decide (x ∈ sel)); [|done].
      rewrite elem_of_app, list_elem_of_singleton. tauto.
  - intros x. destruct (decide (x ∈ sel)); [|apply (nested_sorted _ _ _ _ _ Hn)].
    apply StronglySorted_app_2.
    + intros g1 g2 Hg1 ->%list_elem_of_singleton.
      apply (nested_old_group _ _ _ _ _ _ _ Hn Hg1).
    + apply (nested_sorted _ _ _ _ _ Hn).
    + repeat constructor.
  - intros g. destruct (decide (g = ng)); [apply (nested_sel _ _ _ _ _ Hn)|].
    apply (nested_distinct _ _ _ _ _ Hn).
  - intros x y g g'. destruct (decide (g = ng)) as [-> |Hg].
    + intros _ _ Hlt. rewrite decide_False by lia.
      rewrite (nested_fresh_group _ _ _ _ _ Hn g') by lia. intros Hx.
      by apply elem_of_nil in Hx.
    + destruct (decide (g' = ng)) as [-> |Hg'].
      * intros Hx Hy _ Hs. by apply (nested_closed _ _ _ _ _ Hn x y g).
      * apply (nested_later _ _ _ _ _ Hn).
  - intros g x. destruct (decide (g = ng)) as [-> |Hg].
    + intros Hx. apply two_distinct; [done|apply (nested_sel _ _ _ _ _ Hn)|done].
    + apply (nested_pair _ _ _ _ _ Hn).
  - intros x y g Hx. destruct (decide (g = ng)); [done|].
    by apply (nested_closed _ _ _ _ _ Hn).
Qed.

Lemma gs_group_shapes :
  hoare (fun s => doc_sound s ∧ group_sound s) group_shapes (fun _ => group_sound) group_sound.
Proof.
  intros s [Hd Hg].
  destruct (Nat.le_gt_cases 2 (length (selected_shapes s))) as [Hlen|Hlen].
  2:{ unfold group_shapes, bind, get.
      destruct (Nat.ltb_spec 1 (length (selected_shapes s))) as [Hlt|_]; [lia|done]. }
  rewrite group_shapes_run by done.
  pose proof (nested_push _ _ _ _ _ Hg Hlen (proj1 (proj2 (proj2 (proj2 Hd))))) as Hp.
  unfold group_sound, grouped. cbn -[group_rounds].
  eapply nested_ext; [| |reflexivity|exact Hp].
  - intros x. cbv beta. destruct (decide (x ∈ selected_shapes s)) as [Hin|Hni].
    + apply group_rounds_pushed; [apply Hd|done].
    + by rewrite group_rounds_untouched.
  - intros g. cbv beta. destruct (decide (g = next_group s)) as [-> |Hne].
    + by rewrite group_rounds_members, upd_same.
    + rewrite group_rounds_other by done. by rewrite upd_other.
Qed.

(** *** Dissolving a group *)

Lemma nested_pop sel stack members ns ng g0 :
  nested sel stack members ns ng → sel ≠ [] →
  (∀ x, x ∈ sel → last (stack x) = Some g0) →
  nested sel (fun x => if decide (x ∈ sel) then removelast (stack x) else stack x)
             (fun g => if decide (g = g0) then [] else members g) ns ng.
Proof.
  intros Hn Hne Htop.
  assert (Hsub : ∀ x, x ∈ sel → x ∈ members g0).
  { intros x Hx. apply (nested_member _ _ _ _ _ Hn). specialize (Htop x Hx).
    apply last_Some in Htop as [l' ->]. apply elem_of_app. right. left. }
  assert (Hsup : ∀ y, y ∈ members g0 → y ∈ sel).
  { intros y Hy. destruct sel as [|x sel']; [done|].
    apply (nested_closed _ _ _ _ _ Hn x y g0); [left|apply Hsub; left|done]. }
  constructor.
  - apply (nested_sel _ _ _ _ _ Hn).
  - intros x Hx. rewrite (nested_fresh_shape _ _ _ _ _ Hn x Hx). by destruct (decide _).
  - intros g Hg. destruct (decide (g = g0)); [done|]. by apply (nested_fresh_group _ _ _ _ _ Hn).
  - intros x g. destruct (decide (x ∈ sel)) as [Hin|Hni].
    + pose proof (Htop x Hin) as Hl. apply last_Some in Hl as [l' Hl].
      pose proof (nested_sorted _ _ _ _ _ Hn x) as Hs. rewrite Hl in Hs.
      pose proof (nested_member _ _ _ _ _ Hn x g) as Hm. rewrite Hl in Hm.
      rewrite Hl, removelast_last. destruct (decide (g = g0)) as [-> |Hg].
      * split; [|by intros ?%elem_of_nil]. intros Hin'.
        pose proof (StronglySorted_app_1_elem_of _ _ _ g0 g0 Hs Hin' (list_elem_of_here _ _)).
        lia.
      * rewrite <- Hm, elem_of_app, list_elem_of_singleton. tauto.
    + destruct (decide (g = g0)) as [-> |Hg]; [|apply (nested_member _ _ _ _ _ Hn)].
      split; [|by intros ?%elem_of_nil]. intros Hin'. exfalso. apply Hni, Hsup.
      by apply (nested_member _ _ _ _ _ Hn).
  - intros x. destruct (decide (x ∈ sel)); [|apply (nested_sorted _ _ _ _ _ Hn)].
    apply sorted_removelast, (nested_sorted _ _ _ _ _ Hn).
  - intros g. destruct (decide (g = g0)); [apply NoDup_nil_2|apply (nested_distinct _ _ _ _ _ Hn)].
  - intros x y g g'. destruct (decide (g = g0)); [by intros ?%elem_of_nil|].
    destruct (decide (g' = g0)); [by intros _ _ _ ?%elem_of_nil|].
    apply (nested_later _ _ _ _ _ Hn).
  - intros g x. destruct (decide (g = g0)); [by intros ?%elem_of_nil|].
    apply (nested_pair _ _ _ _ _ Hn).
  - intros x y g Hx. destruct (decide (g = g0)); [by intros ?%elem_of_nil|].
    by apply (nested_closed _ _ _ _ _ Hn).
Qed.

Lemma gs_popup msg : preserves group_sound (show_popup_message msg).
Proof. intros s Hg. exact Hg. Qed.

Lemma gs_ungroup_shapes : preserves group_sound ungroup_shapes.
Proof.
  intros s Hg. rewrite ungroup_shapes_unfold.
  destruct (selected_shapes s) as [|first rest] eqn:Esel; [done|].
  destruct (last (groups (shape_heap s first))) as [g|] eqn:Etop; [|exact Hg].
  destruct (Z.eqb_spec (ungroup_flag (shape_heap s) g (first :: rest)) 0) as [Hflag|Hflag];
    [|exact Hg].
  pose proof (proj1 (ungroup_flag_zero _ _ _) Hflag) as Hcommon.
  unfold group_sound in Hg. rewrite Esel in Hg.
  assert (Hnd : NoDup (first :: rest)) by apply (nested_sel _ _ _ _ _ Hg).
  assert (Hmem : ∀ sh, sh ∈ first :: rest → sh ∈ Group.shapes (group_heap s g)).
  { intros sh Hin. apply (nested_member _ _ _ _ _ Hg sh g). specialize (Hcommon sh Hin).
    apply last_Some in Hcommon as [l' Hl]. cbv beta. rewrite Hl.
    apply elem_of_app. right. left. }
  pose proof (ungroup_loop g (first :: rest) s) as Hloop.
  destruct (ungroup_rounds_succeed g (first :: rest) (shape_heap s) (group_heap s) Hnd Hmem)
    as [[H' G'] Hr].
  rewrite Hr in Hloop. rewrite Hloop.
  pose proof (nested_pop _ _ _ _ _ g Hg ltac:(done) Hcommon) as Hp.
  unfold group_sound. cbn. rewrite Esel.
  eapply nested_ext; [| |reflexivity|exact Hp].
  - intros x. cbv beta. destruct (decide (x ∈ first :: rest)) as [Hin|Hni].
    + by apply (ungroup_rounds_popped _ _ _ _ _ _ _ Hr).
    + by rewrite (ungroup_rounds_untouched _ _ _ _ _ _ _ Hr Hni).
  - intros g'. cbv beta. destruct (decide (g' = g)) as [-> |Hne].
    + pose proof (ungroup_rounds_members _ _ _ _ _ _ Hr) as Hperm.
      destruct (Group.shapes (G' g)) as [|z m] eqn:Em; [done|]. exfalso.
      pose proof (nested_distinct _ _ _ _ _ Hg g) as Hd. cbv beta in Hd.
      rewrite Hperm in Hd. apply NoDup_app in Hd as (_ & Hdis & _).
      assert (Hz : z ∈ Group.shapes (group_heap s g)).
      { rewrite Hperm. apply elem_of_app. right. left. }
      assert (Hzs : z ∈ first :: rest).
      { apply (nested_closed _ _ _ _ _ Hg first z g); [left|apply Hmem; left|done]. }
      apply (Hdis z Hzs). left.
    + by rewrite (ungroup_rounds_other _ _ _ _ _ _ _ Hr Hne).
Qed.

#[local] Hint Resolve gs_select_overlapping gs_clear_selection gs_tk_create gs_ungroup_shapes
  gs_popup : hoare.

Ltac gs_special :=
  lazymatch goal with
  | |- hoare group_sound
         (bind (shape ?sh) (fun o => bind (set_shape ?sh (@?f o)) (fun _ => ?k))) _ _ =>
      apply (gs_modify_then sh f k); [reflexivity|]
  | |- hoare group_sound (bind (shape ?sh) (fun o => set_shape ?sh (@?f o))) _ _ =>
      apply (gs_modify sh f); reflexivity
  | |- hoare group_sound (new_shape _) _ _ => apply gs_new_shape; reflexivity
  end.

Ltac gs_run := repeat first [gs_special | hoare_step].

(** The methods, down to the calls into Tk and the object heap; the loops
    on the selection and on the groups are kept whole. *)
Ltac unfold_methods :=
  unfold highlight, set_color, set_tool, set_mode, set_style,
    open_file, FileManager.open_file, save_file, FileManager.save_file, save_to_xml,
    on_drag, on_click, highlight_shapes_in_area,
    edit_selected_shape, update_rectangle_style,
    move_shape, move_one, copy_shape, delete_shape, draw_shape, redraw_shapes, int_arg,
    construct_shape_from_shape_object, shape_line, clear_properties_text,
    remove_shape_object, append_shape_object, finalize,
    Shape_update, Rectangle_update, Line_update, draw_rounded_rectangle,
    Rectangle_init, Line_init, anchor,
    tk_bbox, tk_gettags, create_text, tk_itemconfig_fill, tk_itemconfig_width, tk_itemcget,
    tk_move, tk_coords, tk_type, tk_delete_all, tk_delete, create_polygon, create_rectangle,
    create_line, need_item.

Lemma gs_perform fo bb nm El fs wr c :
  hoare (fun s => doc_sound s ∧ group_sound s) (perform fo bb nm El fs wr c)
    (fun _ => group_sound) group_sound.
Proof.
  assert (Hweak : ∀ m : M unit, preserves group_sound m →
            hoare (fun s => doc_sound s ∧ group_sound s) m (fun _ => group_sound) group_sound).
  { intros m Hm. eapply hoare_conseq; [exact Hm| | |]; try done. by intros s [_ ?]. }
  destruct c; cbn [perform]; try (apply Hweak; unfold_methods; gs_run; fail).
  unfold on_release.
  apply (hoare_bind (fun _ s => doc_sound s ∧ group_sound s)).
  { apply hoare_get. by intros s HP. }
  intros m.
  repeat (destruct (bool_decide _);
          [first [ apply Hweak; unfold_methods; gs_run; fail
                 | apply (hoare_bind (fun _ => group_sound)); [apply gs_group_shapes|];
                   intros _; gs_run ]|]).
  apply Hweak. unfold_methods. gs_run.
Qed.

Lemma sessions_perform fo bb nm El fs wr c :
  preserves (fun s => doc_sound s ∧ group_sound s) (perform fo bb nm El fs wr c).
Proof.
  intros s [Hd Hg].
  pose proof (doc_perform fo bb nm El fs wr c s Hd) as H1.
  pose proof (gs_perform fo bb nm El fs wr c s (conj Hd Hg)) as H2.
  by destruct (perform fo bb nm El fs wr c s) as [[[]|e] s'].
Qed.

Lemma group_sound_init argv disk : group_sound (init argv disk).
Proof.
  unfold group_sound. cbn. constructor.
  - apply NoDup_nil_2.
  - done.
  - done.
  - intros x g. split; intros Hx; by apply elem_of_nil in Hx.
  - intros x. constructor.
  - intros g. apply NoDup_nil_2.
  - intros x y g g' Hx. by apply elem_of_nil in Hx.
  - intros g x Hx. by apply elem_of_nil in Hx.
  - intros x y g Hx. by apply elem_of_nil in Hx.
Qed.

Lemma sessions_sound fo bb nm El fs wr argv disk cs :
  let s := mainloop fo bb nm El fs wr cs (init argv disk) in
  doc_sound s ∧ group_sound s.
Proof.
  apply (mainloop_keeps _ _ _ _ _ _ (fun s => doc_sound s ∧ group_sound s)).
  - apply sessions_perform.
  - split; [apply doc_sound_init|apply group_sound_init].
Qed.

(** A selected shape that is in a group is selected together with another
    member of the group on top of its stack. *)
Lemma grouped_selected_shares_top s sh :
  group_sound s → sh ∈ selected_shapes s → groups (shape_heap s sh) ≠ [] →
  top_shared s sh = true.
Proof.
  intros Hg Hin Hne. unfold group_sound in Hg.
  destruct (last (groups (shape_heap s sh))) as [g|] eqn:El.
  2:{ by apply last_None in El. }
  assert (Hm : sh ∈ Group.shapes (group_heap s g)).
  { apply (nested_member _ _ _ _ _ Hg sh g). cbv beta.
    apply last_Some in El as [l' ->]. apply elem_of_app. right. left. }
  destruct (nested_pair _ _ _ _ _ Hg g sh Hm) as (y & Hy & Hym).
  unfold top_shared. apply existsb_exists. exists y. split.
  - apply list_elem_of_In. by apply (nested_closed _ _ _ _ _ Hg sh y g).
  - apply andb_true_iff. split.
    + apply negb_true_iff. by apply Nat.eqb_neq.
    + apply bool_decide_eq_true. rewrite El.
      by apply (nested_top _ _ _ _ _ sh y g Hg).
Qed.

Lemma filter_agree {A} (P Q : A → Prop) `{∀ x, Decision (P x)} `{∀ x, Decision (Q x)}
    (l : list A) :
  (∀ x, x ∈ l → P x ↔ Q x) → filter P l = filter Q l.
Proof.
  induction l as [|a l IH]; intros Hpq; [done|].
  rewrite !filter_cons. rewrite IH by (intros x Hx; apply Hpq; by right).
  destruct (decide (P a)) as [Hp|Hp], (decide (Q a)) as [Hq|Hq]; try done.
  - by apply (Hpq a (list_elem_of_here _ _)) in Hp.
  - by apply (Hpq a (list_elem_of_here _ _)) in Hq.
Qed.

(** C8.  In every state the editor reaches, grouping two or more selected
    shapes gives the new group, as its direct shapes, exactly the selected
    shapes whose stack was empty or whose top group is the top group of no
    other selected shape, in selection order, and as its sub-groups exactly
    the groups found on top of the selected shapes' stacks, each of them
    on top of two selected shapes at least, each once.
    [add_shapes] only asks whether a stack is empty: the two agree because
    area selection brings in a grouped shape together with all members of
    its groups, so that a selected shape's top group is always shared. *)
Theorem group_partitions_members fo bb nm (El : Type) fs wr argv disk (cs : list Command) :
  let s := mainloop fo bb nm El fs wr cs (init argv disk) in
  (2 ≤ length (selected_shapes s))%nat →
  ∃ s', group_shapes s = (Py.Ok tt, s') ∧
    Group.indv_shapes (group_heap s' (next_group s)) = spec_direct_shapes s ∧
    (∀ t, t ∈ Group.sub_grps (group_heap s' (next_group s)) ↔
          ∃ sh, sh ∈ selected_shapes s ∧ last (groups (shape_heap s sh)) = Some t ∧
                top_shared s sh = true) ∧
    NoDup (Group.sub_grps (group_heap s' (next_group s))).
Proof.
  cbv zeta. intros Hlen.
  destruct (sessions_sound fo bb nm El fs wr argv disk cs) as [Hd Hg].
  set (s := mainloop fo bb nm El fs wr cs (init argv disk)) in *.
  assert (Hnd : NoDup (selected_shapes s)) by apply Hd.
  exists (grouped s). split; [by apply group_shapes_run|].
  unfold grouped. cbn -[group_rounds]. split_and!.
  - rewrite (group_rounds_indv _ _ _ _ (shape_heap s)) by done. rewrite upd_same.
    cbn [Group.indv_shapes Group.new app]. unfold spec_direct_shapes.
    apply filter_agree. intros sh Hin. split; [by left|].
    intros [He|Hno]; [done|].
    destruct (decide (groups (shape_heap s sh) = [])) as [|Hne]; [done|].
    by rewrite (grouped_selected_shares_top s sh Hg Hin Hne) in Hno.
  - intros t. rewrite (group_rounds_sub _ _ _ _ (shape_heap s)) by done.
    rewrite upd_same. simpl. split.
    + intros [Hin|(sh & Hin & Hl)]; [by apply elem_of_nil in Hin|].
      exists sh. split_and!; [done..|].
      apply (grouped_selected_shares_top s sh Hg Hin). intros Hnil.
      by rewrite Hnil in Hl.
    + intros (sh & Hin & Hl & _). right. by exists sh.
  - apply group_rounds_sub_NoDup. rewrite upd_same. apply NoDup_nil_2.
Qed.

(** Two lines are grouped, a third is drawn, and a sweep in group mode
    meets the three of them: the two come in with their group on top, the
    third is the only direct shape of the group that is formed. *)
Example regrouping_selects_the_group :
  let s := Session.run [1; 2; 3] Session.regrouping (init None ∅) in
  selected_shapes s = [0; 1; 2]%nat ∧
  map (fun sh => groups (shape_heap s sh)) [0; 1; 2]%nat = [[0]; [0]; []]%nat ∧
  spec_direct_shapes s = [2%nat] ∧
  Group.indv_shapes (group_heap (after group_shapes s) (next_group s)) = [2%nat] ∧
  Group.sub_grps (group_heap (after group_shapes s) (next_group s)) = [0%nat].
Proof. vm_compute. done. Qed.

(** The release of that sweep forms a group as C8 says. *)
Lemma group_partitions_members_witness :
  let s := Session.run [1; 2; 3] Session.regrouping (init None ∅) in
  (2 ≤ length (selected_shapes s))%nat ∧
  ∃ s', group_shapes s = (Py.Ok tt, s') ∧
    Group.indv_shapes (group_heap s' (next_group s)) = spec_direct_shapes s ∧
    (∀ t, t ∈ Group.sub_grps (group_heap s' (next_group s)) ↔
          ∃ sh, sh ∈ selected_shapes s ∧ last (groups (shape_heap s sh)) = Some t ∧
                top_shared s sh = true) ∧
    NoDup (Group.sub_grps (group_heap s' (next_group s))).
Proof.
  split; [vm_compute; lia|].
  apply (group_partitions_members (fun _ _ _ _ _ => [1; 2; 3])
           (fun _ _ => Some (0, 0, 10, 10)) (fun _ ids => Py.Ok ids) unit
           (fun _ => Py.Ok tt) (fun _ => "") None ∅ Session.regrouping).
  vm_compute. lia.
Defined.
